(** * Bispo Barber System: appointments, payment reconciliation, authorization

    A shallow embedding of the server side of the booking application
    (server/products.ts, drizzle/schema.ts, server/db.ts,
    server/stripe-webhook.ts, server/stripe-router.ts, server/routers.ts)
    and the properties of its payment-webhook reconciliation and of its
    access checks.

    Conventions of the embedding.
    - JavaScript strings are [string]s holding the UTF-8 encoding of the text.
    - JavaScript numbers that the code uses as integers (row ids, prices in
      cents, timestamps in milliseconds) are [Z].  [parseInt] returns
      [option Z], [None] being NaN.
    - The relational store is a record of tables, each a [gmap] from the
      primary key to the row.  Statements run against it are total functions:
      a statement that MySQL would reject because of a foreign key or of a
      primary key that is taken returns an error, every other statement
      executes.  Failures of the driver or of
      the connection are outside the model, so a try/catch whose handler only
      logs has no counterpart.
    - An async procedure is a function from the world to a result and a new
      world; a thrown error is a result [inl e] and keeps whatever was written
      before the throw. *)

From Stdlib Require Import ZArith Lia Ascii DecimalString DecimalPos.
From stdpp Require Import base decidable option list strings gmap sorting.

Local Open Scope Z_scope.

(** ** JavaScript primitives used by the server *)

Module Js.

Definition code (c : ascii) : Z := Z.of_N (Ascii.N_of_ascii c).
Definition chr (z : Z) : ascii := Ascii.ascii_of_N (Z.to_N z).

(** [x || d] for a string-or-null/undefined [x]: null, undefined and the
    empty string are falsy. *)
Definition or_else (x : option string) (d : string) : string :=
  match x with
  | Some (String c s) => String c s
  | _ => d
  end.

(** [!x] for a string-or-undefined [x]. *)
Definition falsy_str (x : option string) : bool :=
  match x with
  | Some (String _ _) => false
  | _ => true
  end.

(** [!n] for a number: NaN, +0 and -0 are falsy. *)
Definition falsy_num (n : option Z) : bool :=
  match n with
  | Some z => z =? 0
  | None => true
  end.

(** [s.startsWith(p)] *)
Fixpoint startsWith (p s : string) : bool :=
  match p, s with
  | EmptyString, _ => true
  | String a p', String b s' => if decide (a = b) then startsWith p' s' else false
  | String _ _, EmptyString => false
  end.

(** White space skipped by [parseInt] (WhiteSpace and LineTerminator of
    ECMAScript), as UTF-8: one, two or three bytes. *)
Definition ws1 (c : ascii) : bool :=
  let n := code c in
  (n =? 9) || (n =? 10) || (n =? 11) || (n =? 12) || (n =? 13) || (n =? 32).

(* U+00A0 *)
Definition ws2 (c1 c2 : ascii) : bool :=
  (code c1 =? 194) && (code c2 =? 160).

(* U+1680, U+2000..U+200A, U+2028, U+2029, U+202F, U+205F, U+3000, U+FEFF *)
Definition ws3 (c1 c2 c3 : ascii) : bool :=
  let a := code c1 in let b := code c2 in let c := code c3 in
  ((a =? 225) && (b =? 154) && (c =? 128))
  || ((a =? 226) && (b =? 128)
      && (((128 <=? c) && (c <=? 138)) || (c =? 168) || (c =? 169) || (c =? 175)))
  || ((a =? 226) && (b =? 129) && (c =? 159))
  || ((a =? 227) && (b =? 128) && (c =? 128))
  || ((a =? 239) && (b =? 187) && (c =? 191)).

Fixpoint trimStart (s : string) : string :=
  match s with
  | EmptyString => s
  | String c1 s1 =>
    if ws1 c1 then trimStart s1
    else match s1 with
         | EmptyString => s
         | String c2 s2 =>
           if ws2 c1 c2 then trimStart s2
           else match s2 with
                | EmptyString => s
                | String c3 s3 => if ws3 c1 c2 c3 then trimStart s3 else s
                end
         end
  end.

(** Value of a digit in the given radix (10 or 16 here). *)
Definition digit (radix : Z) (c : ascii) : option Z :=
  let n := code c in
  let v := if (48 <=? n) && (n <=? 57) then n - 48
           else if (97 <=? n) && (n <=? 122) then n - 87
           else if (65 <=? n) && (n <=? 90) then n - 55
           else radix in
  if v <? radix then Some v else None.

(** The longest prefix of digits, read in the radix; [acc] is [None] until
    a first digit has been read. *)
Fixpoint digits (radix : Z) (acc : option Z) (s : string) : option Z :=
  match s with
  | EmptyString => acc
  | String c s' =>
    match digit radix c with
    | Some v => digits radix (Some (radix * default 0 acc + v)) s'
    | None => acc
    end
  end.

(** [parseInt(s)] with no radix argument: skip white space, read a sign, read
    a [0x]/[0X] prefix (radix 16, otherwise 10), then the longest prefix of
    digits; NaN when there is no digit.  The result is the mathematical
    integer; JavaScript rounds it to a double, which is the same number up to
    2^53 and stays at or above 2^53 in magnitude beyond, so a comparison with
    a row id (a 32-bit column) is not affected. *)
Definition parseInt (s : string) : option Z :=
  let s0 := trimStart s in
  let '(sign, s1) :=
    match s0 with
    | String "-" r => (-1, r)
    | String "+" r => (1, r)
    | _ => (1, s0)
    end in
  let '(radix, s2) :=
    match s1 with
    | String "0" (String "x" r) => (16, r)
    | String "0" (String "X" r) => (16, r)
    | _ => (10, s1)
    end in
  match digits radix None s2 with
  | Some m => Some (sign * m)
  | None => None
  end.

(** [n.toString()] for an integer [n] (below 10^21 in magnitude). *)
Definition toString (n : Z) : string :=
  NilZero.string_of_int (Z.to_int n).

(** Letter case.  [toLowerCase] maps the upper-case letters of Basic Latin
    (A..Z) and of the Latin-1 Supplement (U+00C0..U+00DE except U+00D7, the
    two bytes 195, 128..158 of UTF-8) to their lower-case letters; text of
    other scripts is left as it is. *)
Definition upper1 (c : ascii) : bool := (65 <=? code c) && (code c <=? 90).

Definition upper2 (c1 c2 : ascii) : bool :=
  (code c1 =? 195) && (128 <=? code c2) && (code c2 <=? 158)
  && negb (code c2 =? 151).

Fixpoint toLowerCase (s : string) : string :=
  match s with
  | EmptyString => EmptyString
  | String c1 s1 =>
    if upper1 c1 then String (chr (code c1 + 32)) (toLowerCase s1)
    else match s1 with
         | String c2 s2 =>
           if upper2 c1 c2
           then String c1 (String (chr (code c2 + 32)) (toLowerCase s2))
           else String c1 (toLowerCase s1)
         | EmptyString => String c1 EmptyString
         end
  end.

(** [caseVariant s t]: [t] is [s] with the case of some of its letters
    changed (the letters [toLowerCase] knows). *)
Inductive caseVariant : string -> string -> Prop :=
| cv_nil : caseVariant "" ""
| cv_same c s t :
    caseVariant s t -> caseVariant (String c s) (String c t)
| cv_lower c s t :
    upper1 c = true -> caseVariant s t ->
    caseVariant (String c s) (String (chr (code c + 32)) t)
| cv_upper c s t :
    upper1 c = true -> caseVariant s t ->
    caseVariant (String (chr (code c + 32)) s) (String c t)
| cv_lower2 c1 c2 s t :
    upper2 c1 c2 = true -> caseVariant s t ->
    caseVariant (String c1 (String c2 s))
                (String c1 (String (chr (code c2 + 32)) t))
| cv_upper2 c1 c2 s t :
    upper2 c1 c2 = true -> caseVariant s t ->
    caseVariant (String c1 (String (chr (code c2 + 32)) s))
                (String c1 (String c2 t)).

(** [(n / 100).toFixed(2)] for an integer [n]: the quotient is a double, but
    for |n| < 2^52 the nearest number with two decimals is n/100 itself, so
    the digits are those of [n] with a point before the last two. *)
Definition pad2 (n : Z) : string :=
  if n <? 10 then "0" +:+ toString n else toString n.

Definition div100_toFixed2 (n : Z) : string :=
  let a := Z.abs n in
  (if n <? 0 then "-" else "") +:+ toString (a / 100) +:+ "." +:+ pad2 (a mod 100).

End Js.

(** ** server/products.ts *)

Module Products.

Record Service := mkService {
  id : string;
  name : string;
  description : string;
  price : Z;       (* cents *)
  currency : string;
  duration : Z     (* minutes *)
}.

#[global] Instance Service_eq_dec : EqDecision Service.
Proof. solve_decision. Defined.

Definition HAIRCUT : Service :=
  mkService "haircut" "Corte de Cabelo" "Corte de cabelo profissional"
            2500 "usd" 30.

Definition HAIR_AND_EYEBROW : Service :=
  mkService "hair_eyebrow" "Cabelo e Sobrancelha"
            "Corte de cabelo com aparação de sobrancelha" 3000 "usd" 45.

Definition FULL_SERVICE : Service :=
  mkService "full_service" "Serviço Completo"
            "Corte de cabelo, aparação de sobrancelha e barba" 4000 "usd" 60.

(** [Object.values(BARBERSHOP_SERVICES)], in the order of the keys. *)
Definition BARBERSHOP_SERVICES : list Service :=
  [HAIRCUT; HAIR_AND_EYEBROW; FULL_SERVICE].

(** [Array.prototype.find] *)
Definition find {A} (p : A -> bool) (l : list A) : option A :=
  List.find p l.

Definition getServiceById (i : string) : option Service :=
  find (fun service => bool_decide (id service = i)) BARBERSHOP_SERVICES.

Definition getServiceByName (n : string) : option Service :=
  let normalized := Js.toLowerCase n in
  find (fun service =>
          bool_decide (Js.toLowerCase (name service) = normalized)
          || bool_decide (id service = normalized))
       BARBERSHOP_SERVICES.

Definition getAllServices : list Service := BARBERSHOP_SERVICES.

Definition formatPrice (priceInCents : Z) : string :=
  "$" +:+ Js.div100_toFixed2 priceInCents.

End Products.

(** ** drizzle/schema.ts

    A row is a record of its columns, without the primary key [id], which is
    the key of the table.  A nullable column is an [option]; a timestamp is
    a number of milliseconds. *)

Module Schema.

Inductive Role := RoleUser | RoleAdmin.
Inductive AppointmentStatus := Confirmed | Pending | Completed | Cancelled.
Inductive PaymentStatus := PayPending | PayCompleted | PayFailed | PayRefunded.
Inductive ConversationStatus := Active | ConvCompleted | Archived.
Inductive MessageRole := MsgUser | MsgAssistant.
Inductive Quality := Excellent | Good | Acceptable | Poor.

#[global] Instance Role_eq_dec : EqDecision Role.
Proof. solve_decision. Defined.
#[global] Instance AppointmentStatus_eq_dec : EqDecision AppointmentStatus.
Proof. solve_decision. Defined.
#[global] Instance PaymentStatus_eq_dec : EqDecision PaymentStatus.
Proof. solve_decision. Defined.
#[global] Instance ConversationStatus_eq_dec : EqDecision ConversationStatus.
Proof. solve_decision. Defined.
#[global] Instance MessageRole_eq_dec : EqDecision MessageRole.
Proof. solve_decision. Defined.
#[global] Instance Quality_eq_dec : EqDecision Quality.
Proof. solve_decision. Defined.

(** A column under [.set]: the new value if one is given. *)
Definition over {A} (new : option A) (old : option A) : option A :=
  match new with Some x => Some x | None => old end.

Module User.
Record t := mk {
  openId : string;
  name : option string;
  email : option string;
  loginMethod : option string;
  role : Role;                       (* default "user" *)
  stripeCustomerId : option string;
  createdAt : Z;
  updatedAt : Z;                     (* onUpdateNow *)
  lastSignedIn : Z
}.
#[global] Instance User_eq_dec : EqDecision t.
Proof. solve_decision. Defined.
Definition touch (now : Z) (u : t) : t :=
  mk (openId u) (name u) (email u) (loginMethod u) (role u)
     (stripeCustomerId u) (createdAt u) now (lastSignedIn u).
End User.

Module Conversation.
Record t := mk {
  userId : Z;                        (* references users.id *)
  title : option string;             (* default "New Conversation" *)
  status : option ConversationStatus; (* default "active" *)
  createdAt : Z;
  updatedAt : Z
}.
#[global] Instance Conversation_eq_dec : EqDecision t.
Proof. solve_decision. Defined.
End Conversation.

Module Message.
Record t := mk {
  conversationId : Z;                (* references conversations.id *)
  role : MessageRole;
  content : string;
  metadata : option string;
  createdAt : Z
}.
#[global] Instance Message_eq_dec : EqDecision t.
Proof. solve_decision. Defined.
End Message.

Module Appointment.
Record t := mk {
  userId : Z;                        (* references users.id *)
  conversationId : option Z;         (* references conversations.id *)
  googleCalendarEventId : option string;
  barberName : option string;
  service : string;
  duration : Z;
  scheduledAt : Z;
  status : option AppointmentStatus; (* default "pending" *)
  paymentStatus : option PaymentStatus; (* default "pending" *)
  stripePaymentIntentId : option string;
  stripeCheckoutSessionId : option string;
  priceInCents : option Z;
  notes : option string;
  createdAt : Z;
  updatedAt : Z                      (* onUpdateNow *)
}.
#[global] Instance Appointment_eq_dec : EqDecision t.
Proof. solve_decision. Defined.
Definition touch (now : Z) (a : t) : t :=
  mk (userId a) (conversationId a) (googleCalendarEventId a) (barberName a)
     (service a) (duration a) (scheduledAt a) (status a) (paymentStatus a)
     (stripePaymentIntentId a) (stripeCheckoutSessionId a) (priceInCents a)
     (notes a) (createdAt a) now.

(** The argument of [.set(...)]: a partial row, with the columns that the
    callers set.  A column that is absent or [undefined] ([None]) is left as
    it is. *)
Record partial := mkPartial {
  p_scheduledAt : option Z;
  p_status : option AppointmentStatus;
  p_paymentStatus : option PaymentStatus;
  p_stripePaymentIntentId : option string;
  p_stripeCheckoutSessionId : option string;
  p_priceInCents : option Z
}.
#[global] Instance partial_eq_dec : EqDecision partial.
Proof. solve_decision. Defined.

(** A partial row without any value: drizzle's [.set] throws on it. *)
Definition noValues : partial := mkPartial None None None None None None.

Definition set (p : partial) (a : t) : t :=
  mk (userId a) (conversationId a) (googleCalendarEventId a) (barberName a)
     (service a) (duration a)
     (default (scheduledAt a) (p_scheduledAt p))
     (over (p_status p) (status a))
     (over (p_paymentStatus p) (paymentStatus a))
     (over (p_stripePaymentIntentId p) (stripePaymentIntentId a))
     (over (p_stripeCheckoutSessionId p) (stripeCheckoutSessionId a))
     (over (p_priceInCents p) (priceInCents a))
     (notes a) (createdAt a) (updatedAt a).

(** Two rows that differ at most in the checkout session id, the price and
    the time of the last update. *)
Definition sameButCheckout (a a' : t) : Prop :=
  userId a' = userId a /\ conversationId a' = conversationId a
  /\ googleCalendarEventId a' = googleCalendarEventId a
  /\ barberName a' = barberName a /\ service a' = service a
  /\ duration a' = duration a /\ scheduledAt a' = scheduledAt a
  /\ status a' = status a /\ paymentStatus a' = paymentStatus a
  /\ stripePaymentIntentId a' = stripePaymentIntentId a
  /\ notes a' = notes a /\ createdAt a' = createdAt a.
End Appointment.

Module TrainingExample.
Record t := mk {
  createdByUserId : Z;               (* references users.id *)
  userMessage : string;
  assistantResponse : string;
  category : string;
  quality : option Quality;          (* default "good" *)
  active : option Z;                 (* default 1 *)
  createdAt : Z;
  updatedAt : Z                      (* onUpdateNow *)
}.
#[global] Instance TrainingExample_eq_dec : EqDecision t.
Proof. solve_decision. Defined.
Definition touch (now : Z) (e : t) : t :=
  mk (createdByUserId e) (userMessage e) (assistantResponse e) (category e)
     (quality e) (active e) (createdAt e) now.
End TrainingExample.

End Schema.

(** ** server/db.ts *)

Module Db.
Import Schema.

(** A table with an auto-increment primary key. *)
Record Table (R : Type) := mkTable {
  rows : gmap Z R;
  autoIncrement : Z
}.
Arguments mkTable {R} _ _.
Arguments rows {R} _.
Arguments autoIncrement {R} _.

Record Store := mkStore {
  users : Table User.t;
  conversations : Table Conversation.t;
  messages : Table Message.t;
  appointments : Table Appointment.t;
  trainingExamples : Table TrainingExample.t
}.

(** The process: [_db] is the store behind the lazily created handle, [None]
    when DATABASE_URL is not set or the handle could not be created. *)
Record World := mkWorld { _db : option Store }.

Inductive Error :=
| TRPCError (code : string)
| JsError (message : string)
| SqlError (message : string).

#[global] Instance Error_eq_dec : EqDecision Error.
Proof. solve_decision. Defined.

(** Result of an async procedure: the value or the thrown error, and the
    world it leaves. *)
Definition Proc (A : Type) : Type := (Error + A) * World.

Definition getDb (w : World) : option Store := _db w.

(** *** Statements *)

(** [INSERT]: the new row gets the next auto-increment id, which is the
    [insertId] of the result; the primary key refuses an id that is taken
    ([None]). *)
Definition insert {R} (r : R) (tb : Table R) : option (Z * Table R) :=
  match rows tb !! autoIncrement tb with
  | Some _ => None
  | None =>
    Some (autoIncrement tb,
          mkTable (<[autoIncrement tb := r]> (rows tb)) (autoIncrement tb + 1))
  end.

(** [UPDATE ... SET ... WHERE id = ?] on a table with an
    [ON UPDATE CURRENT_TIMESTAMP] column: the row with that id, if any, gets
    the new values; [updatedAt] becomes the current time when some column
    changed its value, and stays when every column was set to the value it
    had. *)
Definition written {R} `{EqDecision R} (touch : Z -> R -> R) (now : Z)
    (set : R -> R) (r : R) : R :=
  if decide (set r = r) then r else touch now (set r).

Definition update {R} `{EqDecision R} (touch : Z -> R -> R) (now : Z)
    (set : R -> R) (i : Z) (tb : Table R) : Table R :=
  mkTable (alter (written touch now set) i (rows tb)) (autoIncrement tb).

(** [SELECT * FROM t WHERE ...]: the rows with their ids, in no order that
    the callers may rely on. *)
Definition select {R} (tb : Table R) (cond : R -> bool) : list (Z * R) :=
  filter (fun r => cond r.2 = true) (map_to_list (rows tb)).

(** [ORDER BY col ASC] and [DESC]; rows with equal keys come by ascending
    id. *)
Definition asc_le {R} (col : R -> Z) (x y : Z * R) : Prop :=
  col x.2 < col y.2 \/ (col x.2 = col y.2 /\ x.1 <= y.1).
Definition desc_le {R} (col : R -> Z) (x y : Z * R) : Prop :=
  col y.2 < col x.2 \/ (col x.2 = col y.2 /\ x.1 <= y.1).

#[global] Instance asc_le_dec {R} (col : R -> Z) x y : Decision (asc_le col x y).
Proof. unfold asc_le. apply _. Defined.
#[global] Instance desc_le_dec {R} (col : R -> Z) x y : Decision (desc_le col x y).
Proof. unfold desc_le. apply _. Defined.

Definition asc {R} (col : R -> Z) (l : list (Z * R)) : list (Z * R) :=
  merge_sort (asc_le col) l.
Definition desc {R} (col : R -> Z) (l : list (Z * R)) : list (Z * R) :=
  merge_sort (desc_le col) l.

Definition exists_in {R} (tb : Table R) (i : Z) : bool :=
  bool_decide (is_Some (rows tb !! i)).

Definition fk_error : Error :=
  SqlError "Cannot add or update a child row: a foreign key constraint fails".
Definition pk_error : Error := SqlError "Duplicate entry for key 'PRIMARY'".

(** [(result as any)[0]?.insertId || 0] *)
Definition inserted {R} (put : Table R -> World) (r : option (Z * Table R))
    (w : World) : Proc Z :=
  match r with
  | Some (insertId, t) => (inr insertId, put t)
  | None => (inl pk_error, w)
  end.

Definition with_users (s : Store) (t : Table User.t) : Store :=
  mkStore t (conversations s) (messages s) (appointments s) (trainingExamples s).
Definition with_conversations (s : Store) (t : Table Conversation.t) : Store :=
  mkStore (users s) t (messages s) (appointments s) (trainingExamples s).
Definition with_messages (s : Store) (t : Table Message.t) : Store :=
  mkStore (users s) (conversations s) t (appointments s) (trainingExamples s).
Definition with_appointments (s : Store) (t : Table Appointment.t) : Store :=
  mkStore (users s) (conversations s) (messages s) t (trainingExamples s).
Definition with_trainingExamples (s : Store) (t : Table TrainingExample.t) : Store :=
  mkStore (users s) (conversations s) (messages s) (appointments s) t.

(** *** Conversation queries *)

Definition getConversationsByUserId (userId : Z) (w : World)
  : list (Z * Conversation.t) :=
  match getDb w with
  | None => []
  | Some db =>
    desc Conversation.updatedAt
      (select (conversations db)
              (fun c => bool_decide (Conversation.userId c = userId)))
  end.

Definition createConversation (now : Z) (userId : Z) (title : option string)
    (w : World) : Proc Z :=
  match getDb w with
  | None => (inl (JsError "Database not available"), w)
  | Some db =>
    if exists_in (users db) userId then
      let title' := match title with
                    | Some t => Some t
                    | None => Some "New Conversation"
                    end in
      inserted (fun t => mkWorld (Some (with_conversations db t)))
        (insert (Conversation.mk userId title' (Some Active) now now)
                (conversations db)) w
    else (inl fk_error, w)
  end.

(** *** Message queries *)

Definition getMessagesByConversationId (conversationId : Z) (w : World)
  : list (Z * Message.t) :=
  match getDb w with
  | None => []
  | Some db =>
    asc Message.createdAt
      (select (messages db)
              (fun m => bool_decide (Message.conversationId m = conversationId)))
  end.

Definition addMessage (now : Z) (conversationId : Z) (role : MessageRole)
    (content : string) (metadata : option string) (w : World) : Proc Z :=
  match getDb w with
  | None => (inl (JsError "Database not available"), w)
  | Some db =>
    if exists_in (conversations db) conversationId then
      inserted (fun t => mkWorld (Some (with_messages db t)))
        (insert (Message.mk conversationId role content metadata now)
                (messages db)) w
    else (inl fk_error, w)
  end.

(** *** Appointment queries *)

Definition getAppointmentsByUserId (userId : Z) (w : World)
  : list (Z * Appointment.t) :=
  match getDb w with
  | None => []
  | Some db =>
    desc Appointment.scheduledAt
      (select (appointments db)
              (fun a => bool_decide (Appointment.userId a = userId)))
  end.

Definition getAllAppointments (w : World) : list (Z * Appointment.t) :=
  match getDb w with
  | None => []
  | Some db =>
    desc Appointment.scheduledAt (select (appointments db) (fun _ => true))
  end.

(** [InsertAppointment], with the columns the callers give. *)
Record InsertAppointment := mkInsertAppointment {
  i_userId : Z;
  i_service : string;
  i_duration : Z;
  i_scheduledAt : Z;
  i_barberName : option string;
  i_notes : option string
}.

Definition createAppointment (now : Z) (data : InsertAppointment) (w : World)
  : Proc Z :=
  match getDb w with
  | None => (inl (JsError "Database not available"), w)
  | Some db =>
    if exists_in (users db) (i_userId data) then
      let row :=
        Appointment.mk (i_userId data) None None (i_barberName data)
          (i_service data) (i_duration data) (i_scheduledAt data)
          (Some Pending) (Some PayPending) None None None (i_notes data)
          now now in
      inserted (fun t => mkWorld (Some (with_appointments db t)))
        (insert row (appointments db)) w
    else (inl fk_error, w)
  end.

Definition updateAppointment (now : Z) (appointmentId : Z)
    (data : Appointment.partial) (w : World) : Proc unit :=
  match getDb w with
  | None => (inl (JsError "Database not available"), w)
  | Some db =>
    if bool_decide (data = Appointment.noValues)
    then (inl (JsError "No values to set"), w)
    else
      (inr tt,
       mkWorld (Some (with_appointments db
         (update Appointment.touch now (Appointment.set data) appointmentId
                 (appointments db)))))
  end.

(** *** Training examples queries *)

Definition getTrainingExamples (active : option bool) (w : World)
  : list (Z * TrainingExample.t) :=
  match getDb w with
  | None => []
  | Some db =>
    match active with
    | Some b =>
      select (trainingExamples db)
             (fun e => bool_decide (TrainingExample.active e
                                    = Some (if b then 1 else 0)))
    | None => select (trainingExamples db) (fun _ => true)
    end
  end.

Record InsertTrainingExample := mkInsertTrainingExample {
  i_createdByUserId : Z;
  i_userMessage : string;
  i_assistantResponse : string;
  i_category : string;
  i_quality : option Quality
}.

Definition createTrainingExample (now : Z) (data : InsertTrainingExample)
    (w : World) : Proc Z :=
  match getDb w with
  | None => (inl (JsError "Database not available"), w)
  | Some db =>
    if exists_in (users db) (i_createdByUserId data) then
      let row :=
        TrainingExample.mk (i_createdByUserId data) (i_userMessage data)
          (i_assistantResponse data) (i_category data)
          (match i_quality data with Some q => Some q | None => Some Good end)
          (Some 1) now now in
      inserted (fun t => mkWorld (Some (with_trainingExamples db t)))
        (insert row (trainingExamples db)) w
    else (inl fk_error, w)
  end.

Definition setTrainingExample (quality : option Quality) (active : option Z)
    (e : TrainingExample.t) : TrainingExample.t :=
  TrainingExample.mk (TrainingExample.createdByUserId e)
    (TrainingExample.userMessage e) (TrainingExample.assistantResponse e)
    (TrainingExample.category e)
    (over quality (TrainingExample.quality e))
    (over active (TrainingExample.active e))
    (TrainingExample.createdAt e) (TrainingExample.updatedAt e).

Definition updateTrainingExample (now : Z) (exampleId : Z)
    (quality : option Quality) (active : option Z) (w : World) : Proc unit :=
  match getDb w with
  | None => (inl (JsError "Database not available"), w)
  | Some db =>
    (inr tt,
     mkWorld (Some (with_trainingExamples db
       (update TrainingExample.touch now (setTrainingExample quality active)
               exampleId (trainingExamples db)))))
  end.

End Db.

(** ** server/stripe-webhook.ts *)

Module StripeWebhook.
Import Schema Db.

(** [event.data.object], with the fields the handlers read.  The casts
    [as Stripe.Checkout.Session], [as Stripe.PaymentIntent] and
    [as Stripe.Charge] check nothing, so the three handlers see the same
    kind of object. *)
Module Obj.
Record t := mk {
  id : string;
  client_reference_id : option string;           (* string | null *)
  metadata : option (gmap string string)
}.
End Obj.

Module Event.
Record t := mk {
  id : string;
  type : string;
  data_object : Obj.t
}.
End Event.

Record Request := mkRequest {
  stripe_signature : option string;   (* req.headers["stripe-signature"] *)
  body : string                       (* the raw body *)
}.

Inductive Json :=
| JError (error : string)      (* { error: ... } *)
| JVerified                    (* { verified: true } *)
| JReceived.                   (* { received: true } *)

Record Response := mkResponse {
  status : Z;
  json : Json
}.

(** [metadata?.appointment_id] *)
Definition appointment_id (o : Obj.t) : option string :=
  match Obj.metadata o with
  | Some m => m !! "appointment_id"
  | None => None
  end.

(** [db.update(appointments).set(data).where(eq(appointments.id, i))] *)
Definition setAppointment (now : Z) (db : Store) (i : Z)
    (data : Appointment.partial) : World :=
  mkWorld (Some (with_appointments db
    (update Appointment.touch now (Appointment.set data) i (appointments db)))).

Definition handleCheckoutSessionCompleted (now : Z) (session : Obj.t)
    (w : World) : World :=
  match getDb w with
  | None => w
  | Some db =>
    let appointmentId :=
      Js.parseInt (Js.or_else (Obj.client_reference_id session) "0") in
    if Js.falsy_num appointmentId then w
    else
      setAppointment now db (default 0 appointmentId)
        {| Appointment.p_scheduledAt := None;
           Appointment.p_status := Some Confirmed;
           Appointment.p_paymentStatus := Some PayCompleted;
           Appointment.p_stripePaymentIntentId := None;
           Appointment.p_stripeCheckoutSessionId := Some (Obj.id session);
           Appointment.p_priceInCents := None |}
  end.

Definition handlePaymentIntentSucceeded (now : Z) (paymentIntent : Obj.t)
    (w : World) : World :=
  match getDb w with
  | None => w
  | Some db =>
    let appointmentId :=
      Js.parseInt (Js.or_else (appointment_id paymentIntent) "0") in
    if Js.falsy_num appointmentId then w
    else
      setAppointment now db (default 0 appointmentId)
        {| Appointment.p_scheduledAt := None;
           Appointment.p_status := Some Confirmed;
           Appointment.p_paymentStatus := Some PayCompleted;
           Appointment.p_stripePaymentIntentId := Some (Obj.id paymentIntent);
           Appointment.p_stripeCheckoutSessionId := None;
           Appointment.p_priceInCents := None |}
  end.

Definition handlePaymentIntentFailed (now : Z) (paymentIntent : Obj.t)
    (w : World) : World :=
  match getDb w with
  | None => w
  | Some db =>
    let appointmentId :=
      Js.parseInt (Js.or_else (appointment_id paymentIntent) "0") in
    if Js.falsy_num appointmentId then w
    else
      setAppointment now db (default 0 appointmentId)
        {| Appointment.p_scheduledAt := None;
           Appointment.p_status := None;
           Appointment.p_paymentStatus := Some PayFailed;
           Appointment.p_stripePaymentIntentId := Some (Obj.id paymentIntent);
           Appointment.p_stripeCheckoutSessionId := None;
           Appointment.p_priceInCents := None |}
  end.

Definition handleChargeRefunded (now : Z) (charge : Obj.t) (w : World)
  : World :=
  match getDb w with
  | None => w
  | Some db =>
    let appointmentId :=
      Js.parseInt (Js.or_else (appointment_id charge) "0") in
    if Js.falsy_num appointmentId then w
    else
      setAppointment now db (default 0 appointmentId)
        {| Appointment.p_scheduledAt := None;
           Appointment.p_status := Some Cancelled;
           Appointment.p_paymentStatus := Some PayRefunded;
           Appointment.p_stripePaymentIntentId := None;
           Appointment.p_stripeCheckoutSessionId := None;
           Appointment.p_priceInCents := None |}
  end.

(** The [switch (event.type)] of [handleStripeWebhook]. *)
Definition dispatch (now : Z) (event : Event.t) (w : World) : World :=
  let t := Event.type event in
  let o := Event.data_object event in
  if bool_decide (t = "checkout.session.completed")
  then handleCheckoutSessionCompleted now o w
  else if bool_decide (t = "payment_intent.succeeded")
  then handlePaymentIntentSucceeded now o w
  else if bool_decide (t = "payment_intent.payment_failed")
  then handlePaymentIntentFailed now o w
  else if bool_decide (t = "charge.refunded")
  then handleChargeRefunded now o w
  else w.

(** The event table of the reconciler: the event types with a handler, and
    the field of the object that carries the appointment id for each. *)
Definition handled (t : string) : bool :=
  bool_decide (t = "checkout.session.completed")
  || bool_decide (t = "payment_intent.succeeded")
  || bool_decide (t = "payment_intent.payment_failed")
  || bool_decide (t = "charge.refunded").

Definition correlationKey (event : Event.t) : option string :=
  if bool_decide (Event.type event = "checkout.session.completed")
  then Obj.client_reference_id (Event.data_object event)
  else appointment_id (Event.data_object event).

(** The key is missing, or parses to zero or to NaN. *)
Definition uncorrelated (event : Event.t) : Prop :=
  match correlationKey event with
  | None => True
  | Some k => Js.parseInt k = Some 0 \/ Js.parseInt k = None
  end.

Section Endpoint.

(** STRIPE_WEBHOOK_SECRET, and [stripe.webhooks.constructEvent] of the Stripe
    library: the event of a body whose signature verifies, or the message
    of the error it throws. *)
Variable webhookSecret : string.
Variable constructEvent : string -> string -> string -> string + Event.t.

(** The handlers catch what they throw, and nothing else in the [try] of the
    dispatch throws here, so the 500 of its [catch] is never sent. *)
Definition handleStripeWebhook (now : Z) (req : Request) (w : World)
  : Response * World :=
  let signature := stripe_signature req in
  if Js.falsy_str signature
  then (mkResponse 400 (JError "Missing stripe-signature header"), w)
  else
    match constructEvent (body req) (default "" signature) webhookSecret with
    | inl message =>
      (mkResponse 400 (JError ("Webhook Error: " +:+ message)), w)
    | inr event =>
      if Js.startsWith "evt_test_" (Event.id event)
      then (mkResponse 200 JVerified, w)
      else (mkResponse 200 JReceived, dispatch now event w)
    end.

End Endpoint.

End StripeWebhook.

(** ** The request context of the procedures

    [protectedProcedure] (server/_core/trpc) hands the procedures a context
    whose [user] is not null: the row of the signed-in user, with its id. *)

Module Ctx.
Import Schema.
Record t := mk {
  user : Z * User.t;
  origin : option string         (* ctx.req.headers.origin *)
}.
Definition user_id (ctx : t) : Z := (user ctx).1.
Definition role (ctx : t) : Role := User.role (user ctx).2.
End Ctx.

(** ** server/stripe-router.ts *)

Module StripeRouter.
Import Schema Db.

Record CustomerParams := mkCustomerParams {
  cp_email : option string;
  cp_name : option string;
  cp_user_id : string                 (* metadata.user_id *)
}.

(** The parameters of [stripe.checkout.sessions.create] that vary; the
    payment method types (card), the quantity (1) and the mode (payment) are
    constants. *)
Record SessionParams := mkSessionParams {
  sp_customer : string;
  sp_currency : string;
  sp_name : string;
  sp_description : string;
  sp_unit_amount : Z;
  sp_success_url : string;
  sp_cancel_url : string;
  sp_client_reference_id : string;
  sp_metadata : gmap string string
}.

Record Session := mkSession {
  session_id : string;
  session_url : option string
}.

Record CheckoutResult := mkCheckoutResult {
  sessionId : string;
  checkoutUrl : option string
}.

Record PaymentStatusResult := mkPaymentStatusResult {
  r_paymentStatus : option PaymentStatus;
  r_appointmentStatus : option AppointmentStatus;
  r_priceInCents : option Z
}.

Record PaymentHistoryItem := mkPaymentHistoryItem {
  h_id : Z;
  h_service : string;
  h_scheduledAt : Z;
  h_priceInCents : option Z;
  h_paymentStatus : option PaymentStatus;
  h_createdAt : Z
}.

(** [x || undefined] *)
Definition or_undefined (x : option string) : option string :=
  if Js.falsy_str x then None else x.

(** [`${x}`] for a string-or-undefined [x] *)
Definition interpolate (x : option string) : string :=
  default "undefined" x.

(** [select().from(t).where(eq(t.id, i)).limit(1)] *)
Definition selectById {R} (tb : Table R) (i : Z) : list (Z * R) :=
  match rows tb !! i with
  | Some r => [(i, r)]
  | None => []
  end.

Definition setStripeCustomerId (c : string) (u : User.t) : User.t :=
  User.mk (User.openId u) (User.name u) (User.email u) (User.loginMethod u)
          (User.role u) (Some c) (User.createdAt u) (User.updatedAt u)
          (User.lastSignedIn u).

Section Stripe.

(** The two calls of the Stripe API: the created object, or the message of
    the error thrown. *)
Variable customers_create : CustomerParams -> string + string.
Variable sessions_create : SessionParams -> string + Session.

Definition createCheckoutSession (now : Z) (ctx : Ctx.t)
    (appointmentId : Z) (serviceId : string) (w : World)
  : Proc CheckoutResult :=
  match getDb w with
  | None => (inl (JsError "Database not available"), w)
  | Some db =>
    match selectById (appointments db) appointmentId with
    | [] => (inl (JsError "Appointment not found"), w)
    | apt :: _ =>
      if bool_decide (Appointment.userId apt.2 ≠ Ctx.user_id ctx)
      then (inl (JsError "Unauthorized"), w)
      else
        match Products.getServiceById serviceId with
        | None => (inl (JsError "Service not found"), w)
        | Some service =>
          let u := (Ctx.user ctx).2 in
          let customer :=
            if Js.falsy_str (User.stripeCustomerId u) then
              match customers_create
                      (mkCustomerParams (or_undefined (User.email u))
                                        (or_undefined (User.name u))
                                        (Js.toString (Ctx.user_id ctx))) with
              | inl e => inl e
              | inr c =>
                inr (c, with_users db
                          (update User.touch now (setStripeCustomerId c)
                                  (Ctx.user_id ctx) (users db)))
              end
            else inr (default "" (User.stripeCustomerId u), db) in
          match customer with
          | inl e => (inl (JsError e), w)
          | inr (stripeCustomerId, db1) =>
            let base := interpolate (Ctx.origin ctx) in
            let aid := Js.toString appointmentId in
            match sessions_create
                    (mkSessionParams stripeCustomerId
                       (Products.currency service) (Products.name service)
                       (Products.description service) (Products.price service)
                       (base +:+ "/chat?payment=success&appointment=" +:+ aid)
                       (base +:+ "/chat?payment=cancelled&appointment=" +:+ aid)
                       aid
                       (<["user_id" := Js.toString (Ctx.user_id ctx)]>
                        (<["appointment_id" := aid]>
                         (<["service_id" := serviceId]> ∅)))) with
            | inl e => (inl (JsError e), mkWorld (Some db1))
            | inr session =>
              (inr (mkCheckoutResult (session_id session) (session_url session)),
               mkWorld (Some (with_appointments db1
                 (update Appointment.touch now
                    (Appointment.set
                       {| Appointment.p_scheduledAt := None;
                          Appointment.p_status := None;
                          Appointment.p_paymentStatus := None;
                          Appointment.p_stripePaymentIntentId := None;
                          Appointment.p_stripeCheckoutSessionId := Some (session_id session);
                          Appointment.p_priceInCents := Some (Products.price service) |})
                    appointmentId (appointments db1)))))
            end
          end
        end
    end
  end.

End Stripe.

Definition getPaymentStatus (ctx : Ctx.t) (appointmentId : Z) (w : World)
  : Proc PaymentStatusResult :=
  match getDb w with
  | None => (inl (JsError "Database not available"), w)
  | Some db =>
    match selectById (appointments db) appointmentId with
    | [] => (inl (JsError "Appointment not found"), w)
    | apt :: _ =>
      if bool_decide (Appointment.userId apt.2 ≠ Ctx.user_id ctx)
      then (inl (JsError "Unauthorized"), w)
      else
        (inr (mkPaymentStatusResult (Appointment.paymentStatus apt.2)
                (Appointment.status apt.2) (Appointment.priceInCents apt.2)),
         w)
    end
  end.

Definition getPaymentHistory (ctx : Ctx.t) (w : World)
  : Proc (list PaymentHistoryItem) :=
  match getDb w with
  | None => (inl (JsError "Database not available"), w)
  | Some db =>
    let userAppointments :=
      select (appointments db)
             (fun a => bool_decide (Appointment.userId a = Ctx.user_id ctx)) in
    (inr (map (fun apt =>
                 mkPaymentHistoryItem apt.1 (Appointment.service apt.2)
                   (Appointment.scheduledAt apt.2)
                   (Appointment.priceInCents apt.2)
                   (Appointment.paymentStatus apt.2)
                   (Appointment.createdAt apt.2))
              (filter (fun apt => Appointment.paymentStatus apt.2
                                  = Some PayCompleted)
                      userAppointments)),
     w)
  end.

End StripeRouter.

(** ** server/routers.ts *)

Module Routers.
Import Schema Db.

(** [.use(mw)]: the middleware runs before the rest of the procedure and
    either throws or calls [next]. *)
Definition use {A} (mw : Ctx.t -> option Error)
    (next : Ctx.t -> World -> Proc A) (ctx : Ctx.t) (w : World) : Proc A :=
  match mw ctx with
  | Some e => (inl e, w)
  | None => next ctx w
  end.

(** [if (ctx.user.role !== "admin") throw new TRPCError({ code: "FORBIDDEN" });
     return next({ ctx });] *)
Definition adminOnly (ctx : Ctx.t) : option Error :=
  if bool_decide (Ctx.role ctx ≠ RoleAdmin)
  then Some (TRPCError "FORBIDDEN")
  else None.

(** [await f(...); return g(result)] *)
Definition andThen {A B} (p : Proc A) (g : A -> B) : Proc B :=
  match p with
  | (inl e, w) => (inl e, w)
  | (inr a, w) => (inr (g a), w)
  end.

Module chat.

Definition startConversation (now : Z) (ctx : Ctx.t) (w : World) : Proc Z :=
  andThen (createConversation now (Ctx.user_id ctx) (Some "New Conversation") w)
          (fun insertId => insertId).

Definition getConversations (ctx : Ctx.t) (w : World)
  : Proc (list (Z * Conversation.t)) :=
  (inr (getConversationsByUserId (Ctx.user_id ctx) w), w).

Definition getMessages (ctx : Ctx.t) (conversationId : Z) (w : World)
  : Proc (list (Z * Message.t)) :=
  (inr (getMessagesByConversationId conversationId w), w).

Definition sendMessage (now : Z) (ctx : Ctx.t) (conversationId : Z)
    (content : string) (w : World) : Proc bool :=
  andThen (addMessage now conversationId MsgUser content None w)
          (fun _ => true).

End chat.

Module appointments.

Record CreateInput := mkCreateInput {
  service : string;
  duration : Z;
  scheduledAt : Z;
  barberName : option string;
  notes : option string
}.

Record UpdateInput := mkUpdateInput {
  appointmentId : Z;
  status : option AppointmentStatus;
  u_scheduledAt : option Z
}.

Definition list (ctx : Ctx.t) (w : World) : Proc (list (Z * Appointment.t)) :=
  (inr (getAppointmentsByUserId (Ctx.user_id ctx) w), w).

Definition listAll
  : Ctx.t -> World -> Proc (Datatypes.list (Z * Appointment.t)) :=
  use adminOnly (fun _ w => (inr (getAllAppointments w), w)).

Definition create (now : Z) (ctx : Ctx.t) (input : CreateInput) (w : World)
  : Proc Z :=
  andThen
    (createAppointment now
       (mkInsertAppointment (Ctx.user_id ctx) (service input) (duration input)
          (scheduledAt input) (barberName input) (notes input)) w)
    (fun insertId => insertId).

Definition update (now : Z) (ctx : Ctx.t) (input : UpdateInput) (w : World)
  : Proc bool :=
  andThen
    (updateAppointment now (appointmentId input)
       {| Appointment.p_scheduledAt := u_scheduledAt input;
          Appointment.p_status := status input;
          Appointment.p_paymentStatus := None;
          Appointment.p_stripePaymentIntentId := None;
          Appointment.p_stripeCheckoutSessionId := None;
          Appointment.p_priceInCents := None |} w)
    (fun _ => true).

End appointments.

Module training.

Record CreateInput := mkCreateInput {
  userMessage : string;
  assistantResponse : string;
  category : string;
  quality : option Quality
}.

Record UpdateInput := mkUpdateInput {
  exampleId : Z;
  u_quality : option Quality;
  active : option bool
}.

Definition getExamples : Ctx.t -> World -> Proc (list (Z * TrainingExample.t)) :=
  use adminOnly (fun _ w => (inr (getTrainingExamples None w), w)).

Definition createExample (now : Z) (ctx : Ctx.t) (input : CreateInput)
  : World -> Proc Z :=
  use adminOnly
    (fun ctx w =>
       andThen
         (createTrainingExample now
            (mkInsertTrainingExample (Ctx.user_id ctx) (userMessage input)
               (assistantResponse input) (category input) (quality input)) w)
         (fun insertId => insertId))
    ctx.

(** [active: input.active ? 1 : 0]: an absent [active] is written as 0. *)
Definition updateExample (now : Z) (ctx : Ctx.t) (input : UpdateInput)
  : World -> Proc bool :=
  use adminOnly
    (fun _ w =>
       andThen
         (updateTrainingExample now (exampleId input) (u_quality input)
            (Some (if default false (active input) then 1 else 0)) w)
         (fun _ => true))
    ctx.

End training.

(** A call of a procedure of [appRouter] that reaches the store.  The
    procedures of [system], [auth] and [ai] do not use the store. *)
Inductive Call :=
| chat_startConversation
| chat_getConversations
| chat_getMessages (conversationId : Z)
| chat_sendMessage (conversationId : Z) (content : string)
| appointments_list
| appointments_listAll
| appointments_create (input : appointments.CreateInput)
| appointments_update (input : appointments.UpdateInput)
| stripe_createCheckoutSession (appointmentId : Z) (serviceId : string)
| stripe_getPaymentStatus (appointmentId : Z)
| stripe_getPaymentHistory
| training_getExamples
| training_createExample (input : training.CreateInput)
| training_updateExample (input : training.UpdateInput).

Section Stripe.

Variable customers_create : StripeRouter.CustomerParams -> string + string.
Variable sessions_create :
  StripeRouter.SessionParams -> string + StripeRouter.Session.

(** The world a call leaves, whether it returns or throws. *)
Definition after (now : Z) (ctx : Ctx.t) (c : Call) (w : World) : World :=
  match c with
  | chat_startConversation => (chat.startConversation now ctx w).2
  | chat_getConversations => (chat.getConversations ctx w).2
  | chat_getMessages i => (chat.getMessages ctx i w).2
  | chat_sendMessage i s => (chat.sendMessage now ctx i s w).2
  | appointments_list => (appointments.list ctx w).2
  | appointments_listAll => (appointments.listAll ctx w).2
  | appointments_create input => (appointments.create now ctx input w).2
  | appointments_update input => (appointments.update now ctx input w).2
  | stripe_createCheckoutSession i s =>
    (StripeRouter.createCheckoutSession customers_create sessions_create
       now ctx i s w).2
  | stripe_getPaymentStatus i => (StripeRouter.getPaymentStatus ctx i w).2
  | stripe_getPaymentHistory => (StripeRouter.getPaymentHistory ctx w).2
  | training_getExamples => (training.getExamples ctx w).2
  | training_createExample input => (training.createExample now ctx input w).2
  | training_updateExample input => (training.updateExample now ctx input w).2
  end.

End Stripe.

End Routers.

(** ** Sample data

    A small store, two customers and an administrator, and a stand-in for
    the Stripe library, on which the statements below are evaluated. *)

Module Sample.
Import Schema Db.

Definition ana : User.t :=
  User.mk "sample-user-1" (Some "User 1") (Some "user1@example.com")
          (Some "manus") RoleUser None 0 0 0.
Definition bruno : User.t :=
  User.mk "sample-user-2" (Some "User 2") (Some "user2@example.com")
          (Some "manus") RoleUser None 0 0 0.
Definition carla : User.t :=
  User.mk "sample-user-3" (Some "User 3") (Some "user3@example.com")
          (Some "manus") RoleAdmin None 0 0 0.

(** Ana's haircut, not paid yet. *)
Definition haircut : Appointment.t :=
  Appointment.mk 1 (Some 1) None None "haircut" 30 90000
                 (Some Pending) (Some PayPending) None None None None 100 100.

Definition store : Store :=
  mkStore
    (mkTable (<[1 := ana]> (<[2 := bruno]> (<[3 := carla]> ∅))) 4)
    (mkTable (<[1 := Conversation.mk 1 (Some "New Conversation") (Some Active)
                                     50 50]> ∅) 2)
    (mkTable (<[1 := Message.mk 1 MsgUser "I want to book a haircut" None 60]>
              (<[2 := Message.mk 1 MsgAssistant "When?" None 70]> ∅)) 3)
    (mkTable (<[1 := haircut]> ∅) 2)
    (mkTable ∅ 1).

Definition world : World := mkWorld (Some store).
Definition offline : World := mkWorld None.

Definition ctx_ana : Ctx.t := Ctx.mk (1, ana) (Some "http://localhost:3000").
Definition ctx_bruno : Ctx.t := Ctx.mk (2, bruno) (Some "http://localhost:3000").
Definition ctx_carla : Ctx.t := Ctx.mk (3, carla) (Some "http://localhost:3000").

(** Events, by the body that carries them. *)
Definition checkout_paid : StripeWebhook.Event.t :=
  StripeWebhook.Event.mk "evt_1" "checkout.session.completed"
    (StripeWebhook.Obj.mk "cs_1" (Some "1") None).
Definition intent_paid : StripeWebhook.Event.t :=
  StripeWebhook.Event.mk "evt_2" "payment_intent.succeeded"
    (StripeWebhook.Obj.mk "pi_1" None (Some (<["appointment_id" := "1"]> ∅))).
Definition checkout_no_reference : StripeWebhook.Event.t :=
  StripeWebhook.Event.mk "evt_3" "checkout.session.completed"
    (StripeWebhook.Obj.mk "cs_3" None None).
Definition test_checkout_no_reference : StripeWebhook.Event.t :=
  StripeWebhook.Event.mk "evt_test_webhook" "checkout.session.completed"
    (StripeWebhook.Obj.mk "cs_4" None None).

Definition secret : string := "whsec_sample".

Definition events : list (string * StripeWebhook.Event.t) :=
  [("checkout_paid", checkout_paid); ("intent_paid", intent_paid);
   ("checkout_no_reference", checkout_no_reference);
   ("test_checkout_no_reference", test_checkout_no_reference)].

Fixpoint assoc {A} (k : string) (l : list (string * A)) : option A :=
  match l with
  | [] => None
  | (k', v) :: l' => if bool_decide (k' = k) then Some v else assoc k l'
  end.

(** Accepts the signature that is the secret itself. *)
Definition constructEvent (body sig sec : string)
  : string + StripeWebhook.Event.t :=
  if bool_decide (sig = sec) then
    match assoc body events with
    | Some e => inr e
    | None => inl "Unexpected token in JSON"
    end
  else inl "No signatures found matching the expected signature for payload".

(** A Stripe API that creates what it is asked for. *)
Definition customers_create (p : StripeRouter.CustomerParams)
  : string + string :=
  inr ("cus_" +:+ StripeRouter.cp_user_id p).
Definition sessions_create (p : StripeRouter.SessionParams)
  : string + StripeRouter.Session :=
  inr (StripeRouter.mkSession
         ("cs_" +:+ StripeRouter.sp_client_reference_id p)
         (Some "https://checkout.stripe.com/pay")).

End Sample.

(** ** server/db.ts: users and single rows *)

Module DbUsers.
Import Schema Db.

(** [InsertUser], with the fields [upsertUser] reads.  A field that may be
    [undefined], [null] or a string is an [option (option string)]. *)
Record InsertUser := mkInsertUser {
  openId : string;
  name : option (option string);
  email : option (option string);
  loginMethod : option (option string);
  lastSignedIn : option Z;
  role : option Role
}.

(** The fields collected in [values] and in [updateSet]. *)
Record UserSet := mkUserSet {
  s_name : option (option string);
  s_email : option (option string);
  s_loginMethod : option (option string);
  s_lastSignedIn : option Z;
  s_role : option Role
}.

#[global] Instance UserSet_eq_dec : EqDecision UserSet.
Proof. solve_decision. Defined.

(** [Object.keys(updateSet).length === 0] *)
Definition isEmpty (s : UserSet) : bool :=
  bool_decide (s = mkUserSet None None None None None).

(** The row inserted from [values]: a column without value takes its
    default, [null] where the schema gives none. *)
Definition newUser (o : string) (values : UserSet) (now : Z) : User.t :=
  User.mk o (default None (s_name values)) (default None (s_email values))
          (default None (s_loginMethod values))
          (default RoleUser (s_role values)) None now now
          (default now (s_lastSignedIn values)).

(** [ON DUPLICATE KEY UPDATE] with [updateSet]. *)
Definition applySet (s : UserSet) (u : User.t) : User.t :=
  User.mk (User.openId u) (default (User.name u) (s_name s))
          (default (User.email u) (s_email s))
          (default (User.loginMethod u) (s_loginMethod s))
          (default (User.role u) (s_role s)) (User.stripeCustomerId u)
          (User.createdAt u) (User.updatedAt u)
          (default (User.lastSignedIn u) (s_lastSignedIn s)).

(** [select().from(users).where(eq(users.openId, openId)).limit(1)], then
    [result.length > 0 ? result[0] : undefined]. *)
Definition byOpenId (db : Store) (o : string) : option (Z * User.t) :=
  head (select (users db) (fun u => bool_decide (User.openId u = o))).

Definition getUserByOpenId (o : string) (w : World) : option (Z * User.t) :=
  match getDb w with
  | None => None
  | Some db => byOpenId db o
  end.

Definition getConversationById (conversationId : Z) (w : World)
  : option (Z * Conversation.t) :=
  match getDb w with
  | None => None
  | Some db => head (StripeRouter.selectById (conversations db) conversationId)
  end.

Section Env.

(** [ENV.ownerOpenId] *)
Variable ownerOpenId : string.

(** [openId] is the unique key on which the insert may find a duplicate;
    then the row that has it is updated with [updateSet].  [new Date()] is
    the time of the call. *)
Definition upsertUser (now : Z) (user : InsertUser) (w : World) : Proc unit :=
  if bool_decide (openId user = "")
  then (inl (JsError "User openId is required for upsert"), w)
  else
    match getDb w with
    | None => (inr tt, w)
    | Some db =>
      let role' :=
        match role user with
        | Some r => Some r
        | None => if bool_decide (openId user = ownerOpenId)
                  then Some RoleAdmin else None
        end in
      let given :=
        mkUserSet (name user) (email user) (loginMethod user)
                  (lastSignedIn user) role' in
      let values :=
        mkUserSet (name user) (email user) (loginMethod user)
                  (Some (default now (lastSignedIn user))) role' in
      let updateSet :=
        if isEmpty given then mkUserSet None None None (Some now) None
        else given in
      match byOpenId db (openId user) with
      | Some (k, _) =>
        (inr tt,
         mkWorld (Some (with_users db
           (update User.touch now (applySet updateSet) k (users db)))))
      | None =>
        match insert (newUser (openId user) values now) (users db) with
        | Some (_, t) => (inr tt, mkWorld (Some (with_users db t)))
        | None => (inl pk_error, w)
        end
      end
    end.

End Env.

(** No two rows of [users] have the same [openId] (the unique index). *)
Definition uniqueOpenId (db : Store) : Prop :=
  forall k1 k2 u1 u2,
    rows (users db) !! k1 = Some u1 -> rows (users db) !! k2 = Some u2 ->
    User.openId u1 = User.openId u2 -> k1 = k2.

End DbUsers.

(** ** More sample data *)

Module Sample2.
Import Schema Db.

Definition refund : StripeWebhook.Event.t :=
  StripeWebhook.Event.mk "evt_5" "charge.refunded"
    (StripeWebhook.Obj.mk "ch_1" None (Some (<["appointment_id" := "1"]> ∅))).
Definition intent_failed : StripeWebhook.Event.t :=
  StripeWebhook.Event.mk "evt_6" "payment_intent.payment_failed"
    (StripeWebhook.Obj.mk "pi_2" None (Some (<["appointment_id" := "1"]> ∅))).
Definition customer_created : StripeWebhook.Event.t :=
  StripeWebhook.Event.mk "evt_7" "customer.created"
    (StripeWebhook.Obj.mk "cus_1" (Some "1")
       (Some (<["appointment_id" := "1"]> ∅))).
Definition checkout_unknown : StripeWebhook.Event.t :=
  StripeWebhook.Event.mk "evt_8" "checkout.session.completed"
    (StripeWebhook.Obj.mk "cs_8" (Some "-5") None).
Definition test_checkout_paid : StripeWebhook.Event.t :=
  StripeWebhook.Event.mk "evt_test_9" "checkout.session.completed"
    (StripeWebhook.Obj.mk "cs_9" (Some "1") None).

Definition events : list (string * StripeWebhook.Event.t) :=
  [("refund", refund); ("intent_failed", intent_failed);
   ("customer_created", customer_created);
   ("checkout_unknown", checkout_unknown);
   ("test_checkout_paid", test_checkout_paid)].

Definition constructEvent (body sig sec : string)
  : string + StripeWebhook.Event.t :=
  if bool_decide (sig = sec) then
    match Sample.assoc body events with
    | Some e => inr e
    | None => Sample.constructEvent body sig sec
    end
  else inl "No signatures found matching the expected signature for payload".

(** Stripe on a day it creates customers and refuses sessions. *)
Definition sessions_refused (p : StripeRouter.SessionParams)
  : string + StripeRouter.Session :=
  inl "Your card was declined".
Definition customers_fixed (p : StripeRouter.CustomerParams)
  : string + string :=
  inr "cus_new".

(** Dora, who has a Stripe customer id, and her appointment; a training
    example. *)
Definition dora : User.t :=
  User.mk "sample-user-4" (Some "User 4") (Some "user4@example.com")
          (Some "manus") RoleUser (Some "cus_dora") 0 0 0.
Definition ctx_dora : Ctx.t := Ctx.mk (4, dora) (Some "http://localhost:3000").

Definition paid_cut : Appointment.t :=
  Appointment.mk 4 None None None "full_service" 60 80000
                 (Some Confirmed) (Some PayCompleted) (Some "pi_7")
                 (Some "cs_7") (Some 4000) None 200 300.

Definition example1 : TrainingExample.t :=
  TrainingExample.mk 3 "I want to book a haircut" "Sure! When?" "booking"
                     (Some Good) (Some 1) 10 10.

Definition store : Store :=
  mkStore
    (mkTable (<[4 := dora]> (rows (users Sample.store))) 5)
    (conversations Sample.store)
    (messages Sample.store)
    (mkTable (<[2 := paid_cut]> (rows (appointments Sample.store))) 3)
    (mkTable (<[1 := example1]> ∅) 2).

Definition world : World := mkWorld (Some store).

End Sample2.

(** * Properties *)

(** ** Statements against a table *)

Section Statements.
Import Db.
Context {R : Type} `{EqDecision R}.
Variable touch : Z -> R -> R.

Lemma update_lookup now set i (tb : Table R) :
  rows (update touch now set i tb) !! i
  = written touch now set <$> rows tb !! i.
Proof. unfold update; simpl. by rewrite lookup_alter_eq. Qed.

Lemma update_lookup_ne now set i j (tb : Table R) :
  i ≠ j -> rows (update touch now set i tb) !! j = rows tb !! j.
Proof. intros Hij. unfold update; simpl. by rewrite lookup_alter_ne. Qed.

Lemma update_absent now set i (tb : Table R) :
  rows tb !! i = None -> update touch now set i tb = tb.
Proof.
  intros Hi. destruct tb as [m n]; unfold update; simpl in *.
  f_equal. by apply alter_id'.
Qed.

(** Writing the same values a second time changes nothing, not even
    [updatedAt], whatever the time of the second statement. *)
Lemma update_twice now1 now2 set i (tb : Table R) :
  (forall r, set (set r) = set r) ->
  (forall n r, set (touch n r) = touch n (set r)) ->
  update touch now2 set i (update touch now1 set i tb)
  = update touch now1 set i tb.
Proof.
  intros Hidem Hcomm. destruct tb as [m n]; unfold update; simpl.
  f_equal. rewrite alter_alter_eq. apply alter_ext. intros r _; simpl.
  unfold written at 2. unfold written.
  destruct (decide (set r = r)) as [Hr | Hr].
  - rewrite Hr. rewrite decide_True by done. done.
  - rewrite Hcomm, Hidem. rewrite decide_True by done. done.
Qed.

End Statements.

Lemma set_twice (p : Schema.Appointment.partial) (a : Schema.Appointment.t) :
  Schema.Appointment.set p (Schema.Appointment.set p a)
  = Schema.Appointment.set p a.
Proof.
  destruct p as [p1 p2 p3 p4 p5 p6], a; unfold Schema.Appointment.set; simpl.
  destruct p1, p2, p3, p4, p5, p6; reflexivity.
Qed.

Lemma set_touch (p : Schema.Appointment.partial) n (a : Schema.Appointment.t) :
  Schema.Appointment.set p (Schema.Appointment.touch n a)
  = Schema.Appointment.touch n (Schema.Appointment.set p a).
Proof. reflexivity. Qed.

(** ** The webhook reconciler *)

Section Reconciler.
Import Schema Db StripeWebhook.

Lemma setAppointment_twice now1 now2 db i p :
  forall db1, getDb (setAppointment now1 db i p) = Some db1 ->
  setAppointment now2 db1 i p = setAppointment now1 db i p.
Proof.
  intros db1 [= <-]. unfold setAppointment, with_appointments; simpl.
  rewrite update_twice; auto using set_twice, set_touch.
Qed.

(** What the handler of a completed checkout session executes, and the row
    this leaves. *)
Lemma checkout_completed_writes now session w db i :
  getDb w = Some db ->
  Js.parseInt (Js.or_else (Obj.client_reference_id session) "0") = Some i ->
  i ≠ 0 ->
  handleCheckoutSessionCompleted now session w
  = setAppointment now db i
      (Appointment.mkPartial None (Some Confirmed) (Some PayCompleted)
                             None (Some (Obj.id session)) None).
Proof.
  intros Hdb Hparse Hi. unfold handleCheckoutSessionCompleted.
  rewrite Hdb, Hparse. simpl. by destruct (Z.eqb_spec i 0).
Qed.

Lemma checkout_row now db i a sid :
  rows (appointments db) !! i = Some a ->
  exists db' a',
    getDb (setAppointment now db i
             (Appointment.mkPartial None (Some Confirmed) (Some PayCompleted)
                                    None (Some sid) None)) = Some db'
    /\ rows (appointments db') !! i = Some a'
    /\ Appointment.paymentStatus a' = Some PayCompleted
    /\ Appointment.status a' = Some Confirmed
    /\ Appointment.stripeCheckoutSessionId a' = Some sid.
Proof.
  intros Ha. eexists _, _. split; [reflexivity|]. simpl.
  rewrite lookup_alter_eq, Ha. simpl. split; [reflexivity|].
  unfold written. case_decide as Hset.
  - rewrite <- Hset. done.
  - done.
Qed.

(** C1.  A checkout-session-completed event whose [client_reference_id]
    parses to a non-zero number that is the id of a stored appointment: after
    the handler has run, that appointment has paymentStatus "completed",
    status "confirmed" and the id of the checkout session, whatever the row
    held before. *)
Theorem checkout_completed_confirms now session w db i a :
  getDb w = Some db ->
  Js.parseInt (Js.or_else (Obj.client_reference_id session) "0") = Some i ->
  i ≠ 0 ->
  rows (appointments db) !! i = Some a ->
  exists db' a',
    getDb (handleCheckoutSessionCompleted now session w) = Some db'
    /\ rows (appointments db') !! i = Some a'
    /\ Appointment.paymentStatus a' = Some PayCompleted
    /\ Appointment.status a' = Some Confirmed
    /\ Appointment.stripeCheckoutSessionId a' = Some (Obj.id session).
Proof.
  intros Hdb Hparse Hi Ha.
  rewrite (checkout_completed_writes now session w db i Hdb Hparse Hi).
  by apply (checkout_row now db i a).
Qed.

(** C2.  Delivering the same payment-intent-succeeded event a second time,
    at any later or earlier time, leaves the world the first delivery
    produced: every row, every column. *)
Theorem payment_intent_succeeded_idempotent now1 now2 paymentIntent w :
  handlePaymentIntentSucceeded now2 paymentIntent
    (handlePaymentIntentSucceeded now1 paymentIntent w)
  = handlePaymentIntentSucceeded now1 paymentIntent w.
Proof.
  unfold handlePaymentIntentSucceeded at 2 3.
  destruct (getDb w) as [db|] eqn:Hdb.
  - destruct (Js.falsy_num _) eqn:Hfalsy.
    + unfold handlePaymentIntentSucceeded. by rewrite Hdb, Hfalsy.
    + unfold handlePaymentIntentSucceeded. simpl. rewrite Hfalsy.
      by apply setAppointment_twice.
  - unfold handlePaymentIntentSucceeded. by rewrite Hdb.
Qed.







(** The row a handler writes is the only one it touches. *)
Lemma checkout_completed_frame now session w db db' j :
  getDb w = Some db ->
  getDb (handleCheckoutSessionCompleted now session w) = Some db' ->
  Js.parseInt (Js.or_else (Obj.client_reference_id session) "0") ≠ Some j ->
  rows (appointments db') !! j = rows (appointments db) !! j.
Proof.
  intros Hdb Hdb' Hj. unfold handleCheckoutSessionCompleted in Hdb'.
  rewrite Hdb in Hdb'. destruct (Js.parseInt _) as [i|] eqn:Hparse.
  - destruct (Js.falsy_num _); [congruence|]. injection Hdb' as <-. simpl.
    apply lookup_alter_ne. congruence.
  - simpl in Hdb'. congruence.
Qed.

End Reconciler.

Section EndpointProps.
Import Schema Db StripeWebhook.
Variable webhookSecret : string.
Variable constructEvent : string -> string -> string -> string + Event.t.

Local Arguments Js.startsWith : simpl never.

(** C3.  A request without a [stripe-signature] header (or with an empty
    one), or whose signature [constructEvent] refuses, is answered with
    status 400 and leaves the world as it was. *)
Theorem bad_signature_rejected now req w :
  stripe_signature req = None
  \/ stripe_signature req = Some ""
  \/ (exists sig message,
        stripe_signature req = Some sig
        /\ constructEvent (body req) sig webhookSecret = inl message) ->
  status (handleStripeWebhook webhookSecret constructEvent now req w).1 = 400
  /\ (handleStripeWebhook webhookSecret constructEvent now req w).2 = w.
Proof.
  unfold handleStripeWebhook.
  intros [Hsig | [Hsig | (sig & message & Hsig & Hverify)]]; rewrite Hsig.
  - done.
  - done.
  - destruct sig as [|c sig]; [done|]. simpl in *. by rewrite Hverify.
Qed.

Lemma uncorrelated_falsy event :
  uncorrelated event ->
  Js.falsy_num (Js.parseInt (Js.or_else (correlationKey event) "0")) = true.
Proof.
  unfold uncorrelated. destruct (correlationKey event) as [[|c k]|]; simpl.
  - done.
  - by intros [-> | ->].
  - done.
Qed.

Lemma dispatch_uncorrelated now event w :
  handled (Event.type event) = true -> uncorrelated event ->
  dispatch now event w = w.
Proof.
  intros Hhandled Hkey. apply uncorrelated_falsy in Hkey.
  unfold correlationKey in Hkey. unfold dispatch.
  unfold handleCheckoutSessionCompleted, handlePaymentIntentSucceeded,
    handlePaymentIntentFailed, handleChargeRefunded.
  destruct (getDb w); repeat case_bool_decide; try rewrite Hkey; done.
Qed.

(** C4, as amended.  A verified event of a handled type whose correlation
    key is missing or parses to zero or NaN changes nothing in the world and
    is answered with status 200: [{ received: true }], or
    [{ verified: true }] when the event id starts with [evt_test_]. *)
Theorem uncorrelated_event_acknowledged now req w sig event :
  stripe_signature req = Some sig -> sig ≠ "" ->
  constructEvent (body req) sig webhookSecret = inr event ->
  handled (Event.type event) = true ->
  uncorrelated event ->
  handleStripeWebhook webhookSecret constructEvent now req w
  = (mkResponse 200 (if Js.startsWith "evt_test_" (Event.id event)
                     then JVerified else JReceived), w).
Proof.
  intros Hsig Hne Hverify Hhandled Hkey. unfold handleStripeWebhook.
  rewrite Hsig. destruct sig as [|c sig]; [done|]. simpl in *.
  rewrite Hverify. destruct (Js.startsWith "evt_test_" (Event.id _)); [done|].
  by rewrite dispatch_uncorrelated.
Qed.

(** X2.  A synthetic test event is acknowledged as verified and changes
    nothing, whatever its type and object. *)
Lemma test_event_verified now req w sig event :
  stripe_signature req = Some sig -> sig ≠ "" ->
  constructEvent (body req) sig webhookSecret = inr event ->
  Js.startsWith "evt_test_" (Event.id event) = true ->
  handleStripeWebhook webhookSecret constructEvent now req w
  = (mkResponse 200 JVerified, w).
Proof.
  intros Hsig Hne Hverify Htest. unfold handleStripeWebhook.
  rewrite Hsig. destruct sig as [|c sig]; [done|]. simpl in *.
  by rewrite Hverify, Htest.
Qed.


(** C1 at the endpoint: a verified checkout-session-completed event that is
    no test event confirms the appointment its reference names. *)
Lemma webhook_checkout_completed now req w sig event db i a :
  stripe_signature req = Some sig -> sig ≠ "" ->
  constructEvent (body req) sig webhookSecret = inr event ->
  Js.startsWith "evt_test_" (Event.id event) = false ->
  Event.type event = "checkout.session.completed" ->
  getDb w = Some db ->
  Js.parseInt (Js.or_else (Obj.client_reference_id (Event.data_object event))
                          "0") = Some i ->
  i ≠ 0 ->
  rows (appointments db) !! i = Some a ->
  exists db' a',
    handleStripeWebhook webhookSecret constructEvent now req w
    = (mkResponse 200 JReceived, mkWorld (Some db'))
    /\ rows (appointments db') !! i = Some a'
    /\ Appointment.paymentStatus a' = Some PayCompleted
    /\ Appointment.status a' = Some Confirmed
    /\ Appointment.stripeCheckoutSessionId a'
       = Some (Obj.id (Event.data_object event)).
Proof.
  intros Hsig Hne Hverify Htest Htype Hdb Hparse Hi Ha.
  destruct (checkout_row now db i a (Obj.id (Event.data_object event)) Ha)
    as (db' & a' & Hdb' & Hrow).
  exists db', a'. split; [|exact Hrow].
  unfold handleStripeWebhook. rewrite Hsig.
  destruct sig as [|c sig]; [done|]. simpl.
  rewrite Hverify, Htest. unfold dispatch. rewrite Htype. simpl.
  rewrite (checkout_completed_writes now _ w db i Hdb Hparse Hi).
  destruct (setAppointment _ _ _ _) as [o]. simpl in Hdb'. by subst o.
Qed.

(** The endpoint never answers 500, and answers 400 only without touching
    the world. *)
Lemma webhook_status now req w :
  status (handleStripeWebhook webhookSecret constructEvent now req w).1 = 200
  \/ (status (handleStripeWebhook webhookSecret constructEvent now req w).1 = 400
      /\ (handleStripeWebhook webhookSecret constructEvent now req w).2 = w).
Proof.
  unfold handleStripeWebhook. destruct (Js.falsy_str _); [by right|].
  destruct (constructEvent _ _ _); [by right|].
  destruct (Js.startsWith "evt_test_" (Event.id _)); by left.
Qed.

End EndpointProps.

(** ** The reconciler on the sample data *)

Section ReconcilerSamples.
Import Schema Db StripeWebhook.

(** The paid checkout of the sample confirms the haircut of Ana. *)
Lemma checkout_completed_confirms_witness :
  exists db' a',
    getDb (handleCheckoutSessionCompleted 2000
             (Event.data_object Sample.checkout_paid) Sample.world) = Some db'
    /\ rows (appointments db') !! 1 = Some a'
    /\ Appointment.paymentStatus a' = Some PayCompleted
    /\ Appointment.status a' = Some Confirmed
    /\ Appointment.stripeCheckoutSessionId a' = Some "cs_1".
Proof.
  apply (checkout_completed_confirms 2000
           (Event.data_object Sample.checkout_paid) Sample.world Sample.store
           1 Sample.haircut);
    [reflexivity | reflexivity | lia | reflexivity].
Defined.

(** A forged signature on the sample endpoint. *)
Lemma bad_signature_rejected_witness :
  let req := mkRequest (Some "forged") "checkout_paid" in
  status (handleStripeWebhook Sample.secret Sample.constructEvent 2000 req
                              Sample.world).1 = 400
  /\ (handleStripeWebhook Sample.secret Sample.constructEvent 2000 req
                          Sample.world).2 = Sample.world.
Proof.
  apply (bad_signature_rejected Sample.secret Sample.constructEvent 2000
           (mkRequest (Some "forged") "checkout_paid") Sample.world).
  right; right. eexists _, _. split; reflexivity.
Defined.

(** A completed checkout without reference, which is no test event. *)
Lemma uncorrelated_event_acknowledged_witness :
  handleStripeWebhook Sample.secret Sample.constructEvent 2000
    (mkRequest (Some Sample.secret) "checkout_no_reference") Sample.world
  = (mkResponse 200 JReceived, Sample.world).
Proof.
  apply (uncorrelated_event_acknowledged Sample.secret Sample.constructEvent
           2000 (mkRequest (Some Sample.secret) "checkout_no_reference")
           Sample.world Sample.secret Sample.checkout_no_reference);
    [reflexivity | discriminate | reflexivity | reflexivity | exact I].
Defined.

(** C4, as stated, fails on a synthetic test event: verified, of a handled
    type, without correlation key, and answered [{ verified: true }], not
    [{ received: true }]. *)
Lemma uncorrelated_test_event_not_received :
  let req := mkRequest (Some Sample.secret) "test_checkout_no_reference" in
  let event := Sample.test_checkout_no_reference in
  Sample.constructEvent (body req) Sample.secret Sample.secret = inr event
  /\ handled (Event.type event) = true
  /\ correlationKey event = None
  /\ json (handleStripeWebhook Sample.secret Sample.constructEvent 2000 req
                               Sample.world).1 = JVerified
  /\ json (handleStripeWebhook Sample.secret Sample.constructEvent 2000 req
                               Sample.world).1 ≠ JReceived.
Proof. repeat split; try reflexivity. discriminate. Qed.

End ReconcilerSamples.

(** ** Access checks of the procedures *)

Section Access.
Import Schema Db.
Variable customers_create : StripeRouter.CustomerParams -> string + string.
Variable sessions_create :
  StripeRouter.SessionParams -> string + StripeRouter.Session.

(** C7.  For an appointment of another user, [createCheckoutSession] and
    [getPaymentStatus] throw "Unauthorized" and leave the world as it was. *)
Theorem foreign_appointment_unauthorized now ctx appointmentId serviceId w db a :
  getDb w = Some db ->
  rows (appointments db) !! appointmentId = Some a ->
  Appointment.userId a ≠ Ctx.user_id ctx ->
  StripeRouter.createCheckoutSession customers_create sessions_create
    now ctx appointmentId serviceId w
  = (inl (JsError "Unauthorized"), w)
  /\ StripeRouter.getPaymentStatus ctx appointmentId w
     = (inl (JsError "Unauthorized"), w).
Proof.
  intros Hdb Ha Hother.
  unfold StripeRouter.createCheckoutSession, StripeRouter.getPaymentStatus,
    StripeRouter.selectById.
  rewrite Hdb, Ha. simpl. by rewrite bool_decide_true.
Qed.

(** C8.  For a caller whose role is not "admin", [appointments.listAll] and
    the three procedures of [training] throw FORBIDDEN, whatever the input
    and the state of the store, and leave the world as it was. *)
Theorem non_admin_forbidden now ctx w :
  Ctx.role ctx ≠ RoleAdmin ->
  Routers.appointments.listAll ctx w = (inl (TRPCError "FORBIDDEN"), w)
  /\ Routers.training.getExamples ctx w = (inl (TRPCError "FORBIDDEN"), w)
  /\ (forall input, Routers.training.createExample now ctx input w
                    = (inl (TRPCError "FORBIDDEN"), w))
  /\ (forall input, Routers.training.updateExample now ctx input w
                    = (inl (TRPCError "FORBIDDEN"), w)).
Proof.
  intros Hrole.
  unfold Routers.appointments.listAll, Routers.training.getExamples,
    Routers.training.createExample, Routers.training.updateExample,
    Routers.use, Routers.adminOnly.
  by rewrite bool_decide_true.
Qed.

(** An administrator passes the guard. *)
Lemma admin_lists_all ctx w :
  Ctx.role ctx = RoleAdmin ->
  Routers.appointments.listAll ctx w = (inr (getAllAppointments w), w).
Proof.
  intros Hrole. unfold Routers.appointments.listAll, Routers.use,
    Routers.adminOnly.
  rewrite bool_decide_false; [done|]. by intros []. 
Qed.

End Access.

Section Messages.
Import Schema Db.

Lemma elem_of_select {R} (tb : Table R) (cond : R -> bool) k r :
  (k, r) ∈ select tb cond <-> rows tb !! k = Some r /\ cond r = true.
Proof.
  unfold select. rewrite list_elem_of_filter, elem_of_map_to_list. simpl.
  tauto.
Qed.

(** C10.  [chat.getMessages] answers every caller alike: the result is the
    same for any two callers, and it is the rows of [messages] with the
    given conversation id; the owner of the conversation is not looked
    at. *)
Theorem getMessages_ignores_caller ctx1 ctx2 conversationId w :
  Routers.chat.getMessages ctx1 conversationId w
  = Routers.chat.getMessages ctx2 conversationId w
  /\ exists result,
       Routers.chat.getMessages ctx1 conversationId w = (inr result, w)
       /\ forall k m,
            (k, m) ∈ result
            <-> exists db, getDb w = Some db
                           /\ rows (messages db) !! k = Some m
                           /\ Message.conversationId m = conversationId.
Proof.
  split; [reflexivity|]. unfold Routers.chat.getMessages.
  eexists. split; [reflexivity|]. intros k m.
  unfold getMessagesByConversationId. destruct (getDb w) as [db|].
  - unfold asc. rewrite merge_sort_Permutation, elem_of_select.
    rewrite bool_decide_eq_true. split.
    + intros [? ?]. by exists db.
    + by intros (? & [= <-] & ? & ?).
  - split; [by intros ?%elem_of_nil | by intros (? & ? & _)].
Qed.

(** Bruno reads the conversation that Ana owns. *)
Example bruno_reads_ana :
  Conversation.userId <$> rows (conversations Sample.store) !! 1 = Some 1
  /\ Ctx.user_id Sample.ctx_bruno = 2
  /\ (Routers.chat.getMessages Sample.ctx_bruno 1 Sample.world).1
     = inr [(1, Message.mk 1 MsgUser "I want to book a haircut" None 60);
            (2, Message.mk 1 MsgAssistant "When?" None 70)].
Proof. repeat split; vm_compute; reflexivity. Qed.

End Messages.

(** ** The service catalog *)

Section Catalog.
Import Js Products.

Lemma code_range c : 0 <= code c < 256.
Proof.
  unfold code. pose proof (N_ascii_bounded c) as Hb. lia.
Qed.

Lemma code_chr z : 0 <= z < 256 -> code (chr z) = z.
Proof.
  intros Hz. unfold code, chr. rewrite N_ascii_embedding by lia. lia.
Qed.

Lemma upper1_spec c : upper1 c = true <-> 65 <= code c <= 90.
Proof. unfold upper1. rewrite andb_true_iff, !Z.leb_le. tauto. Qed.

Lemma upper2_spec c1 c2 :
  upper2 c1 c2 = true
  <-> code c1 = 195 /\ 128 <= code c2 <= 158 /\ code c2 ≠ 151.
Proof.
  unfold upper2. rewrite !andb_true_iff, negb_true_iff, !Z.leb_le,
    Z.eqb_eq, Z.eqb_neq. tauto.
Qed.

Lemma upper1_false c : ~ (65 <= code c <= 90) -> upper1 c = false.
Proof. intros H. apply not_true_is_false. by rewrite upper1_spec. Qed.

Lemma upper2_false c1 c2 :
  code c1 ≠ 195 \/ ~ (128 <= code c2 <= 158) -> upper2 c1 c2 = false.
Proof. intros H. apply not_true_is_false. rewrite upper2_spec. lia. Qed.

(** A byte that is no upper-case letter, and does not start one together
    with the next byte, is kept. *)
Lemma toLowerCase_keep c s :
  upper1 c = false ->
  (forall c2 s2, s = String c2 s2 -> upper2 c c2 = false) ->
  toLowerCase (String c s) = String c (toLowerCase s).
Proof.
  intros H1 H2. simpl. rewrite H1. destruct s as [|c2 s2]; [done|].
  by rewrite (H2 c2 s2 eq_refl).
Qed.

Lemma toLowerCase_upper1 c s :
  upper1 c = true ->
  toLowerCase (String c s) = String (chr (code c + 32)) (toLowerCase s).
Proof. intros H1. simpl. by rewrite H1. Qed.

Lemma toLowerCase_upper2 c1 c2 s :
  upper2 c1 c2 = true ->
  toLowerCase (String c1 (String c2 s))
  = String c1 (String (chr (code c2 + 32)) (toLowerCase s)).
Proof.
  intros H2. pose proof H2 as (Hc1 & _ & _)%upper2_spec.
  simpl. rewrite upper1_false by lia. by rewrite H2.
Qed.

(** Before strings with the same lower-case form, a byte that does not
    pair with their first byte gives strings with the same lower-case
    form. *)
Lemma toLowerCase_cons c s t :
  toLowerCase s = toLowerCase t ->
  (forall c2 s2, s = String c2 s2 -> upper2 c c2 = false) ->
  (forall c2 t2, t = String c2 t2 -> upper2 c c2 = false) ->
  toLowerCase (String c s) = toLowerCase (String c t).
Proof.
  intros Heq Hs Ht. destruct (upper1 c) eqn:H1.
  - rewrite (toLowerCase_upper1 c s), (toLowerCase_upper1 c t) by done.
    by rewrite Heq.
  - rewrite (toLowerCase_keep c s), (toLowerCase_keep c t) by done.
    by rewrite Heq.
Qed.

(** Changing the case of letters does not change the lower-case form; the
    second half of the statement carries the byte before through the
    induction. *)
Lemma caseVariant_lower s t :
  caseVariant s t ->
  toLowerCase s = toLowerCase t
  /\ forall c, toLowerCase (String c s) = toLowerCase (String c t).
Proof.
  induction 1 as [ | c s t _ [IH1 IH2] | c s t Hc _ [IH1 IH2]
                 | c s t Hc _ [IH1 IH2] | c1 c2 s t Hc _ [IH1 IH2]
                 | c1 c2 s t Hc _ [IH1 IH2] ].
  - done.
  - split; [apply IH2|]. intros c0.
    destruct (upper2 c0 c) eqn:H2.
    + rewrite (toLowerCase_upper2 c0 c s), (toLowerCase_upper2 c0 c t) by done.
      by rewrite IH1.
    + apply toLowerCase_cons; [apply IH2 | |]; by intros ? ? [= <- <-].
  - pose proof Hc as Hr%upper1_spec.
    assert (Hl : code (chr (code c + 32)) = code c + 32)
      by (apply code_chr; lia).
    assert (Heq : toLowerCase (String c s)
                  = toLowerCase (String (chr (code c + 32)) t)).
    { rewrite toLowerCase_upper1 by done.
      rewrite toLowerCase_keep; [by rewrite IH1 | apply upper1_false; lia |].
      intros c2 s2 _. apply upper2_false. lia. }
    split; [done|]. intros c0.
    apply toLowerCase_cons; [done | |];
      intros ? ? [= <- <-]; apply upper2_false; lia.
  - pose proof Hc as Hr%upper1_spec.
    assert (Hl : code (chr (code c + 32)) = code c + 32)
      by (apply code_chr; lia).
    assert (Heq : toLowerCase (String (chr (code c + 32)) s)
                  = toLowerCase (String c t)).
    { rewrite (toLowerCase_upper1 c) by done.
      rewrite toLowerCase_keep; [by rewrite IH1 | apply upper1_false; lia |].
      intros c2 s2 _. apply upper2_false. lia. }
    split; [done|]. intros c0.
    apply toLowerCase_cons; [done | |];
      intros ? ? [= <- <-]; apply upper2_false; lia.
  - pose proof Hc as (Hc1 & Hr & Hx)%upper2_spec.
    assert (Hl : code (chr (code c2 + 32)) = code c2 + 32)
      by (apply code_chr; lia).
    assert (Heq : toLowerCase (String c1 (String c2 s))
                  = toLowerCase (String c1 (String (chr (code c2 + 32)) t))).
    { rewrite toLowerCase_upper2 by done.
      rewrite (toLowerCase_keep c1);
        [ | apply upper1_false; lia
          | intros ? ? [= <- <-]; apply upper2_false; lia ].
      rewrite toLowerCase_keep; [by rewrite IH1 | apply upper1_false; lia |].
      intros ? ? _. apply upper2_false. lia. }
    split; [done|]. intros c0.
    apply toLowerCase_cons; [done | |];
      intros ? ? [= <- <-]; apply upper2_false; lia.
  - pose proof Hc as (Hc1 & Hr & Hx)%upper2_spec.
    assert (Hl : code (chr (code c2 + 32)) = code c2 + 32)
      by (apply code_chr; lia).
    assert (Heq : toLowerCase (String c1 (String (chr (code c2 + 32)) s))
                  = toLowerCase (String c1 (String c2 t))).
    { rewrite (toLowerCase_upper2 c1 c2) by done.
      rewrite (toLowerCase_keep c1);
        [ | apply upper1_false; lia
          | intros ? ? [= <- <-]; apply upper2_false; lia ].
      rewrite toLowerCase_keep; [by rewrite IH1 | apply upper1_false; lia |].
      intros ? ? _. apply upper2_false. lia. }
    split; [done|]. intros c0.
    apply toLowerCase_cons; [done | |];
      intros ? ? [= <- <-]; apply upper2_false; lia.
Qed.

(** C9.  [formatPrice(2500)] is "$25.00"; [getServiceById("haircut")] is the
    haircut; and [getServiceByName] returns a service of the catalog for its
    name written in any letter case. *)
Theorem catalog_lookup_and_price_format :
  formatPrice 2500 = "$25.00"
  /\ getServiceById "haircut" = Some HAIRCUT
  /\ forall service n,
       service ∈ BARBERSHOP_SERVICES ->
       caseVariant (name service) n ->
       getServiceByName n = Some service.
Proof.
  split; [reflexivity|]. split; [reflexivity|].
  intros service n Hin [Hlower _]%caseVariant_lower.
  unfold getServiceByName. rewrite <- Hlower.
  unfold BARBERSHOP_SERVICES in Hin.
  rewrite !elem_of_cons, elem_of_nil in Hin.
  destruct Hin as [-> | [-> | [-> | []]]]; reflexivity.
Qed.

End Catalog.

Section CatalogSamples.
Import Js Products.

(** Builds the derivation that one literal is a case variant of another. *)
Ltac variant :=
  repeat match goal with
  | |- caseVariant EmptyString EmptyString => apply cv_nil
  | |- caseVariant (String ?c (String ?a _)) (String ?c (String ?b _)) =>
    first [ apply (cv_upper2 c b); [reflexivity|]
          | apply (cv_lower2 c a); [reflexivity|] ]
  | |- caseVariant (String ?c _) (String ?c _) => apply cv_same
  | |- caseVariant (String ?a _) (String ?b _) =>
    first [ apply (cv_upper b); [reflexivity|]
          | apply (cv_lower a); [reflexivity|] ]
  end.

(** The full service, asked for in capitals and small letters. *)
Lemma catalog_lookup_witness :
  FULL_SERVICE ∈ BARBERSHOP_SERVICES
  /\ caseVariant (name FULL_SERVICE) "SERVIÇO completo"
  /\ getServiceByName "SERVIÇO completo" = Some FULL_SERVICE.
Proof.
  assert (Hin : FULL_SERVICE ∈ BARBERSHOP_SERVICES) by repeat constructor.
  assert (Hv : caseVariant (name FULL_SERVICE) "SERVIÇO completo")
    by (simpl; variant).
  split; [exact Hin|]. split; [exact Hv|].
  exact (proj2 (proj2 catalog_lookup_and_price_format) FULL_SERVICE _ Hin Hv).
Defined.

Example by_name_upper :
  getServiceByName "CORTE DE CABELO" = Some HAIRCUT.
Proof. reflexivity. Qed.

Example by_name_is_exact_on_other_text :
  getServiceByName "Corte  de Cabelo" = None.
Proof. reflexivity. Qed.

Example by_name_accepts_id :
  getServiceByName "HAIR_EYEBROW" = Some HAIR_AND_EYEBROW.
Proof. reflexivity. Qed.

End CatalogSamples.

(** ** Who writes [status] and [paymentStatus] *)

Section Writers.
Import Schema Db.
Variable customers_create : StripeRouter.CustomerParams -> string + string.
Variable sessions_create :
  StripeRouter.SessionParams -> string + StripeRouter.Session.

Lemma andThen_snd {A B} (p : Proc A) (g : A -> B) :
  (Routers.andThen p g).2 = p.2.
Proof. by destruct p as [[e|a] w]. Qed.

(** The columns of a row after an update with a partial row. *)
Lemma written_columns now p a :
  let a' := written Appointment.touch now (Appointment.set p) a in
  Appointment.status a' = over (Appointment.p_status p)
                                           (Appointment.status a)
  /\ Appointment.paymentStatus a'
     = over (Appointment.p_paymentStatus p)
                        (Appointment.paymentStatus a)
  /\ Appointment.stripePaymentIntentId a'
     = over (Appointment.p_stripePaymentIntentId p)
                        (Appointment.stripePaymentIntentId a)
  /\ Appointment.scheduledAt a'
     = default (Appointment.scheduledAt a) (Appointment.p_scheduledAt p)
  /\ Appointment.userId a' = Appointment.userId a
  /\ Appointment.conversationId a' = Appointment.conversationId a
  /\ Appointment.googleCalendarEventId a' = Appointment.googleCalendarEventId a
  /\ Appointment.barberName a' = Appointment.barberName a
  /\ Appointment.service a' = Appointment.service a
  /\ Appointment.duration a' = Appointment.duration a
  /\ Appointment.notes a' = Appointment.notes a
  /\ Appointment.createdAt a' = Appointment.createdAt a.
Proof.
  destruct a, p. unfold written. case_decide as Hset; simpl in *.
  - injection Hset as Hat Hst Hpay Hpi _ _. repeat split; congruence.
  - done.
Qed.

(** The rows of [appointments] after a statement on another table. *)
Lemma inserted_appointments {R} (put : Table R -> World) r w db :
  getDb w = Some db ->
  (forall t, exists db', getDb (put t) = Some db'
                         /\ appointments db' = appointments db) ->
  exists db', getDb (inserted put r w).2 = Some db'
              /\ appointments db' = appointments db.
Proof.
  intros Hdb Hput. destruct r as [[k t]|]; simpl; [apply Hput | by exists db].
Qed.

Lemma insert_keeps {R} (r : R) (tb t : Table R) k i x :
  insert r tb = Some (k, t) -> rows tb !! i = Some x -> rows t !! i = Some x.
Proof.
  unfold insert. destruct (rows tb !! autoIncrement tb) eqn:Hfree; [done|].
  intros [= <- <-] Hi. simpl. rewrite lookup_insert_ne; [done|]. congruence.
Qed.

(** Every call leaves the appointment there, with one of the listed
    changes. *)
Lemma after_row now ctx c w db i a :
  getDb w = Some db ->
  rows (appointments db) !! i = Some a ->
  exists db' a',
    getDb (Routers.after customers_create sessions_create now ctx c w)
    = Some db'
    /\ rows (appointments db') !! i = Some a'
    /\ (a' = a
        \/ (exists input,
              c = Routers.appointments_update input
              /\ Routers.appointments.appointmentId input = i
              /\ a' = written Appointment.touch now
                        (Appointment.set
                           (Appointment.mkPartial
                              (Routers.appointments.u_scheduledAt input)
                              (Routers.appointments.status input)
                              None None None None)) a)
        \/ (exists serviceId sid price,
              c = Routers.stripe_createCheckoutSession i serviceId
              /\ a' = written Appointment.touch now
                        (Appointment.set
                           (Appointment.mkPartial None None None None
                              (Some sid) (Some price))) a)).
Proof.
  intros Hdb Ha.
  destruct c as [ | | k | k s | | | input | input | k s | k | | | input | input ];
    simpl.
  - (* chat.startConversation *)
    unfold Routers.chat.startConversation. rewrite andThen_snd.
    unfold createConversation. rewrite Hdb.
    destruct (exists_in _ _); [|exists db, a; auto].
    destruct (inserted_appointments
                (fun t => mkWorld (Some (with_conversations db t)))
                (insert (Conversation.mk (Ctx.user_id ctx)
                           (Some "New Conversation") (Some Active) now now)
                        (conversations db)) w db Hdb) as (db' & Hdb' & Happ).
    { intros t. by eexists. }
    exists db', a. rewrite Happ. auto.
  - exists db, a; auto.
  - exists db, a; auto.
  - (* chat.sendMessage *)
    unfold Routers.chat.sendMessage. rewrite andThen_snd.
    unfold addMessage. rewrite Hdb.
    destruct (exists_in _ _); [|exists db, a; auto].
    destruct (inserted_appointments
                (fun t => mkWorld (Some (with_messages db t)))
                (insert (Message.mk k MsgUser s None now) (messages db))
                w db Hdb) as (db' & Hdb' & Happ).
    { intros t. by eexists. }
    exists db', a. rewrite Happ. auto.
  - exists db, a; auto.
  - unfold Routers.appointments.listAll, Routers.use.
    destruct (Routers.adminOnly ctx); exists db, a; auto.
  - (* appointments.create *)
    unfold Routers.appointments.create. rewrite andThen_snd.
    unfold createAppointment. rewrite Hdb. simpl.
    destruct (exists_in _ _); [|exists db, a; auto].
    destruct (insert _ (appointments db)) as [[k t]|] eqn:Hins; simpl.
    + exists (with_appointments db t), a. split; [done|]. split; [|auto].
      simpl. eapply insert_keeps; eauto.
    + exists db, a; auto.
  - (* appointments.update *)
    unfold Routers.appointments.update. rewrite andThen_snd.
    unfold updateAppointment. rewrite Hdb.
    case_bool_decide; [exists db, a; auto|]. simpl.
    destruct (decide (Routers.appointments.appointmentId input = i)) as [<-|Hne].
    + eexists _, _. split; [reflexivity|]. simpl.
      rewrite lookup_alter_eq, Ha. simpl. split; [reflexivity|].
      right; left. by exists input.
    + eexists _, a. split; [reflexivity|]. simpl.
      rewrite lookup_alter_ne by done. auto.
  - (* stripe.createCheckoutSession *)
    unfold StripeRouter.createCheckoutSession, StripeRouter.selectById.
    rewrite Hdb.
    destruct (rows (appointments db) !! k) as [b|] eqn:Hk;
      [|exists db, a; auto].
    destruct (bool_decide _); [exists db, a; auto|].
    destruct (Products.getServiceById s) as [service|]; [|exists db, a; auto].
    destruct (Js.falsy_str _).
    + destruct (customers_create _) as [e|cus]; [exists db, a; auto|].
      destruct (sessions_create _) as [e|session]; simpl.
      * eexists _, a. split; [reflexivity|]. auto.
      * destruct (decide (k = i)) as [->|Hne].
        -- eexists _, _. split; [reflexivity|]. simpl.
           rewrite lookup_alter_eq, Ha. simpl. split; [reflexivity|].
           right; right. by eexists _, _, _.
        -- eexists _, a. split; [reflexivity|]. simpl.
           rewrite lookup_alter_ne by done. auto.
    + destruct (sessions_create _) as [e|session]; simpl.
      * exists db, a; auto.
      * destruct (decide (k = i)) as [->|Hne].
        -- eexists _, _. split; [reflexivity|]. simpl.
           rewrite lookup_alter_eq, Ha. simpl. split; [reflexivity|].
           right; right. by eexists _, _, _.
        -- eexists _, a. split; [reflexivity|]. simpl.
           rewrite lookup_alter_ne by done. auto.
  - (* stripe.getPaymentStatus *)
    unfold StripeRouter.getPaymentStatus. rewrite Hdb.
    destruct (StripeRouter.selectById _ _) as [|b l]; [exists db, a; auto|].
    destruct (bool_decide _); exists db, a; auto.
  - unfold StripeRouter.getPaymentHistory. rewrite Hdb. exists db, a; auto.
  - unfold Routers.training.getExamples, Routers.use.
    destruct (Routers.adminOnly ctx); exists db, a; auto.
  - (* training.createExample *)
    unfold Routers.training.createExample, Routers.use.
    destruct (Routers.adminOnly ctx); [exists db, a; auto|].
    rewrite andThen_snd. unfold createTrainingExample. rewrite Hdb.
    destruct (exists_in _ _); [|exists db, a; auto].
    match goal with
    | |- context [inserted ?put ?r w] =>
      destruct (inserted_appointments put r w db Hdb) as (db' & Hdb' & Happ)
    end.
    { intros t. by eexists. }
    exists db', a. rewrite Happ. auto.
  - (* training.updateExample *)
    unfold Routers.training.updateExample, Routers.use.
    destruct (Routers.adminOnly ctx); [exists db, a; auto|].
    rewrite andThen_snd. unfold updateTrainingExample. rewrite Hdb. simpl.
    eexists _, a. split; [reflexivity|]. auto.
Qed.

(** C5, as amended.  After any call of a procedure of the API, an
    appointment that was there is still there with the paymentStatus it had;
    its status is the one it had unless the call is [appointments.update] on
    this appointment with a status given, which is then its status; and
    [createCheckoutSession] changes at most the checkout session id, the
    price and [updatedAt]. *)
Theorem status_writers now ctx c w db i a :
  getDb w = Some db ->
  rows (appointments db) !! i = Some a ->
  exists db' a',
    getDb (Routers.after customers_create sessions_create now ctx c w)
    = Some db'
    /\ rows (appointments db') !! i = Some a'
    /\ Appointment.paymentStatus a' = Appointment.paymentStatus a
    /\ (Appointment.status a' = Appointment.status a
        \/ exists input s,
             c = Routers.appointments_update input
             /\ Routers.appointments.appointmentId input = i
             /\ Routers.appointments.status input = Some s
             /\ Appointment.status a' = Some s)
    /\ (forall j serviceId,
          c = Routers.stripe_createCheckoutSession j serviceId ->
          Appointment.sameButCheckout a a').
Proof.
  intros Hdb Ha.
  destruct (after_row now ctx c w db i a Hdb Ha)
    as (db' & a' & Hdb' & Ha' & Hcases).
  exists db', a'. split; [done|]. split; [done|].
  destruct Hcases as [-> | [(input & -> & Hi & ->)
                           | (serviceId & sid & price & -> & ->)]].
  - split; [done|]. split; [by left|]. intros _ _ _.
    unfold Appointment.sameButCheckout. tauto.
  - match goal with
    | |- context [written _ _ (Appointment.set ?p) _] =>
      pose proof (written_columns now p a) as (Hst & Hpay & _)
    end.
    simpl in Hst, Hpay. split; [done|]. split; [|by intros ? ? [=]].
    destruct (Routers.appointments.status input) as [s|] eqn:Hs.
    + right. by exists input, s.
    + by left.
  - match goal with
    | |- context [written _ _ (Appointment.set ?p) _] =>
      pose proof (written_columns now p a) as Hcols
    end.
    simpl in Hcols. unfold Appointment.sameButCheckout.
    split; [tauto|]. split; [left; tauto|]. intros _ _ _. tauto.
Qed.

(** [appointments.update] does not look at the caller. *)
Lemma update_ignores_caller now ctx1 ctx2 input w :
  Routers.appointments.update now ctx1 input w
  = Routers.appointments.update now ctx2 input w.
Proof. reflexivity. Qed.

End Writers.

Section WritersSamples.
Import Schema Db.

(** Ana opens a checkout session for her haircut: the session id and the
    price are written, the appointment stays pending and unpaid. *)
Lemma status_writers_witness :
  exists db' a',
    getDb (Routers.after Sample.customers_create Sample.sessions_create 3000
             Sample.ctx_ana
             (Routers.stripe_createCheckoutSession 1 "haircut") Sample.world)
    = Some db'
    /\ rows (appointments db') !! 1 = Some a'
    /\ Appointment.paymentStatus a' = Some PayPending
    /\ Appointment.status a' = Some Pending
    /\ Appointment.stripeCheckoutSessionId a' = Some "cs_1"
    /\ Appointment.priceInCents a' = Some 2500.
Proof.
  destruct (status_writers Sample.customers_create Sample.sessions_create 3000
              Sample.ctx_ana (Routers.stripe_createCheckoutSession 1 "haircut")
              Sample.world Sample.store 1 Sample.haircut eq_refl eq_refl)
    as (db' & a' & Hdb' & Ha' & Hpay & _ & Hsame).
  exists db', a'. split; [exact Hdb'|]. split; [exact Ha'|].
  split; [exact Hpay|].
  split; [apply (Hsame 1 "haircut" eq_refl)|].
  vm_compute in Hdb'. injection Hdb' as <-. vm_compute in Ha'.
  injection Ha' as <-. split; reflexivity.
Defined.

(** C5, as stated, fails: [appointments.update] with a status given sets the
    status; here a pending appointment becomes confirmed by a call of the
    API, without a webhook event and with its payment still pending. *)
Lemma update_confirms_without_webhook :
  let w' :=
    Routers.after Sample.customers_create Sample.sessions_create 3000
      Sample.ctx_ana
      (Routers.appointments_update
         (Routers.appointments.mkUpdateInput 1 (Some Confirmed) None))
      Sample.world in
  Appointment.status <$> rows (appointments Sample.store) !! 1
  = Some (Some Pending)
  /\ Appointment.status <$> (getDb w' ≫= fun db' => rows (appointments db') !! 1)
     = Some (Some Confirmed)
  /\ Appointment.paymentStatus
       <$> (getDb w' ≫= fun db' => rows (appointments db') !! 1)
     = Some (Some PayPending).
Proof. repeat split; vm_compute; reflexivity. Qed.

(** C6 at its failing input: Bruno cancels the appointment of Ana. *)
Lemma update_foreign_appointment :
  let r :=
    Routers.appointments.update 3000 Sample.ctx_bruno
      (Routers.appointments.mkUpdateInput 1 (Some Cancelled) None)
      Sample.world in
  Ctx.user_id Sample.ctx_bruno = 2
  /\ Appointment.userId <$> rows (appointments Sample.store) !! 1 = Some 1
  /\ r.1 = inr true
  /\ Appointment.status <$> (getDb r.2 ≫= fun db' => rows (appointments db') !! 1)
     = Some (Some Cancelled).
Proof. repeat split; vm_compute; reflexivity. Qed.

End WritersSamples.

Section AccessSamples.
Import Schema Db.

(** Bruno asks for the appointment of Ana. *)
Lemma foreign_appointment_unauthorized_witness :
  StripeRouter.createCheckoutSession Sample.customers_create
    Sample.sessions_create 3000 Sample.ctx_bruno 1 "haircut" Sample.world
  = (inl (JsError "Unauthorized"), Sample.world)
  /\ StripeRouter.getPaymentStatus Sample.ctx_bruno 1 Sample.world
     = (inl (JsError "Unauthorized"), Sample.world).
Proof.
  apply (foreign_appointment_unauthorized Sample.customers_create
           Sample.sessions_create 3000 Sample.ctx_bruno 1 "haircut"
           Sample.world Sample.store Sample.haircut);
    [reflexivity | reflexivity | vm_compute; discriminate].
Defined.

(** Ana is no administrator, with or without a database. *)
Lemma non_admin_forbidden_witness :
  Routers.appointments.listAll Sample.ctx_ana Sample.world
  = (inl (TRPCError "FORBIDDEN"), Sample.world)
  /\ Routers.training.getExamples Sample.ctx_ana Sample.offline
     = (inl (TRPCError "FORBIDDEN"), Sample.offline).
Proof.
  split.
  - apply (non_admin_forbidden 3000 Sample.ctx_ana Sample.world).
    vm_compute; discriminate.
  - apply (non_admin_forbidden 3000 Sample.ctx_ana Sample.offline).
    vm_compute; discriminate.
Defined.

(** The owner gets the status, and an administrator the list. *)
Example ana_payment_status :
  StripeRouter.getPaymentStatus Sample.ctx_ana 1 Sample.world
  = (inr (StripeRouter.mkPaymentStatusResult (Some PayPending) (Some Pending)
                                             None),
     Sample.world).
Proof. reflexivity. Qed.

Example carla_lists_all :
  (Routers.appointments.listAll Sample.ctx_carla Sample.world).1
  = inr [(1, Sample.haircut)].
Proof. vm_compute. reflexivity. Qed.

End AccessSamples.

(** ** The primitives on examples *)

Section Primitives.

Example parseInt_42 : Js.parseInt "42" = Some 42.
Proof. reflexivity. Qed.
Example parseInt_prefix : Js.parseInt "  12abc" = Some 12.
Proof. reflexivity. Qed.
Example parseInt_hex : Js.parseInt "0x1F" = Some 31.
Proof. reflexivity. Qed.
Example parseInt_negative : Js.parseInt "-7" = Some (-7).
Proof. reflexivity. Qed.
Example parseInt_nan : Js.parseInt "abc" = None.
Proof. reflexivity. Qed.
Example parseInt_empty : Js.parseInt "" = None.
Proof. reflexivity. Qed.
Example parseInt_zero : Js.falsy_num (Js.parseInt (Js.or_else None "0")) = true.
Proof. reflexivity. Qed.
Example toLowerCase_latin1 :
  Js.toLowerCase "SERVIÇO Completo" = "serviço completo".
Proof. reflexivity. Qed.
Example formatPrice_3000 : Products.formatPrice 3000 = "$30.00".
Proof. reflexivity. Qed.
Example formatPrice_5 : Products.formatPrice 5 = "$0.05".
Proof. reflexivity. Qed.
Example formatPrice_negative : Products.formatPrice (-1234) = "$-12.34".
Proof. reflexivity. Qed.

End Primitives.

(** * Further properties *)

(** ** The other handlers of the reconciler *)

Section Handlers.
Import Schema Db StripeWebhook.

Lemma written_checkout_columns now p a :
  let a' := written Appointment.touch now (Appointment.set p) a in
  Appointment.stripeCheckoutSessionId a'
  = over (Appointment.p_stripeCheckoutSessionId p)
         (Appointment.stripeCheckoutSessionId a)
  /\ Appointment.priceInCents a'
     = over (Appointment.p_priceInCents p) (Appointment.priceInCents a).
Proof.
  destruct a, p. unfold written. case_decide as Hset; simpl in *.
  - injection Hset as _ _ _ _ Hcs Hprice. split; congruence.
  - done.
Qed.

(** The row with the id of the statement after [setAppointment], and the
    rest of the store. *)
Lemma setAppointment_store now db i p :
  exists db',
    setAppointment now db i p = mkWorld (Some db')
    /\ users db' = users db /\ conversations db' = conversations db
    /\ messages db' = messages db
    /\ trainingExamples db' = trainingExamples db
    /\ autoIncrement (appointments db') = autoIncrement (appointments db)
    /\ rows (appointments db') !! i
       = written Appointment.touch now (Appointment.set p)
           <$> rows (appointments db) !! i
    /\ forall j, i ≠ j ->
         rows (appointments db') !! j = rows (appointments db) !! j.
Proof.
  eexists. split; [reflexivity|]. simpl. repeat split.
  - apply lookup_alter_eq.
  - intros j Hij. by apply lookup_alter_ne.
Qed.

Lemma payment_succeeded_writes now paymentIntent w db i :
  getDb w = Some db ->
  Js.parseInt (Js.or_else (appointment_id paymentIntent) "0") = Some i ->
  i ≠ 0 ->
  handlePaymentIntentSucceeded now paymentIntent w
  = setAppointment now db i
      (Appointment.mkPartial None (Some Confirmed) (Some PayCompleted)
                             (Some (Obj.id paymentIntent)) None None).
Proof.
  intros Hdb Hparse Hi. unfold handlePaymentIntentSucceeded.
  rewrite Hdb, Hparse. simpl. by destruct (Z.eqb_spec i 0).
Qed.

Lemma payment_failed_writes now paymentIntent w db i :
  getDb w = Some db ->
  Js.parseInt (Js.or_else (appointment_id paymentIntent) "0") = Some i ->
  i ≠ 0 ->
  handlePaymentIntentFailed now paymentIntent w
  = setAppointment now db i
      (Appointment.mkPartial None None (Some PayFailed)
                             (Some (Obj.id paymentIntent)) None None).
Proof.
  intros Hdb Hparse Hi. unfold handlePaymentIntentFailed.
  rewrite Hdb, Hparse. simpl. by destruct (Z.eqb_spec i 0).
Qed.

Lemma charge_refunded_writes now charge w db i :
  getDb w = Some db ->
  Js.parseInt (Js.or_else (appointment_id charge) "0") = Some i ->
  i ≠ 0 ->
  handleChargeRefunded now charge w
  = setAppointment now db i
      (Appointment.mkPartial None (Some Cancelled) (Some PayRefunded)
                             None None None).
Proof.
  intros Hdb Hparse Hi. unfold handleChargeRefunded.
  rewrite Hdb, Hparse. simpl. by destruct (Z.eqb_spec i 0).
Qed.

(** The row an update leaves, by its columns. *)
Lemma setAppointment_row now db i p a :
  rows (appointments db) !! i = Some a ->
  exists db' a',
    getDb (setAppointment now db i p) = Some db'
    /\ rows (appointments db') !! i = Some a'
    /\ a' = written Appointment.touch now (Appointment.set p) a.
Proof.
  intros Ha.
  destruct (setAppointment_store now db i p) as (db' & -> & _ & _ & _ & _ & _ & Hi & _).
  exists db', (written Appointment.touch now (Appointment.set p) a).
  split; [done|]. split; [|done]. by rewrite Hi, Ha.
Qed.

Lemma payment_succeeded_row now paymentIntent w db i a :
  getDb w = Some db ->
  Js.parseInt (Js.or_else (appointment_id paymentIntent) "0") = Some i ->
  i ≠ 0 ->
  rows (appointments db) !! i = Some a ->
  exists db' a',
    getDb (handlePaymentIntentSucceeded now paymentIntent w) = Some db'
    /\ rows (appointments db') !! i = Some a'
    /\ Appointment.paymentStatus a' = Some PayCompleted
    /\ Appointment.status a' = Some Confirmed
    /\ Appointment.stripePaymentIntentId a' = Some (Obj.id paymentIntent)
    /\ Appointment.stripeCheckoutSessionId a'
       = Appointment.stripeCheckoutSessionId a.
Proof.
  intros Hdb Hparse Hi Ha.
  rewrite (payment_succeeded_writes now paymentIntent w db i Hdb Hparse Hi).
  destruct (setAppointment_row now db i
              (Appointment.mkPartial None (Some Confirmed) (Some PayCompleted)
                 (Some (Obj.id paymentIntent)) None None) a Ha)
    as (db' & a' & Hdb' & Ha' & ->).
  eexists db', _. split; [exact Hdb'|]. split; [exact Ha'|].
  match goal with
  | |- context [written _ _ (Appointment.set ?p) _] =>
    pose proof (written_columns now p a) as (Hst & Hpay & Hpi & _);
    pose proof (written_checkout_columns now p a) as (Hcs & _)
  end.
  simpl in *. done.
Qed.

(** X7.  A payment-intent-succeeded event whose [metadata.appointment_id]
    names a stored appointment leaves it paid and confirmed, with the id of
    the payment intent; the checkout session id is not touched. *)
Theorem payment_succeeded_confirms now paymentIntent w db i a :
  getDb w = Some db ->
  Js.parseInt (Js.or_else (appointment_id paymentIntent) "0") = Some i ->
  i ≠ 0 ->
  rows (appointments db) !! i = Some a ->
  exists db' a',
    getDb (handlePaymentIntentSucceeded now paymentIntent w) = Some db'
    /\ rows (appointments db') !! i = Some a'
    /\ Appointment.paymentStatus a' = Some PayCompleted
    /\ Appointment.status a' = Some Confirmed
    /\ Appointment.stripePaymentIntentId a' = Some (Obj.id paymentIntent)
    /\ Appointment.stripeCheckoutSessionId a'
       = Appointment.stripeCheckoutSessionId a.
Proof. apply payment_succeeded_row. Qed.

(** X8.  A payment-intent-failed event marks the payment failed and stores the
    id of the payment intent; the status of the appointment stays what it
    was, confirmed included. *)
Theorem payment_failed_keeps_status now paymentIntent w db i a :
  getDb w = Some db ->
  Js.parseInt (Js.or_else (appointment_id paymentIntent) "0") = Some i ->
  i ≠ 0 ->
  rows (appointments db) !! i = Some a ->
  exists db' a',
    getDb (handlePaymentIntentFailed now paymentIntent w) = Some db'
    /\ rows (appointments db') !! i = Some a'
    /\ Appointment.paymentStatus a' = Some PayFailed
    /\ Appointment.stripePaymentIntentId a' = Some (Obj.id paymentIntent)
    /\ Appointment.status a' = Appointment.status a
    /\ Appointment.stripeCheckoutSessionId a'
       = Appointment.stripeCheckoutSessionId a.
Proof.
  intros Hdb Hparse Hi Ha.
  rewrite (payment_failed_writes now paymentIntent w db i Hdb Hparse Hi).
  destruct (setAppointment_row now db i
              (Appointment.mkPartial None None (Some PayFailed)
                 (Some (Obj.id paymentIntent)) None None) a Ha)
    as (db' & a' & Hdb' & Ha' & ->).
  eexists db', _. split; [exact Hdb'|]. split; [exact Ha'|].
  match goal with
  | |- context [written _ _ (Appointment.set ?p) _] =>
    pose proof (written_columns now p a) as (Hst & Hpay & Hpi & _);
    pose proof (written_checkout_columns now p a) as (Hcs & _)
  end.
  simpl in *. done.
Qed.

Lemma charge_refunded_row now charge w db i a :
  getDb w = Some db ->
  Js.parseInt (Js.or_else (appointment_id charge) "0") = Some i ->
  i ≠ 0 ->
  rows (appointments db) !! i = Some a ->
  exists db' a',
    getDb (handleChargeRefunded now charge w) = Some db'
    /\ rows (appointments db') !! i = Some a'
    /\ Appointment.paymentStatus a' = Some PayRefunded
    /\ Appointment.status a' = Some Cancelled
    /\ Appointment.stripePaymentIntentId a'
       = Appointment.stripePaymentIntentId a
    /\ Appointment.stripeCheckoutSessionId a'
       = Appointment.stripeCheckoutSessionId a.
Proof.
  intros Hdb Hparse Hi Ha.
  rewrite (charge_refunded_writes now charge w db i Hdb Hparse Hi).
  destruct (setAppointment_row now db i
              (Appointment.mkPartial None (Some Cancelled) (Some PayRefunded)
                 None None None) a Ha)
    as (db' & a' & Hdb' & Ha' & ->).
  eexists db', _. split; [exact Hdb'|]. split; [exact Ha'|].
  match goal with
  | |- context [written _ _ (Appointment.set ?p) _] =>
    pose proof (written_columns now p a) as (Hst & Hpay & Hpi & _);
    pose proof (written_checkout_columns now p a) as (Hcs & _)
  end.
  simpl in *. done.
Qed.

(** X9.  A charge-refunded event leaves the appointment refunded and
    cancelled, and keeps both Stripe ids it had. *)
Theorem charge_refunded_cancels now charge w db i a :
  getDb w = Some db ->
  Js.parseInt (Js.or_else (appointment_id charge) "0") = Some i ->
  i ≠ 0 ->
  rows (appointments db) !! i = Some a ->
  exists db' a',
    getDb (handleChargeRefunded now charge w) = Some db'
    /\ rows (appointments db') !! i = Some a'
    /\ Appointment.paymentStatus a' = Some PayRefunded
    /\ Appointment.status a' = Some Cancelled
    /\ Appointment.stripePaymentIntentId a'
       = Appointment.stripePaymentIntentId a
    /\ Appointment.stripeCheckoutSessionId a'
       = Appointment.stripeCheckoutSessionId a.
Proof. apply charge_refunded_row. Qed.

End Handlers.

(** ** Events in sequence *)

Section Sequences.
Import Schema Db StripeWebhook.

(** Up to [updatedAt], a row after an update is the row with the new
    values. *)
Lemma written_touch now p a :
  Appointment.touch 0 (written Appointment.touch now (Appointment.set p) a)
  = Appointment.set p (Appointment.touch 0 a).
Proof.
  unfold written. case_decide as Hset.
  - by rewrite <- Hset at 1.
  - done.
Qed.

(** X10.  Checkout-session-completed and payment-intent-succeeded for the same
    appointment, delivered in either order, leave the same row up to
    [updatedAt]: paid, confirmed, with both Stripe ids. *)
Theorem checkout_and_intent_commute t1 t2 session paymentIntent w db i a :
  getDb w = Some db ->
  Js.parseInt (Js.or_else (Obj.client_reference_id session) "0") = Some i ->
  Js.parseInt (Js.or_else (appointment_id paymentIntent) "0") = Some i ->
  i ≠ 0 ->
  rows (appointments db) !! i = Some a ->
  exists db1 db2 a1 a2,
    getDb (handlePaymentIntentSucceeded t2 paymentIntent
             (handleCheckoutSessionCompleted t1 session w)) = Some db1
    /\ getDb (handleCheckoutSessionCompleted t2 session
                (handlePaymentIntentSucceeded t1 paymentIntent w)) = Some db2
    /\ rows (appointments db1) !! i = Some a1
    /\ rows (appointments db2) !! i = Some a2
    /\ Appointment.touch 0 a1 = Appointment.touch 0 a2
    /\ Appointment.status a1 = Some Confirmed
    /\ Appointment.paymentStatus a1 = Some PayCompleted
    /\ Appointment.stripeCheckoutSessionId a1 = Some (Obj.id session)
    /\ Appointment.stripePaymentIntentId a1 = Some (Obj.id paymentIntent).
Proof.
  intros Hdb Hs Hp Hi Ha.
  rewrite (checkout_completed_writes t1 session w db i Hdb Hs Hi).
  rewrite (payment_succeeded_writes t1 paymentIntent w db i Hdb Hp Hi).
  destruct (setAppointment_row t1 db i
              (Appointment.mkPartial None (Some Confirmed) (Some PayCompleted)
                 None (Some (Obj.id session)) None) a Ha)
    as (dbs & as_ & Hdbs & Has & Eas).
  destruct (setAppointment_row t1 db i
              (Appointment.mkPartial None (Some Confirmed) (Some PayCompleted)
                 (Some (Obj.id paymentIntent)) None None) a Ha)
    as (dbp & ap & Hdbp & Hap & Eap).
  rewrite (payment_succeeded_writes t2 paymentIntent _ dbs i Hdbs Hp Hi).
  rewrite (checkout_completed_writes t2 session _ dbp i Hdbp Hs Hi).
  destruct (setAppointment_row t2 dbs i
              (Appointment.mkPartial None (Some Confirmed) (Some PayCompleted)
                 (Some (Obj.id paymentIntent)) None None) as_ Has)
    as (db1 & a1 & Hdb1 & Ha1 & Ea1).
  destruct (setAppointment_row t2 dbp i
              (Appointment.mkPartial None (Some Confirmed) (Some PayCompleted)
                 None (Some (Obj.id session)) None) ap Hap)
    as (db2 & a2 & Hdb2 & Ha2 & Ea2).
  exists db1, db2, a1, a2. do 4 (split; [done|]).
  assert (E1 : Appointment.touch 0 a1
               = Appointment.set
                   (Appointment.mkPartial None (Some Confirmed)
                      (Some PayCompleted) (Some (Obj.id paymentIntent))
                      (Some (Obj.id session)) None)
                   (Appointment.touch 0 a)).
  { rewrite Ea1, written_touch, Eas, written_touch. by destruct a. }
  split.
  - rewrite E1, Ea2, written_touch, Eap, written_touch. by destruct a.
  - pose proof (f_equal Appointment.status E1) as H1.
    pose proof (f_equal Appointment.paymentStatus E1) as H2.
    pose proof (f_equal Appointment.stripeCheckoutSessionId E1) as H3.
    pose proof (f_equal Appointment.stripePaymentIntentId E1) as H4.
    by destruct a1.
Qed.

(** X11.  Between a refund and a success for the same appointment the event
    delivered last decides: a success that arrives after the refund makes
    the appointment paid and confirmed again, a refund after the success
    leaves it refunded and cancelled. *)
Theorem last_event_decides t1 t2 charge paymentIntent w db i a :
  getDb w = Some db ->
  Js.parseInt (Js.or_else (appointment_id charge) "0") = Some i ->
  Js.parseInt (Js.or_else (appointment_id paymentIntent) "0") = Some i ->
  i ≠ 0 ->
  rows (appointments db) !! i = Some a ->
  (exists db1 a1,
     getDb (handlePaymentIntentSucceeded t2 paymentIntent
              (handleChargeRefunded t1 charge w)) = Some db1
     /\ rows (appointments db1) !! i = Some a1
     /\ Appointment.paymentStatus a1 = Some PayCompleted
     /\ Appointment.status a1 = Some Confirmed)
  /\ (exists db2 a2,
        getDb (handleChargeRefunded t2 charge
                 (handlePaymentIntentSucceeded t1 paymentIntent w)) = Some db2
        /\ rows (appointments db2) !! i = Some a2
        /\ Appointment.paymentStatus a2 = Some PayRefunded
        /\ Appointment.status a2 = Some Cancelled).
Proof.
  intros Hdb Hc Hp Hi Ha. split.
  - destruct (charge_refunded_row t1 charge w db i a Hdb Hc Hi Ha)
      as (dbr & ar & Hdbr & Har & _).
    destruct (payment_succeeded_row t2 paymentIntent _ dbr i ar
                Hdbr Hp Hi Har) as (db1 & a1 & ? & ? & ? & ? & _).
    by exists db1, a1.
  - destruct (payment_succeeded_row t1 paymentIntent w db i a
                Hdb Hp Hi Ha) as (dbp & ap & Hdbp & Hap & _).
    destruct (charge_refunded_row t2 charge _ dbp i ap Hdbp Hc Hi Hap)
      as (db2 & a2 & ? & ? & ? & ? & _).
    by exists db2, a2.
Qed.

End Sequences.

(** ** The endpoint on events it does not apply *)

Section EndpointMore.
Import Schema Db StripeWebhook.
Variable webhookSecret : string.
Variable constructEvent : string -> string -> string -> string + Event.t.

Local Arguments Js.startsWith : simpl never.

(** What the dispatch of an event does to a connected store: nothing, or one
    update of the appointment its correlation key names, which sets neither
    the schedule nor the price. *)
Lemma dispatch_cases now event w db :
  getDb w = Some db ->
  dispatch now event w = w
  \/ exists i p,
       i ≠ 0
       /\ handled (Event.type event) = true
       /\ Js.parseInt (Js.or_else (correlationKey event) "0") = Some i
       /\ dispatch now event w = setAppointment now db i p
       /\ Appointment.p_scheduledAt p = None
       /\ Appointment.p_priceInCents p = None.
Proof.
  intros Hdb. unfold dispatch, handled, correlationKey.
  repeat case_bool_decide; simpl; try (by left);
    unfold handleCheckoutSessionCompleted, handlePaymentIntentSucceeded,
      handlePaymentIntentFailed, handleChargeRefunded;
    rewrite Hdb;
    (destruct (Js.parseInt _) as [i|] eqn:Hparse; simpl; [|by left]);
    (destruct (Z.eqb_spec i 0); [by left|]);
    right; by eexists i, _.
Qed.

Lemma setAppointment_absent now w db i p :
  getDb w = Some db -> rows (appointments db) !! i = None ->
  setAppointment now db i p = w.
Proof.
  intros Hdb Hi. destruct w as [o]. simpl in Hdb. subst o.
  unfold setAppointment. rewrite update_absent by done. by destruct db.
Qed.

Lemma verified_dispatch now req w sig event :
  stripe_signature req = Some sig -> sig ≠ "" ->
  constructEvent (body req) sig webhookSecret = inr event ->
  Js.startsWith "evt_test_" (Event.id event) = false ->
  handleStripeWebhook webhookSecret constructEvent now req w
  = (mkResponse 200 JReceived, dispatch now event w).
Proof.
  intros Hsig Hne Hverify Htest. unfold handleStripeWebhook.
  rewrite Hsig. destruct sig as [|c sig]; [done|]. simpl.
  by rewrite Hverify, Htest.
Qed.

(** X3.  A verified event of a type without a handler is acknowledged and
    changes nothing, whatever its object carries. *)
Theorem unhandled_event_acknowledged now req w sig event :
  stripe_signature req = Some sig -> sig ≠ "" ->
  constructEvent (body req) sig webhookSecret = inr event ->
  Js.startsWith "evt_test_" (Event.id event) = false ->
  handled (Event.type event) = false ->
  handleStripeWebhook webhookSecret constructEvent now req w
  = (mkResponse 200 JReceived, w).
Proof.
  intros Hsig Hne Hverify Htest Hno.
  rewrite (verified_dispatch now req w sig event) by done.
  f_equal. unfold handled in Hno. unfold dispatch.
  repeat case_bool_decide; simpl in Hno; done.
Qed.

(** X4.  A verified event whose correlation key parses to a number that is
    the id of no appointment (a negative number, an id never given) is
    acknowledged with [{ received: true }] and leaves the world exactly as
    it was: no row appears, no error is reported to the provider. *)
Theorem unknown_appointment_ignored now req w sig event db i :
  stripe_signature req = Some sig -> sig ≠ "" ->
  constructEvent (body req) sig webhookSecret = inr event ->
  Js.startsWith "evt_test_" (Event.id event) = false ->
  getDb w = Some db ->
  Js.parseInt (Js.or_else (correlationKey event) "0") = Some i ->
  rows (appointments db) !! i = None ->
  handleStripeWebhook webhookSecret constructEvent now req w
  = (mkResponse 200 JReceived, w).
Proof.
  intros Hsig Hne Hverify Htest Hdb Hparse Hrow.
  rewrite (verified_dispatch now req w sig event) by done. f_equal.
  destruct (dispatch_cases now event w db Hdb)
    as [-> | (j & p & _ & _ & Hj & -> & _)]; [done|].
  rewrite Hparse in Hj. injection Hj as <-.
  by apply setAppointment_absent.
Qed.

(** X5.  Without a database every request leaves the world as it is, and a
    verified event is still acknowledged with status 200: the event is
    dropped, the provider is not asked to deliver it again. *)
Theorem webhook_without_database now req w :
  getDb w = None ->
  (handleStripeWebhook webhookSecret constructEvent now req w).2 = w
  /\ forall sig event,
       stripe_signature req = Some sig -> sig ≠ "" ->
       constructEvent (body req) sig webhookSecret = inr event ->
       status (handleStripeWebhook webhookSecret constructEvent now req w).1
       = 200.
Proof.
  intros Hdb.
  assert (Hd : forall event, dispatch now event w = w).
  { intros event. unfold dispatch, handleCheckoutSessionCompleted,
      handlePaymentIntentSucceeded, handlePaymentIntentFailed,
      handleChargeRefunded. rewrite Hdb. by repeat case_bool_decide. }
  split.
  - unfold handleStripeWebhook. destruct (Js.falsy_str _); [done|].
    destruct (constructEvent _ _ _) as [message|event]; [done|].
    destruct (Js.startsWith "evt_test_" (Event.id event)); [done|].
    simpl. apply Hd.
  - intros sig event Hsig Hne Hverify. unfold handleStripeWebhook.
    rewrite Hsig. destruct sig as [|c sig]; [done|]. simpl.
    rewrite Hverify.
    by destruct (Js.startsWith "evt_test_" (Event.id event)).
Qed.

(** X6.  Whatever the request, the endpoint writes nothing but the rows of
    [appointments] that exist: the other tables and the auto-increment
    counter are the same, no appointment appears or disappears, and every
    appointment keeps its owner, conversation, calendar event, barber,
    service, duration, schedule, price, notes and creation time. *)
Theorem webhook_frame now req w db :
  getDb w = Some db ->
  exists db',
    getDb (handleStripeWebhook webhookSecret constructEvent now req w).2
    = Some db'
    /\ users db' = users db /\ conversations db' = conversations db
    /\ messages db' = messages db
    /\ trainingExamples db' = trainingExamples db
    /\ autoIncrement (appointments db') = autoIncrement (appointments db)
    /\ (forall j, is_Some (rows (appointments db') !! j)
                  <-> is_Some (rows (appointments db) !! j))
    /\ forall j a a',
         rows (appointments db) !! j = Some a ->
         rows (appointments db') !! j = Some a' ->
         Appointment.userId a' = Appointment.userId a
         /\ Appointment.conversationId a' = Appointment.conversationId a
         /\ Appointment.googleCalendarEventId a'
            = Appointment.googleCalendarEventId a
         /\ Appointment.barberName a' = Appointment.barberName a
         /\ Appointment.service a' = Appointment.service a
         /\ Appointment.duration a' = Appointment.duration a
         /\ Appointment.scheduledAt a' = Appointment.scheduledAt a
         /\ Appointment.priceInCents a' = Appointment.priceInCents a
         /\ Appointment.notes a' = Appointment.notes a
         /\ Appointment.createdAt a' = Appointment.createdAt a.
Proof.
  intros Hdb.
  assert (Hsame : exists db', getDb w = Some db'
            /\ users db' = users db /\ conversations db' = conversations db
            /\ messages db' = messages db
            /\ trainingExamples db' = trainingExamples db
            /\ autoIncrement (appointments db')
               = autoIncrement (appointments db)
            /\ (forall j, is_Some (rows (appointments db') !! j)
                          <-> is_Some (rows (appointments db) !! j))
            /\ forall j a a',
                 rows (appointments db) !! j = Some a ->
                 rows (appointments db') !! j = Some a' ->
                 Appointment.userId a' = Appointment.userId a
                 /\ Appointment.conversationId a' = Appointment.conversationId a
                 /\ Appointment.googleCalendarEventId a'
                    = Appointment.googleCalendarEventId a
                 /\ Appointment.barberName a' = Appointment.barberName a
                 /\ Appointment.service a' = Appointment.service a
                 /\ Appointment.duration a' = Appointment.duration a
                 /\ Appointment.scheduledAt a' = Appointment.scheduledAt a
                 /\ Appointment.priceInCents a' = Appointment.priceInCents a
                 /\ Appointment.notes a' = Appointment.notes a
                 /\ Appointment.createdAt a' = Appointment.createdAt a).
  { exists db. do 6 (split; [done|]). split; [done|].
    intros j a a' Ha Ha'. rewrite Ha in Ha'. injection Ha' as <-. tauto. }
  unfold handleStripeWebhook. destruct (Js.falsy_str _); [done|].
  destruct (constructEvent _ _ _) as [message|event]; [done|].
  destruct (Js.startsWith "evt_test_" (Event.id event)); [done|]. simpl.
  destruct (dispatch_cases now event w db Hdb)
    as [-> | (i & p & _ & _ & _ & -> & Hat & Hprice)]; [done|].
  destruct (setAppointment_store now db i p)
    as (db' & -> & ? & ? & ? & ? & ? & Hi & Hother).
  exists db'. do 6 (split; [done|]). split.
  - intros j. destruct (decide (i = j)) as [<-|Hij].
    + rewrite Hi. by rewrite fmap_is_Some.
    + by rewrite Hother.
  - intros j a a' Ha Ha'. destruct (decide (i = j)) as [<-|Hij].
    + rewrite Hi, Ha in Ha'. injection Ha' as <-.
      pose proof (written_columns now p a) as Hc.
      pose proof (written_checkout_columns now p a) as Hc'.
      simpl in Hc, Hc'. rewrite Hat in Hc. rewrite Hprice in Hc'.
      simpl in Hc, Hc'. tauto.
    + rewrite Hother, Ha in Ha' by done. injection Ha' as <-. tauto.
Qed.

End EndpointMore.

(** ** Numbers written and read back *)

Section Numbers.
Import Js.

Lemma digits_of_uint_acc d : forall acc,
  digits 10 (Some (Z.pos acc)) (NilEmpty.string_of_uint d)
  = Some (Z.pos (Pos.of_uint_acc d acc)).
Proof.
  induction d; intros acc; simpl; [done|..];
    match goal with
    | |- context [code ?c] =>
      let v := eval vm_compute in (code c) in change (code c) with v
    end;
    match goal with
    | |- digits 10 (Some ?z) _ = Some (Z.pos (Pos.of_uint_acc _ ?q)) =>
      replace z with (Z.pos q) by lia; apply IHd
    end.
Qed.

Lemma digits_of_uint d :
  digits 10 (Some 0) (NilEmpty.string_of_uint d)
  = Some (Z.of_N (Pos.of_uint d)).
Proof.
  induction d; simpl; [done | exact IHd | ..]; apply digits_of_uint_acc.
Qed.

(** A byte of Basic Latin that is no white space stops [trimStart]. *)
Lemma trimStart_plain c s :
  code c < 128 -> ws1 c = false -> trimStart (String c s) = String c s.
Proof.
  intros Hc Hw.
  assert (H194 : (code c =? 194) = false) by lia.
  assert (H225 : (code c =? 225) = false) by lia.
  assert (H226 : (code c =? 226) = false) by lia.
  assert (H227 : (code c =? 227) = false) by lia.
  assert (H239 : (code c =? 239) = false) by lia.
  simpl. rewrite Hw. destruct s as [|c2 [|c3 s3]]; [done|..];
    unfold ws2, ws3; rewrite ?H194, ?H225, ?H226, ?H227, ?H239; done.
Qed.

Lemma trimStart_digit c s :
  (48 <=? code c) && (code c <=? 57) = true ->
  trimStart (String c s) = String c s.
Proof.
  intros [?%Z.leb_le ?%Z.leb_le]%andb_true_iff.
  apply trimStart_plain; [lia|]. unfold ws1. lia.
Qed.

Lemma parseInt_uint d :
  d ≠ Decimal.Nil ->
  parseInt (NilEmpty.string_of_uint d) = Some (Z.of_N (Pos.of_uint d))
  /\ parseInt (String "-" (NilEmpty.string_of_uint d))
     = Some (- Z.of_N (Pos.of_uint d)).
Proof.
  intros Hd. pose proof (digits_of_uint d) as Hdigits.
  destruct d as [|l|l|l|l|l|l|l|l|l|l]; [done|..];
    unfold parseInt; simpl NilEmpty.string_of_uint in *;
    rewrite (trimStart_plain "-") by done;
    rewrite trimStart_digit by done;
    [destruct l; simpl NilEmpty.string_of_uint in *; cbv iota beta | ..];
    repeat match goal with
    | |- context [digits 10 None (String ?c ?s)] =>
      change (digits 10 None (String c s)) with (digits 10 (Some 0) (String c s))
    end;
    rewrite ?Hdigits; split; f_equal; lia.
Qed.

(** A number written with [toString] is read back by [parseInt]. *)
Lemma parseInt_toString n : parseInt (toString n) = Some n.
Proof.
  unfold toString. destruct n as [|p|p]; [reflexivity|..]; simpl.
  - pose proof (DecimalPos.Unsigned.to_uint_nonnil p) as Hnil.
    destruct (parseInt_uint (Pos.to_uint p) Hnil) as [H _].
    unfold NilZero.string_of_uint.
    destruct (Pos.to_uint p) eqn:E; [done|..];
      rewrite H, <- E, DecimalPos.Unsigned.of_to; done.
  - pose proof (DecimalPos.Unsigned.to_uint_nonnil p) as Hnil.
    destruct (parseInt_uint (Pos.to_uint p) Hnil) as [_ H].
    unfold NilZero.string_of_uint.
    destruct (Pos.to_uint p) eqn:E; [done|..];
      rewrite H, <- E, DecimalPos.Unsigned.of_to; done.
Qed.

End Numbers.

(** ** Checkout sessions *)

Section Checkout.
Import Schema Db StripeRouter.
Variable customers_create : CustomerParams -> string + string.
Variable sessions_create : SessionParams -> string + Session.

(** The call that goes through: what is sent to Stripe, what is returned and
    what is written. *)
Lemma checkout_ok now ctx i serviceId w db a service :
  getDb w = Some db ->
  rows (appointments db) !! i = Some a ->
  Appointment.userId a = Ctx.user_id ctx ->
  Products.getServiceById serviceId = Some service ->
  (forall p, exists c, customers_create p = inr c) ->
  (forall p, exists s, sessions_create p = inr s) ->
  exists p session db' a',
    sessions_create p = inr session
    /\ createCheckoutSession customers_create sessions_create now ctx i
         serviceId w
       = (inr (mkCheckoutResult (session_id session) (session_url session)),
          mkWorld (Some db'))
    /\ Js.parseInt (sp_client_reference_id p) = Some i
    /\ sp_metadata p !! "appointment_id" = Some (sp_client_reference_id p)
    /\ sp_metadata p !! "service_id" = Some serviceId
    /\ sp_unit_amount p = Products.price service
    /\ sp_currency p = Products.currency service
    /\ rows (appointments db') !! i = Some a'
    /\ (forall j, j ≠ i ->
          rows (appointments db') !! j = rows (appointments db) !! j)
    /\ Appointment.stripeCheckoutSessionId a' = Some (session_id session)
    /\ Appointment.priceInCents a' = Some (Products.price service)
    /\ Appointment.sameButCheckout a a'.
Proof.
  intros Hdb Ha Hown Hservice Hc Hs.
  unfold createCheckoutSession, selectById. rewrite Hdb, Ha. simpl.
  rewrite bool_decide_false by (intros Hne; by apply Hne).
  rewrite Hservice.
  assert (Hcols : forall sid,
    let a' := written Appointment.touch now
                (Appointment.set
                   (Appointment.mkPartial None None None None (Some sid)
                      (Some (Products.price service)))) a in
    Appointment.stripeCheckoutSessionId a' = Some sid
    /\ Appointment.priceInCents a' = Some (Products.price service)
    /\ Appointment.sameButCheckout a a').
  { intros sid.
    match goal with
    | |- context [written _ _ (Appointment.set ?p) _] =>
      pose proof (written_columns now p a) as H1;
      pose proof (written_checkout_columns now p a) as H2
    end.
    simpl in *. unfold Appointment.sameButCheckout. tauto. }
  destruct (Js.falsy_str _).
  - match goal with
    | |- context [customers_create ?q] =>
      destruct (Hc q) as [c Hcus]; rewrite Hcus
    end.
    match goal with
    | |- context [sessions_create ?q] =>
      destruct (Hs q) as [session Hsess]; rewrite Hsess; exists q, session
    end.
    eexists _, _. split; [done|]. split; [reflexivity|]. simpl.
    split; [apply parseInt_toString|].
    split; [by rewrite lookup_insert_ne, lookup_insert_eq|].
    split; [by rewrite !lookup_insert_ne, lookup_insert_eq by done|].
    split; [done|]. split; [done|].
    split; [by rewrite lookup_alter_eq, Ha|].
    split; [intros j Hj; by rewrite lookup_alter_ne|].
    apply Hcols.
  - match goal with
    | |- context [sessions_create ?q] =>
      destruct (Hs q) as [session Hsess]; rewrite Hsess; exists q, session
    end.
    eexists _, _. split; [done|]. split; [reflexivity|]. simpl.
    split; [apply parseInt_toString|].
    split; [by rewrite lookup_insert_ne, lookup_insert_eq|].
    split; [by rewrite !lookup_insert_ne, lookup_insert_eq by done|].
    split; [done|]. split; [done|].
    split; [by rewrite lookup_alter_eq, Ha|].
    split; [intros j Hj; by rewrite lookup_alter_ne|].
    apply Hcols.
Qed.

(** X12.  For the owner of a stored appointment and a service of the catalog,
    when Stripe accepts the calls, [createCheckoutSession] returns the id and
    the URL of the session Stripe created, asks for the price and currency
    of the service, and writes the session id and the price on this
    appointment; every other column of it, and every other appointment,
    stays. *)
Theorem checkout_session_created now ctx i serviceId w db a service :
  getDb w = Some db ->
  rows (appointments db) !! i = Some a ->
  Appointment.userId a = Ctx.user_id ctx ->
  Products.getServiceById serviceId = Some service ->
  (forall p, exists c, customers_create p = inr c) ->
  (forall p, exists s, sessions_create p = inr s) ->
  exists p session db' a',
    sessions_create p = inr session
    /\ createCheckoutSession customers_create sessions_create now ctx i
         serviceId w
       = (inr (mkCheckoutResult (session_id session) (session_url session)),
          mkWorld (Some db'))
    /\ Js.parseInt (sp_client_reference_id p) = Some i
    /\ sp_metadata p !! "appointment_id" = Some (sp_client_reference_id p)
    /\ sp_metadata p !! "service_id" = Some serviceId
    /\ sp_unit_amount p = Products.price service
    /\ sp_currency p = Products.currency service
    /\ rows (appointments db') !! i = Some a'
    /\ (forall j, j ≠ i ->
          rows (appointments db') !! j = rows (appointments db) !! j)
    /\ Appointment.stripeCheckoutSessionId a' = Some (session_id session)
    /\ Appointment.priceInCents a' = Some (Products.price service)
    /\ Appointment.sameButCheckout a a'.
Proof. apply checkout_ok. Qed.

(** X13.  The whole payment.  The owner opens a checkout session; Stripe then
    delivers checkout-session-completed for that session, carrying the
    reference and the metadata the session was created with; after the
    handler has run, [getPaymentStatus] answers the owner: paid, confirmed,
    at the price of the service. *)
Theorem checkout_then_webhook_then_status now1 now2 ctx i serviceId w db a
    service :
  getDb w = Some db ->
  rows (appointments db) !! i = Some a ->
  Appointment.userId a = Ctx.user_id ctx ->
  i ≠ 0 ->
  Products.getServiceById serviceId = Some service ->
  (forall p, exists c, customers_create p = inr c) ->
  (forall p, exists s, sessions_create p = inr s) ->
  exists p session w1,
    sessions_create p = inr session
    /\ createCheckoutSession customers_create sessions_create now1 ctx i
         serviceId w
       = (inr (mkCheckoutResult (session_id session) (session_url session)),
          w1)
    /\ let w2 :=
         StripeWebhook.handleCheckoutSessionCompleted now2
           (StripeWebhook.Obj.mk (session_id session)
              (Some (sp_client_reference_id p)) (Some (sp_metadata p)))
           w1 in
       getPaymentStatus ctx i w2
       = (inr (mkPaymentStatusResult (Some PayCompleted) (Some Confirmed)
                                     (Some (Products.price service))),
          w2).
Proof.
  intros Hdb Ha Hown Hi Hservice Hc Hs.
  destruct (checkout_ok now1 ctx i serviceId w db a service
              Hdb Ha Hown Hservice Hc Hs)
    as (p & session & db1 & a1 & Hsess & Hcall & Hparse & _ & _ & _ & _
        & Ha1 & _ & _ & Hprice & Hsame).
  exists p, session, (mkWorld (Some db1)). split; [done|]. split; [done|].
  assert (Hkey : Js.parseInt
            (Js.or_else (Some (sp_client_reference_id p)) "0") = Some i).
  { destruct (sp_client_reference_id p) as [|c s]; [done|done]. }
  simpl.
  rewrite (checkout_completed_writes now2
             (StripeWebhook.Obj.mk (session_id session)
                (Some (sp_client_reference_id p)) (Some (sp_metadata p)))
             (mkWorld (Some db1)) db1 i eq_refl Hkey Hi).
  simpl StripeWebhook.Obj.id.
  destruct (setAppointment_row now2 db1 i
              (Appointment.mkPartial None (Some Confirmed) (Some PayCompleted)
                 None (Some (session_id session)) None) a1 Ha1)
    as (db2 & a2 & Hdb2 & Ha2 & Ea2).
  destruct (StripeWebhook.setAppointment _ _ _ _) as [o]. simpl in Hdb2.
  subst o. unfold getPaymentStatus, selectById. simpl. rewrite Ha2. simpl.
  match type of Ea2 with
  | _ = written _ _ (Appointment.set ?q) _ =>
    pose proof (written_columns now2 q a1) as (Hst & Hpay & _ & _ & Hu & _);
    pose proof (written_checkout_columns now2 q a1) as (_ & Hpr)
  end.
  rewrite <- Ea2 in Hst, Hpay, Hu, Hpr. simpl in Hst, Hpay, Hpr.
  destruct Hsame as (Hu1 & _).
  rewrite bool_decide_false by (intros Hne; apply Hne; congruence).
  by rewrite Hst, Hpay, Hpr, Hprice.
Qed.

End Checkout.

Section CheckoutEdges.
Import Schema Db StripeRouter.
Variable sessions_create : SessionParams -> string + Session.

(** X14.  When the signed-in user already has a Stripe customer id,
    [createCheckoutSession] creates no customer: the outcome is the same
    whatever [customers.create] would answer, sessions are asked for that
    customer only, and the [users] table is not written. *)
Theorem existing_customer_reused cc1 cc2 now ctx i serviceId w c :
  User.stripeCustomerId (Ctx.user ctx).2 = Some c -> c ≠ "" ->
  createCheckoutSession cc1 sessions_create now ctx i serviceId w
  = createCheckoutSession cc2 sessions_create now ctx i serviceId w
  /\ createCheckoutSession cc1
       (fun p => if bool_decide (sp_customer p = c) then sessions_create p
                 else inl "another customer")
       now ctx i serviceId w
     = createCheckoutSession cc1 sessions_create now ctx i serviceId w
  /\ forall db, getDb w = Some db ->
       exists db',
         getDb (createCheckoutSession cc1 sessions_create now ctx i
                  serviceId w).2 = Some db'
         /\ users db' = users db.
Proof.
  intros Hc Hne. destruct c as [|c0 c]; [done|].
  unfold createCheckoutSession. rewrite Hc. simpl.
  split; [done|]. split.
  - destruct (getDb w) as [db|]; [|done].
    destruct (selectById _ _) as [|apt l]; [done|].
    destruct (bool_decide _); [done|].
    destruct (Products.getServiceById _); [|done].
    by rewrite bool_decide_true.
  - intros db Hdb. rewrite Hdb.
    destruct (selectById _ _) as [|apt l]; [by exists db|].
    destruct (bool_decide _); [by exists db|].
    destruct (Products.getServiceById _); [|by exists db].
    destruct (sessions_create _); [by exists db|].
    eexists; split; [reflexivity|done].
Qed.

(** X15.  When Stripe creates the customer and then refuses the session, the
    call fails with the message of Stripe, the appointment is not written,
    and the new customer id stays on the row of the user. *)
Theorem customer_kept_when_session_fails customers_create now ctx i serviceId
    w db a service u c :
  getDb w = Some db ->
  rows (appointments db) !! i = Some a ->
  Appointment.userId a = Ctx.user_id ctx ->
  Products.getServiceById serviceId = Some service ->
  Js.falsy_str (User.stripeCustomerId (Ctx.user ctx).2) = true ->
  rows (users db) !! Ctx.user_id ctx = Some u ->
  (forall p, customers_create p = inr c) ->
  (forall p, exists e, sessions_create p = inl e) ->
  exists e db' u',
    createCheckoutSession customers_create sessions_create now ctx i
      serviceId w
    = (inl (JsError e), mkWorld (Some db'))
    /\ appointments db' = appointments db
    /\ rows (users db') !! Ctx.user_id ctx = Some u'
    /\ User.stripeCustomerId u' = Some c.
Proof.
  intros Hdb Ha Hown Hservice Hnone Hu Hc Hs.
  unfold createCheckoutSession, selectById. rewrite Hdb, Ha. simpl.
  rewrite bool_decide_false by (intros Hne; by apply Hne).
  rewrite Hservice, Hnone, Hc.
  match goal with
  | |- context [sessions_create ?q] => destruct (Hs q) as [e He]; rewrite He
  end.
  eexists e, _, _. split; [reflexivity|]. simpl. split; [done|].
  rewrite lookup_alter_eq, Hu. simpl. split; [reflexivity|].
  unfold written. case_decide as Hset; [by rewrite <- Hset|done].
Qed.

(** X16.  What the two procedures on one appointment refuse, in this order and
    without writing: no database, no appointment with the id, and, for
    [createCheckoutSession] by the owner, a service id that is not in the
    catalog. *)
Theorem checkout_rejections customers_create now ctx i serviceId w :
  (getDb w = None ->
   createCheckoutSession customers_create sessions_create now ctx i
     serviceId w = (inl (JsError "Database not available"), w)
   /\ getPaymentStatus ctx i w = (inl (JsError "Database not available"), w))
  /\ (forall db, getDb w = Some db -> rows (appointments db) !! i = None ->
      createCheckoutSession customers_create sessions_create now ctx i
        serviceId w = (inl (JsError "Appointment not found"), w)
      /\ getPaymentStatus ctx i w = (inl (JsError "Appointment not found"), w))
  /\ (forall db a, getDb w = Some db -> rows (appointments db) !! i = Some a ->
      Appointment.userId a = Ctx.user_id ctx ->
      Products.getServiceById serviceId = None ->
      createCheckoutSession customers_create sessions_create now ctx i
        serviceId w = (inl (JsError "Service not found"), w)).
Proof.
  unfold createCheckoutSession, getPaymentStatus, selectById.
  split; [by intros ->|]. split.
  - intros db -> Hi. by rewrite Hi.
  - intros db a -> Ha Hown Hservice. rewrite Ha. simpl.
    rewrite bool_decide_false by (intros Hne; by apply Hne).
    by rewrite Hservice.
Qed.


End CheckoutEdges.

(** ** Lists and round trips of the booking API *)

Section Lists.
Import Schema Db.

#[local] Instance desc_le_total {R} (col : R -> Z) : Total (desc_le col).
Proof. intros x y. unfold desc_le. lia. Qed.
#[local] Instance desc_le_trans {R} (col : R -> Z) : Transitive (desc_le col).
Proof. intros x y z. unfold desc_le. lia. Qed.
#[local] Instance asc_le_total {R} (col : R -> Z) : Total (asc_le col).
Proof. intros x y. unfold asc_le. lia. Qed.
#[local] Instance asc_le_trans {R} (col : R -> Z) : Transitive (asc_le col).
Proof. intros x y z. unfold asc_le. lia. Qed.

Lemma StronglySorted_weaken {A} (P Q : A -> A -> Prop) l :
  (forall x y, P x y -> Q x y) -> StronglySorted P l -> StronglySorted Q l.
Proof.
  intros HPQ. induction 1 as [|x l Hl IH Hx]; constructor; [done|].
  eapply Forall_impl; [exact Hx|]. auto.
Qed.

Lemma NoDup_select {R} (tb : Table R) cond : NoDup (select tb cond).
Proof. unfold select. apply NoDup_filter, NoDup_map_to_list. Qed.

(** A selection in descending order of a column: the selected rows, each
    once, the larger values first. *)
Lemma desc_select {R} (col : R -> Z) (tb : Table R) cond :
  let l := desc col (select tb cond) in
  (forall k r, (k, r) ∈ l <-> rows tb !! k = Some r /\ cond r = true)
  /\ NoDup l
  /\ StronglySorted (fun x y => col y.2 <= col x.2) l.
Proof.
  unfold desc. split; [|split].
  - intros k r. by rewrite merge_sort_Permutation, elem_of_select.
  - rewrite merge_sort_Permutation. apply NoDup_select.
  - eapply StronglySorted_weaken; [|apply StronglySorted_merge_sort; apply _].
    intros x y. unfold desc_le. lia.
Qed.

Lemma asc_select {R} (col : R -> Z) (tb : Table R) cond :
  let l := asc col (select tb cond) in
  (forall k r, (k, r) ∈ l <-> rows tb !! k = Some r /\ cond r = true)
  /\ NoDup l
  /\ StronglySorted (fun x y => col x.2 <= col y.2) l.
Proof.
  unfold asc. split; [|split].
  - intros k r. by rewrite merge_sort_Permutation, elem_of_select.
  - rewrite merge_sort_Permutation. apply NoDup_select.
  - eapply StronglySorted_weaken; [|apply StronglySorted_merge_sort; apply _].
    intros x y. unfold asc_le. lia.
Qed.

(** X18.  [appointments.list] and [chat.getConversations] answer with the rows
    of the caller and no other: every appointment (conversation) whose
    [userId] is the id of the caller, each once, the appointments by
    descending [scheduledAt], the conversations by descending
    [updatedAt]. *)
Theorem own_rows_listed ctx w db :
  getDb w = Some db ->
  exists apps convs,
    Routers.appointments.list ctx w = (inr apps, w)
    /\ Routers.chat.getConversations ctx w = (inr convs, w)
    /\ (forall k a, (k, a) ∈ apps
          <-> rows (appointments db) !! k = Some a
              /\ Appointment.userId a = Ctx.user_id ctx)
    /\ NoDup apps
    /\ StronglySorted
         (fun x y => Appointment.scheduledAt y.2 <= Appointment.scheduledAt x.2)
         apps
    /\ (forall k c, (k, c) ∈ convs
          <-> rows (conversations db) !! k = Some c
              /\ Conversation.userId c = Ctx.user_id ctx)
    /\ NoDup convs
    /\ StronglySorted
         (fun x y => Conversation.updatedAt y.2 <= Conversation.updatedAt x.2)
         convs.
Proof.
  intros Hdb. unfold Routers.appointments.list, Routers.chat.getConversations,
    getAppointmentsByUserId, getConversationsByUserId. rewrite Hdb.
  eexists _, _. split; [reflexivity|]. split; [reflexivity|].
  match goal with
  | |- context [desc Appointment.scheduledAt (select ?tb ?c)] =>
    destruct (desc_select Appointment.scheduledAt tb c) as (Ha & Hna & Hsa)
  end.
  match goal with
  | |- context [desc Conversation.updatedAt (select ?tb ?c)] =>
    destruct (desc_select Conversation.updatedAt tb c) as (Hc & Hnc & Hsc)
  end.
  split; [|split; [done|split; [done|split; [|done]]]].
  - intros k a. rewrite Ha. by rewrite bool_decide_eq_true.
  - intros k c. rewrite Hc. by rewrite bool_decide_eq_true.
Qed.

(** X19.  To an administrator [appointments.listAll] answers with every
    appointment of the store, each once, by descending [scheduledAt]. *)
Theorem admin_sees_every_appointment ctx w db :
  Ctx.role ctx = RoleAdmin ->
  getDb w = Some db ->
  exists apps,
    Routers.appointments.listAll ctx w = (inr apps, w)
    /\ (forall k a, (k, a) ∈ apps <-> rows (appointments db) !! k = Some a)
    /\ NoDup apps
    /\ StronglySorted
         (fun x y => Appointment.scheduledAt y.2 <= Appointment.scheduledAt x.2)
         apps.
Proof.
  intros Hrole Hdb. unfold Routers.appointments.listAll, Routers.use,
    Routers.adminOnly, getAllAppointments.
  rewrite bool_decide_false by (intros Hne; by apply Hne). rewrite Hdb.
  eexists. split; [reflexivity|].
  match goal with
  | |- context [desc Appointment.scheduledAt (select ?tb ?c)] =>
    destruct (desc_select Appointment.scheduledAt tb c) as (Ha & Hna & Hsa)
  end.
  split; [|done]. intros k a. rewrite Ha. tauto.
Qed.

End Lists.

Section RoundTrips.
Import Schema Db.

Lemma insert_fresh {R} (r : R) (tb : Table R) :
  rows tb !! autoIncrement tb = None ->
  exists t,
    insert r tb = Some (autoIncrement tb, t)
    /\ rows t !! autoIncrement tb = Some r
    /\ forall j, j ≠ autoIncrement tb -> rows t !! j = rows tb !! j.
Proof.
  intros Hfree. unfold insert. rewrite Hfree. eexists. split; [done|]. simpl.
  split; [apply lookup_insert_eq|]. intros j Hj. by apply lookup_insert_ne.
Qed.

(** X20.  [appointments.create] by a user of the [users] table returns the id
    of a new row that belongs to the caller, carries the input, and starts
    pending and unpaid without price; the rows that were there stay; and
    [getPaymentStatus] then answers the caller for the returned id with
    pending, pending and no price. *)
Theorem created_appointment_is_pending now ctx input w db :
  getDb w = Some db ->
  is_Some (rows (users db) !! Ctx.user_id ctx) ->
  rows (appointments db) !! autoIncrement (appointments db) = None ->
  exists k db' a,
    Routers.appointments.create now ctx input w = (inr k, mkWorld (Some db'))
    /\ rows (appointments db) !! k = None
    /\ rows (appointments db') !! k = Some a
    /\ (forall j, j ≠ k ->
          rows (appointments db') !! j = rows (appointments db) !! j)
    /\ Appointment.userId a = Ctx.user_id ctx
    /\ Appointment.service a = Routers.appointments.service input
    /\ Appointment.duration a = Routers.appointments.duration input
    /\ Appointment.scheduledAt a = Routers.appointments.scheduledAt input
    /\ Appointment.barberName a = Routers.appointments.barberName input
    /\ Appointment.notes a = Routers.appointments.notes input
    /\ Appointment.status a = Some Pending
    /\ Appointment.paymentStatus a = Some PayPending
    /\ StripeRouter.getPaymentStatus ctx k (mkWorld (Some db'))
       = (inr (StripeRouter.mkPaymentStatusResult (Some PayPending)
                 (Some Pending) None),
          mkWorld (Some db')).
Proof.
  intros Hdb Huser Hfree.
  unfold Routers.appointments.create, createAppointment. rewrite Hdb.
  unfold exists_in. rewrite bool_decide_true by done.
  match goal with
  | |- context [insert ?r (appointments db)] =>
    destruct (insert_fresh r (appointments db) Hfree) as (t & -> & Hk & Hother)
  end.
  simpl. eexists _, _, _. split; [reflexivity|]. simpl.
  split; [done|]. split; [exact Hk|]. split; [exact Hother|].
  do 8 (split; [done|]).
  unfold StripeRouter.getPaymentStatus, StripeRouter.selectById. simpl.
  rewrite Hk. simpl. by rewrite bool_decide_false by (intros Hne; by apply Hne).
Qed.

(** X21.  [chat.sendMessage] into a conversation that exists appends one
    message, of role user, with the content and the time of the call; after
    it [chat.getMessages] lists, for every conversation, the messages it
    listed before, and this one more for the conversation written to.  The
    caller need not own the conversation. *)
Theorem sent_message_is_listed now ctx conversationId content w db :
  getDb w = Some db ->
  is_Some (rows (conversations db) !! conversationId) ->
  rows (messages db) !! autoIncrement (messages db) = None ->
  exists k w',
    Routers.chat.sendMessage now ctx conversationId content w = (inr true, w')
    /\ forall ctx' c before after,
         Routers.chat.getMessages ctx' c w = (inr before, w) ->
         Routers.chat.getMessages ctx' c w' = (inr after, w') ->
         forall j m,
           (j, m) ∈ after
           <-> (j, m) ∈ before
               \/ (c = conversationId /\ j = k
                   /\ m = Message.mk conversationId MsgUser content None now).
Proof.
  intros Hdb Hconv Hfree.
  unfold Routers.chat.sendMessage, addMessage. rewrite Hdb.
  unfold exists_in. rewrite bool_decide_true by done.
  match goal with
  | |- context [insert ?r (messages db)] =>
    destruct (insert_fresh r (messages db) Hfree) as (t & -> & Hk & Hother)
  end.
  simpl. eexists (autoIncrement (messages db)), _.
  split; [reflexivity|].
  intros ctx' c before after [= <-] [= <-] j m.
  unfold getMessagesByConversationId. rewrite Hdb. simpl.
  destruct (asc_select Message.createdAt (messages db)
              (fun m => bool_decide (Message.conversationId m = c)))
    as (Hb & _).
  destruct (asc_select Message.createdAt t
              (fun m => bool_decide (Message.conversationId m = c)))
    as (Ha & _).
  rewrite Ha, Hb, !bool_decide_eq_true.
  destruct (decide (j = autoIncrement (messages db))) as [->|Hj].
  - rewrite Hk, Hfree. split.
    + intros [[= <-] Hc]. right. by simpl in Hc.
    + intros [[? _] | (-> & _ & ->)]; done.
  - rewrite Hother by done. split; [tauto|].
    intros [? | (_ & ? & _)]; done.
Qed.

(** X22.  [training.updateExample] called by an administrator without
    [active] writes 0 for it: the example is deactivated, and the list of
    active examples no longer has it; its quality changes only when one is
    given. *)
Theorem update_without_active_deactivates now ctx input w db e :
  Ctx.role ctx = RoleAdmin ->
  getDb w = Some db ->
  rows (trainingExamples db) !! Routers.training.exampleId input = Some e ->
  Routers.training.active input = None ->
  exists db' e',
    Routers.training.updateExample now ctx input w
    = (inr true, mkWorld (Some db'))
    /\ rows (trainingExamples db') !! Routers.training.exampleId input
       = Some e'
    /\ TrainingExample.active e' = Some 0
    /\ TrainingExample.quality e'
       = over (Routers.training.u_quality input) (TrainingExample.quality e)
    /\ TrainingExample.userMessage e' = TrainingExample.userMessage e
    /\ TrainingExample.assistantResponse e'
       = TrainingExample.assistantResponse e
    /\ (Routers.training.exampleId input, e')
       ∉ getTrainingExamples (Some true) (mkWorld (Some db')).
Proof.
  intros Hrole Hdb He Hactive.
  unfold Routers.training.updateExample, Routers.use, Routers.adminOnly.
  rewrite bool_decide_false by (intros Hne; by apply Hne).
  unfold updateTrainingExample. rewrite Hdb, Hactive. simpl.
  eexists _, _. split; [reflexivity|]. simpl.
  rewrite lookup_alter_eq, He. simpl. split; [reflexivity|].
  assert (Hcols :
    let e' := written TrainingExample.touch now
                (setTrainingExample (Routers.training.u_quality input)
                                    (Some 0)) e in
    TrainingExample.active e' = Some 0
    /\ TrainingExample.quality e'
       = over (Routers.training.u_quality input) (TrainingExample.quality e)
    /\ TrainingExample.userMessage e' = TrainingExample.userMessage e
    /\ TrainingExample.assistantResponse e'
       = TrainingExample.assistantResponse e).
  { unfold written. case_decide as Hset; [|done].
    rewrite <- Hset at 1 2. done. }
  simpl in Hcols. destruct Hcols as (Hact & ? & ? & ?).
  do 4 (split; [done|]).
  unfold getTrainingExamples. simpl. rewrite elem_of_select.
  rewrite bool_decide_eq_true, Hact. by intros [_ [=]].
Qed.

(** X23.  [appointments.update] for an id that no appointment has, with a
    status or a schedule given, answers success and leaves the world as it
    was: the missing appointment is not reported. *)
Theorem update_of_missing_appointment now ctx input w db :
  getDb w = Some db ->
  rows (appointments db) !! Routers.appointments.appointmentId input = None ->
  is_Some (Routers.appointments.status input)
  \/ is_Some (Routers.appointments.u_scheduledAt input) ->
  Routers.appointments.update now ctx input w = (inr true, w).
Proof.
  intros Hdb Hrow Hgiven.
  unfold Routers.appointments.update, updateAppointment. rewrite Hdb.
  rewrite bool_decide_false.
  - simpl. f_equal. rewrite update_absent by done.
    destruct w as [o]. simpl in Hdb. subst o. by destruct db.
  - intros [= Hs Hst]. destruct Hgiven as [[? H]|[? H]]; congruence.
Qed.

End RoundTrips.

(** ** Lookups in the catalog *)

Section CatalogLookups.
Import Js Products.

(** X24.  [getServiceById] finds a service exactly when the catalog has one
    with this id, and then it is that service: ids are exact (no change of
    case, no surrounding space) and no two services share one. *)
Theorem getServiceById_spec i s :
  getServiceById i = Some s <-> s ∈ BARBERSHOP_SERVICES /\ id s = i.
Proof.
  unfold getServiceById, find. split.
  - intros [Hin Hid%bool_decide_eq_true]%find_some.
    by apply list_elem_of_In in Hin.
  - intros [Hin <-]. unfold BARBERSHOP_SERVICES in Hin.
    rewrite !elem_of_cons, elem_of_nil in Hin.
    destruct Hin as [-> | [-> | [-> | []]]]; reflexivity.
Qed.

(** X25.  [getServiceByName] also accepts the id of a service, in any letter
    case; and whatever it returns is a service of the catalog whose name or
    id is the lower-case form of the text asked for. *)
Theorem getServiceByName_by_id_and_sound :
  (forall service n,
     service ∈ BARBERSHOP_SERVICES ->
     caseVariant (id service) n ->
     getServiceByName n = Some service)
  /\ (forall n service,
        getServiceByName n = Some service ->
        service ∈ BARBERSHOP_SERVICES
        /\ (toLowerCase (name service) = toLowerCase n
            \/ id service = toLowerCase n)).
Proof.
  split.
  - intros service n Hin [Hlower _]%caseVariant_lower.
    unfold getServiceByName. rewrite <- Hlower.
    unfold BARBERSHOP_SERVICES in Hin.
    rewrite !elem_of_cons, elem_of_nil in Hin.
    destruct Hin as [-> | [-> | [-> | []]]]; reflexivity.
  - intros n service [Hin Hp]%find_some. split.
    + by apply list_elem_of_In in Hin.
    + apply orb_true_iff in Hp as [H|H]; apply bool_decide_eq_true in H; auto.
Qed.

End CatalogLookups.

(** ** Users *)

Section Users.
Import Schema Db DbUsers.
Variable ownerOpenId : string.

Lemma head_only {A} (l : list A) x :
  x ∈ l -> (forall y, y ∈ l -> y = x) -> head l = Some x.
Proof.
  destruct l as [|a l]; [by intros ?%elem_of_nil|].
  intros _ Hall. simpl. f_equal. apply Hall. by left.
Qed.

Lemma byOpenId_None db o :
  byOpenId db o = None ->
  forall k u, rows (users db) !! k = Some u -> User.openId u ≠ o.
Proof.
  unfold byOpenId. intros Hnil%head_None k u Hk Ho.
  assert (Hin : (k, u) ∈ select (users db)
                   (fun u => bool_decide (User.openId u = o))).
  { apply elem_of_select. split; [done|]. by apply bool_decide_eq_true. }
  rewrite Hnil in Hin. by apply elem_of_nil in Hin.
Qed.

Lemma byOpenId_Some db o k u :
  byOpenId db o = Some (k, u) ->
  rows (users db) !! k = Some u /\ User.openId u = o.
Proof.
  unfold byOpenId. intros Hin%head_Some_elem_of.
  apply elem_of_select in Hin as [? ?%bool_decide_eq_true]. done.
Qed.

(** With unique ids the row that has the [openId] is the one found. *)
Lemma byOpenId_unique db o k u :
  uniqueOpenId db ->
  rows (users db) !! k = Some u -> User.openId u = o ->
  byOpenId db o = Some (k, u).
Proof.
  intros Huniq Hk Ho. unfold byOpenId. apply head_only.
  - apply elem_of_select. split; [done|]. by apply bool_decide_eq_true.
  - intros [j x] [Hj Hx%bool_decide_eq_true]%elem_of_select.
    assert (j = k) as -> by (eapply Huniq; eauto; congruence).
    congruence.
Qed.

Lemma written_user now s u :
  let u' := written User.touch now (applySet s) u in
  User.openId u' = User.openId u
  /\ User.name u' = default (User.name u) (s_name s)
  /\ User.email u' = default (User.email u) (s_email s)
  /\ User.loginMethod u' = default (User.loginMethod u) (s_loginMethod s)
  /\ User.role u' = default (User.role u) (s_role s)
  /\ User.lastSignedIn u' = default (User.lastSignedIn u) (s_lastSignedIn s)
  /\ User.stripeCustomerId u' = User.stripeCustomerId u
  /\ User.createdAt u' = User.createdAt u.
Proof.
  destruct u, s. unfold written. case_decide as Hset; simpl in *.
  - injection Hset as Hn He Hl Hr Hs. repeat split; congruence.
  - done.
Qed.

(** What [upsertUser] does to a connected store, by the two cases of the
    insert. *)
Lemma upsertUser_cases now user w db :
  openId user ≠ "" -> getDb w = Some db ->
  rows (users db) !! autoIncrement (users db) = None ->
  exists s db',
    upsertUser ownerOpenId now user w = (inr tt, mkWorld (Some db'))
    /\ conversations db' = conversations db /\ messages db' = messages db
    /\ appointments db' = appointments db
    /\ trainingExamples db' = trainingExamples db
    /\ (forall v, name user = Some v -> s_name s = Some v)
    /\ (forall v, email user = Some v -> s_email s = Some v)
    /\ (forall v, loginMethod user = Some v -> s_loginMethod s = Some v)
    /\ (forall t, lastSignedIn user = Some t -> s_lastSignedIn s = Some t)
    /\ (forall r, role user = Some r -> s_role s = Some r)
    /\ (role user = None -> openId user = ownerOpenId ->
        s_role s = Some RoleAdmin)
    /\ (name user = None -> s_name s = None)
    /\ (email user = None -> s_email s = None)
    /\ (loginMethod user = None -> s_loginMethod s = None)
    /\ (role user = None -> openId user ≠ ownerOpenId -> s_role s = None)
    /\ ((exists k u,
           byOpenId db (openId user) = Some (k, u)
           /\ rows (users db') !! k
              = Some (written User.touch now (applySet s) u)
           /\ forall j, j ≠ k -> rows (users db') !! j = rows (users db) !! j)
        \/ (byOpenId db (openId user) = None
            /\ rows (users db') !! autoIncrement (users db)
               = Some (newUser (openId user) s now)
            /\ is_Some (s_lastSignedIn s)
            /\ forall j, j ≠ autoIncrement (users db) ->
                 rows (users db') !! j = rows (users db) !! j)).
Proof.
  intros Ho Hdb Hfree. unfold upsertUser.
  rewrite bool_decide_false by done. rewrite Hdb. cbv zeta.
  set (role' := match role user with
                | Some r => Some r
                | None => if bool_decide (openId user = ownerOpenId)
                          then Some RoleAdmin else None
                end).
  assert (Hr1 : forall r, role user = Some r -> role' = Some r)
    by (intros r Hr; subst role'; by rewrite Hr).
  assert (Hr2 : role user = None -> openId user = ownerOpenId ->
                role' = Some RoleAdmin)
    by (intros Hr Hown; subst role'; rewrite Hr; by rewrite bool_decide_true).
  assert (Hr3 : role user = None -> openId user ≠ ownerOpenId ->
                role' = None)
    by (intros Hr Hown; subst role'; rewrite Hr; by rewrite bool_decide_false).
  clearbody role'.
  destruct (byOpenId db (openId user)) as [[k u]|] eqn:Hfind.
  - pose proof (byOpenId_Some _ _ _ _ Hfind) as [Hk _].
    destruct (isEmpty _) eqn:Hempty.
    + apply bool_decide_eq_true in Hempty.
      injection Hempty as Hn He Hl Hs Hr.
      exists (mkUserSet None None None (Some now) None). eexists.
      split; [reflexivity|]. simpl. do 4 (split; [done|]).
      split; [congruence|]. split; [congruence|]. split; [congruence|].
      split; [congruence|].
      split; [intros r ?%Hr1; congruence|].
      split; [intros H1 H2; specialize (Hr2 H1 H2); congruence|].
      do 4 (split; [done|]).
      left. exists k, u. split; [done|]. split.
      * by rewrite lookup_alter_eq, Hk.
      * intros j Hj. by apply lookup_alter_ne.
    + exists (mkUserSet (name user) (email user) (loginMethod user)
                        (lastSignedIn user) role'). eexists.
      split; [reflexivity|]. simpl. do 4 (split; [done|]).
      do 4 (split; [done|]). do 2 (split; [done|]). do 3 (split; [done|]).
      split; [done|].
      left. exists k, u. split; [done|]. split.
      * by rewrite lookup_alter_eq, Hk.
      * intros j Hj. by apply lookup_alter_ne.
  - unfold insert. rewrite Hfree.
    exists (mkUserSet (name user) (email user) (loginMethod user)
                      (Some (default now (lastSignedIn user))) role').
    eexists. split; [reflexivity|]. simpl.
    do 4 (split; [done|]). do 3 (split; [done|]).
    split; [by intros t ->|]. do 2 (split; [done|]). do 3 (split; [done|]).
    split; [done|].
    right. split; [done|]. split; [apply lookup_insert_eq|].
    split; [done|]. intros j Hj. by apply lookup_insert_ne.
Qed.

End Users.

Section UsersUpsert.
Import Schema Db DbUsers.
Variable ownerOpenId : string.

(** The row [upsertUser] leaves for the [openId], new or updated. *)
Lemma upsert_effect now user w db :
  uniqueOpenId db ->
  openId user ≠ "" -> getDb w = Some db ->
  rows (users db) !! autoIncrement (users db) = None ->
  exists k u' db',
    upsertUser ownerOpenId now user w = (inr tt, mkWorld (Some db'))
    /\ rows (users db') !! k = Some u'
    /\ (forall j, j ≠ k -> rows (users db') !! j = rows (users db) !! j)
    /\ (forall j u, rows (users db) !! j = Some u ->
          User.openId u = openId user -> j = k)
    /\ conversations db' = conversations db /\ messages db' = messages db
    /\ appointments db' = appointments db
    /\ trainingExamples db' = trainingExamples db
    /\ User.openId u' = openId user
    /\ (forall v, name user = Some v -> User.name u' = v)
    /\ (forall v, email user = Some v -> User.email u' = v)
    /\ (forall v, loginMethod user = Some v -> User.loginMethod u' = v)
    /\ (forall t, lastSignedIn user = Some t -> User.lastSignedIn u' = t)
    /\ (forall r, role user = Some r -> User.role u' = r)
    /\ (role user = None -> openId user = ownerOpenId ->
        User.role u' = RoleAdmin)
    /\ match rows (users db) !! k with
       | Some u =>
         User.stripeCustomerId u' = User.stripeCustomerId u
         /\ User.createdAt u' = User.createdAt u
         /\ (name user = None -> User.name u' = User.name u)
         /\ (email user = None -> User.email u' = User.email u)
         /\ (loginMethod user = None ->
             User.loginMethod u' = User.loginMethod u)
         /\ (role user = None -> openId user ≠ ownerOpenId ->
             User.role u' = User.role u)
       | None =>
         User.stripeCustomerId u' = None
         /\ User.createdAt u' = now
         /\ (name user = None -> User.name u' = None)
         /\ (email user = None -> User.email u' = None)
         /\ (loginMethod user = None -> User.loginMethod u' = None)
         /\ (role user = None -> openId user ≠ ownerOpenId ->
             User.role u' = RoleUser)
       end.
Proof.
  intros Huniq Ho Hdb Hfree.
  destruct (upsertUser_cases ownerOpenId now user w db Ho Hdb Hfree)
    as (s & db' & Hcall & ? & ? & ? & ? & Hn & He & Hl & Hs & Hr & Hown
        & Hn0 & He0 & Hl0 & Hr0 & Hcases).
  destruct Hcases as [(k & u & Hfind & Hk' & Hother)
                     | (Hfind & Hk' & [t Ht] & Hother)].
  - apply byOpenId_Some in Hfind as [Hk Hou].
    pose proof (written_user now s u)
      as (Eo & En & Ee & El & Er & Es & Ec & Ecr).
    exists k, (written User.touch now (applySet s) u), db'.
    split; [done|]. split; [done|]. split; [done|].
    split; [intros j x Hj Hx; eapply Huniq; eauto; congruence|].
    do 4 (split; [done|]). split; [congruence|].
    split; [intros v ?%Hn; rewrite En; by destruct (s_name s); simplify_eq|].
    split; [intros v ?%He; rewrite Ee; by destruct (s_email s); simplify_eq|].
    split; [intros v ?%Hl; rewrite El;
            by destruct (s_loginMethod s); simplify_eq|].
    split; [intros v ?%Hs; rewrite Es;
            by destruct (s_lastSignedIn s); simplify_eq|].
    split; [intros v ?%Hr; rewrite Er; by destruct (s_role s); simplify_eq|].
    split; [intros Hrn Hro; rewrite Er, (Hown Hrn Hro); done|].
    rewrite Hk. split; [done|]. split; [done|].
    split; [intros ?%Hn0; rewrite En; by destruct (s_name s)|].
    split; [intros ?%He0; rewrite Ee; by destruct (s_email s)|].
    split; [intros ?%Hl0; rewrite El; by destruct (s_loginMethod s)|].
    intros Hrn Hro. rewrite Er, (Hr0 Hrn Hro). done.
  - exists (autoIncrement (users db)), (newUser (openId user) s now), db'.
    split; [done|]. split; [done|]. split; [done|].
    split; [intros j x Hj Hx; by destruct (byOpenId_None _ _ Hfind j x Hj)|].
    do 4 (split; [done|]). split; [done|]. simpl.
    split; [by intros v ->%Hn|]. split; [by intros v ->%He|].
    split; [by intros v ->%Hl|]. split; [by intros v ->%Hs|].
    split; [by intros v ->%Hr|].
    split; [intros Hrn Hro; by rewrite (Hown Hrn Hro)|].
    rewrite Hfree. split; [done|]. split; [done|].
    split; [by intros ->%Hn0|]. split; [by intros ->%He0|].
    split; [by intros ->%Hl0|]. intros Hrn Hro. by rewrite (Hr0 Hrn Hro).
Qed.

(** X26.  After [upsertUser] with a database, [getUserByOpenId] finds the user:
    a row with this [openId] that has every field the call gave (a [null]
    included), and the role admin when no role was given and the [openId] is
    the owner's. *)
Theorem upserted_user_is_found now user w db :
  uniqueOpenId db ->
  openId user ≠ "" -> getDb w = Some db ->
  rows (users db) !! autoIncrement (users db) = None ->
  exists w' k u',
    upsertUser ownerOpenId now user w = (inr tt, w')
    /\ getUserByOpenId (openId user) w' = Some (k, u')
    /\ User.openId u' = openId user
    /\ (forall v, name user = Some v -> User.name u' = v)
    /\ (forall v, email user = Some v -> User.email u' = v)
    /\ (forall v, loginMethod user = Some v -> User.loginMethod u' = v)
    /\ (forall t, lastSignedIn user = Some t -> User.lastSignedIn u' = t)
    /\ (forall r, role user = Some r -> User.role u' = r)
    /\ (role user = None -> openId user = ownerOpenId ->
        User.role u' = RoleAdmin).
Proof.
  intros Huniq Ho Hdb Hfree.
  destruct (upsert_effect now user w db Huniq Ho Hdb Hfree)
    as (k & u' & db' & Hcall & Hk & Hother & Honly & _ & _ & _ & _ & Hou
        & Hfields).
  exists (mkWorld (Some db')), k, u'. split; [done|]. split; [|tauto].
  unfold getUserByOpenId, byOpenId. simpl. apply head_only.
  - apply elem_of_select. split; [done|]. by apply bool_decide_eq_true.
  - intros [j x] [Hj Hx%bool_decide_eq_true]%elem_of_select.
    destruct (decide (j = k)) as [->|Hjk]; [congruence|].
    rewrite Hother in Hj by done. by destruct (Hjk (Honly j x Hj Hx)).
Qed.


End UsersUpsert.

Section Conversations.
Import Schema Db DbUsers.

(** X28.  [chat.startConversation] by a user of the [users] table returns the
    id of a new conversation that [getConversationById] finds: owned by the
    caller, titled "New Conversation", active; and [chat.getConversations]
    then lists it for the caller. *)
Theorem started_conversation_is_found now ctx w db :
  getDb w = Some db ->
  is_Some (rows (users db) !! Ctx.user_id ctx) ->
  rows (conversations db) !! autoIncrement (conversations db) = None ->
  exists k w' c convs,
    Routers.chat.startConversation now ctx w = (inr k, w')
    /\ getConversationById k w' = Some (k, c)
    /\ getConversationById k w = None
    /\ Conversation.userId c = Ctx.user_id ctx
    /\ Conversation.title c = Some "New Conversation"
    /\ Conversation.status c = Some Active
    /\ Routers.chat.getConversations ctx w' = (inr convs, w')
    /\ (k, c) ∈ convs.
Proof.
  intros Hdb Huser Hfree.
  unfold Routers.chat.startConversation, createConversation. rewrite Hdb.
  unfold exists_in. rewrite bool_decide_true by done.
  match goal with
  | |- context [insert ?r (conversations db)] =>
    destruct (insert_fresh r (conversations db) Hfree)
      as (t & -> & Hk & Hother)
  end.
  simpl. eexists _, _, _, _. split; [reflexivity|].
  unfold getConversationById, StripeRouter.selectById. simpl.
  rewrite Hk, Hdb, Hfree. simpl.
  split; [reflexivity|]. do 4 (split; [done|]).
  unfold Routers.chat.getConversations, getConversationsByUserId. simpl.
  split; [reflexivity|].
  match goal with
  | |- context [desc Conversation.updatedAt (select ?tb ?c)] =>
    destruct (desc_select Conversation.updatedAt tb c) as (Hc & _)
  end.
  apply Hc. split; [exact Hk|]. by apply bool_decide_eq_true.
Qed.


End Conversations.

(** ** The further properties on the sample data *)

Section MoreSamples.
Import Schema Db StripeWebhook.

Lemma sample_unique : DbUsers.uniqueOpenId Sample.store.
Proof.
  intros k1 k2 u1 u2 Hu1 Hu2 He. simpl in Hu1, Hu2.
  repeat match goal with
  | H : <[_ := _]> _ !! _ = Some _ |- _ =>
    apply lookup_insert_Some in H as [[<- <-] | [? H]]
  | H : ∅ !! _ = Some _ |- _ => by rewrite lookup_empty in H
  end; done.
Qed.

(** A test event that names the haircut of Ana as paid changes nothing. *)
Lemma test_event_verified_witness :
  handleStripeWebhook Sample.secret Sample2.constructEvent 2000
    (mkRequest (Some Sample.secret) "test_checkout_paid") Sample.world
  = (mkResponse 200 JVerified, Sample.world).
Proof.
  apply (test_event_verified Sample.secret Sample2.constructEvent 2000
           (mkRequest (Some Sample.secret) "test_checkout_paid") Sample.world
           Sample.secret Sample2.test_checkout_paid);
    [reflexivity | discriminate | reflexivity | reflexivity].
Defined.

(** A customer.created event that carries the id of the haircut. *)
Lemma unhandled_event_acknowledged_witness :
  handleStripeWebhook Sample.secret Sample2.constructEvent 2000
    (mkRequest (Some Sample.secret) "customer_created") Sample.world
  = (mkResponse 200 JReceived, Sample.world).
Proof.
  apply (unhandled_event_acknowledged Sample.secret Sample2.constructEvent
           2000 (mkRequest (Some Sample.secret) "customer_created")
           Sample.world Sample.secret Sample2.customer_created);
    [reflexivity | discriminate | reflexivity | reflexivity | reflexivity].
Defined.

(** A completed checkout whose reference is -5. *)
Lemma unknown_appointment_ignored_witness :
  handleStripeWebhook Sample.secret Sample2.constructEvent 2000
    (mkRequest (Some Sample.secret) "checkout_unknown") Sample.world
  = (mkResponse 200 JReceived, Sample.world).
Proof.
  apply (unknown_appointment_ignored Sample.secret Sample2.constructEvent
           2000 (mkRequest (Some Sample.secret) "checkout_unknown")
           Sample.world Sample.secret Sample2.checkout_unknown Sample.store
           (-5));
    [reflexivity | discriminate | reflexivity | reflexivity | reflexivity
    | reflexivity | reflexivity].
Defined.

(** The paid checkout of Ana while the database is not configured. *)
Lemma webhook_without_database_witness :
  (handleStripeWebhook Sample.secret Sample.constructEvent 2000
     (mkRequest (Some Sample.secret) "checkout_paid") Sample.offline).2
  = Sample.offline
  /\ status (handleStripeWebhook Sample.secret Sample.constructEvent 2000
               (mkRequest (Some Sample.secret) "checkout_paid")
               Sample.offline).1 = 200.
Proof.
  destruct (webhook_without_database Sample.secret Sample.constructEvent 2000
              (mkRequest (Some Sample.secret) "checkout_paid")
              Sample.offline eq_refl) as [Hw Hs].
  split; [exact Hw|].
  apply (Hs Sample.secret Sample.checkout_paid);
    [reflexivity | discriminate | reflexivity].
Defined.

(** The paid checkout of Ana leaves the users and the counter alone. *)
Lemma webhook_frame_witness :
  exists db',
    getDb (handleStripeWebhook Sample.secret Sample.constructEvent 2000
             (mkRequest (Some Sample.secret) "checkout_paid")
             Sample.world).2 = Some db'
    /\ users db' = users Sample.store
    /\ autoIncrement (appointments db') = 2
    /\ Appointment.userId <$> rows (appointments db') !! 1 = Some 1.
Proof.
  destruct (webhook_frame Sample.secret Sample.constructEvent 2000
              (mkRequest (Some Sample.secret) "checkout_paid") Sample.world
              Sample.store eq_refl)
    as (db' & Hdb' & Hu & _ & _ & _ & Hn & Hdom & Hcols).
  exists db'. split; [exact Hdb'|]. split; [exact Hu|]. split; [exact Hn|].
  destruct (proj2 (Hdom 1)) as [a' Ha']; [by eexists|].
  rewrite Ha'. simpl. f_equal.
  apply (Hcols 1 Sample.haircut a' eq_refl Ha').
Defined.

(** The payment intent of the sample pays the haircut of Ana. *)
Lemma payment_succeeded_confirms_witness :
  exists db' a',
    getDb (handlePaymentIntentSucceeded 2000
             (Event.data_object Sample.intent_paid) Sample.world) = Some db'
    /\ rows (appointments db') !! 1 = Some a'
    /\ Appointment.paymentStatus a' = Some PayCompleted
    /\ Appointment.status a' = Some Confirmed
    /\ Appointment.stripePaymentIntentId a' = Some "pi_1"
    /\ Appointment.stripeCheckoutSessionId a' = None.
Proof.
  apply (payment_succeeded_confirms 2000
           (Event.data_object Sample.intent_paid) Sample.world Sample.store
           1 Sample.haircut);
    [reflexivity | reflexivity | lia | reflexivity].
Defined.

(** A later payment of Dora fails: her appointment stays confirmed. *)
Lemma payment_failed_keeps_status_witness :
  exists db' a',
    getDb (handlePaymentIntentFailed 2000
             (Obj.mk "pi_9" None (Some (<["appointment_id" := "2"]> ∅)))
             Sample2.world) = Some db'
    /\ rows (appointments db') !! 2 = Some a'
    /\ Appointment.paymentStatus a' = Some PayFailed
    /\ Appointment.stripePaymentIntentId a' = Some "pi_9"
    /\ Appointment.status a' = Some Confirmed
    /\ Appointment.stripeCheckoutSessionId a' = Some "cs_7".
Proof.
  apply (payment_failed_keeps_status 2000
           (Obj.mk "pi_9" None (Some (<["appointment_id" := "2"]> ∅)))
           Sample2.world Sample2.store 2 Sample2.paid_cut);
    [reflexivity | reflexivity | lia | reflexivity].
Defined.

(** The charge of Dora is refunded. *)
Lemma charge_refunded_cancels_witness :
  exists db' a',
    getDb (handleChargeRefunded 2000
             (Obj.mk "ch_9" None (Some (<["appointment_id" := "2"]> ∅)))
             Sample2.world) = Some db'
    /\ rows (appointments db') !! 2 = Some a'
    /\ Appointment.paymentStatus a' = Some PayRefunded
    /\ Appointment.status a' = Some Cancelled
    /\ Appointment.stripePaymentIntentId a' = Some "pi_7"
    /\ Appointment.stripeCheckoutSessionId a' = Some "cs_7".
Proof.
  apply (charge_refunded_cancels 2000
           (Obj.mk "ch_9" None (Some (<["appointment_id" := "2"]> ∅)))
           Sample2.world Sample2.store 2 Sample2.paid_cut);
    [reflexivity | reflexivity | lia | reflexivity].
Defined.

(** The two events that pay the haircut of Ana, in both orders. *)
Lemma checkout_and_intent_commute_witness :
  exists db1 db2 a1 a2,
    getDb (handlePaymentIntentSucceeded 3000
             (Event.data_object Sample.intent_paid)
             (handleCheckoutSessionCompleted 2000
                (Event.data_object Sample.checkout_paid) Sample.world))
    = Some db1
    /\ getDb (handleCheckoutSessionCompleted 3000
                (Event.data_object Sample.checkout_paid)
                (handlePaymentIntentSucceeded 2000
                   (Event.data_object Sample.intent_paid) Sample.world))
       = Some db2
    /\ rows (appointments db1) !! 1 = Some a1
    /\ rows (appointments db2) !! 1 = Some a2
    /\ Appointment.touch 0 a1 = Appointment.touch 0 a2
    /\ Appointment.status a1 = Some Confirmed
    /\ Appointment.paymentStatus a1 = Some PayCompleted
    /\ Appointment.stripeCheckoutSessionId a1 = Some "cs_1"
    /\ Appointment.stripePaymentIntentId a1 = Some "pi_1".
Proof.
  apply (checkout_and_intent_commute 2000 3000
           (Event.data_object Sample.checkout_paid)
           (Event.data_object Sample.intent_paid) Sample.world Sample.store
           1 Sample.haircut);
    [reflexivity | reflexivity | reflexivity | lia | reflexivity].
Defined.

(** A refund and a success for the haircut of Ana, in both orders. *)
Lemma last_event_decides_witness :
  (exists db1 a1,
     getDb (handlePaymentIntentSucceeded 3000
              (Event.data_object Sample.intent_paid)
              (handleChargeRefunded 2000
                 (Event.data_object Sample2.refund) Sample.world)) = Some db1
     /\ rows (appointments db1) !! 1 = Some a1
     /\ Appointment.paymentStatus a1 = Some PayCompleted
     /\ Appointment.status a1 = Some Confirmed)
  /\ (exists db2 a2,
        getDb (handleChargeRefunded 3000
                 (Event.data_object Sample2.refund)
                 (handlePaymentIntentSucceeded 2000
                    (Event.data_object Sample.intent_paid) Sample.world))
        = Some db2
        /\ rows (appointments db2) !! 1 = Some a2
        /\ Appointment.paymentStatus a2 = Some PayRefunded
        /\ Appointment.status a2 = Some Cancelled).
Proof.
  apply (last_event_decides 2000 3000 (Event.data_object Sample2.refund)
           (Event.data_object Sample.intent_paid) Sample.world Sample.store
           1 Sample.haircut);
    [reflexivity | reflexivity | reflexivity | lia | reflexivity].
Defined.

End MoreSamples.

Section MoreSamplesApi.
Import Schema Db.

Lemma sample_customers p : exists c, Sample.customers_create p = inr c.
Proof. by eexists. Qed.
Lemma sample_sessions p : exists s, Sample.sessions_create p = inr s.
Proof. by eexists. Qed.

(** Ana opens the checkout of her haircut. *)
Lemma checkout_session_created_witness :
  exists p session db' a',
    Sample.sessions_create p = inr session
    /\ StripeRouter.createCheckoutSession Sample.customers_create
         Sample.sessions_create 3000 Sample.ctx_ana 1 "haircut" Sample.world
       = (inr (StripeRouter.mkCheckoutResult
                 (StripeRouter.session_id session)
                 (StripeRouter.session_url session)),
          mkWorld (Some db'))
    /\ Js.parseInt (StripeRouter.sp_client_reference_id p) = Some 1
    /\ StripeRouter.sp_metadata p !! "appointment_id"
       = Some (StripeRouter.sp_client_reference_id p)
    /\ StripeRouter.sp_metadata p !! "service_id" = Some "haircut"
    /\ StripeRouter.sp_unit_amount p = 2500
    /\ StripeRouter.sp_currency p = "usd"
    /\ rows (appointments db') !! 1 = Some a'
    /\ (forall j, j ≠ 1 ->
          rows (appointments db') !! j
          = rows (appointments Sample.store) !! j)
    /\ Appointment.stripeCheckoutSessionId a'
       = Some (StripeRouter.session_id session)
    /\ Appointment.priceInCents a' = Some 2500
    /\ Appointment.sameButCheckout Sample.haircut a'.
Proof.
  apply (checkout_session_created Sample.customers_create
           Sample.sessions_create 3000 Sample.ctx_ana 1 "haircut"
           Sample.world Sample.store Sample.haircut Products.HAIRCUT);
    [reflexivity | reflexivity | reflexivity | reflexivity
    | exact sample_customers | exact sample_sessions].
Defined.

(** Ana pays her haircut, from the checkout to the status. *)
Lemma checkout_then_webhook_then_status_witness :
  exists p session w1,
    Sample.sessions_create p = inr session
    /\ StripeRouter.createCheckoutSession Sample.customers_create
         Sample.sessions_create 3000 Sample.ctx_ana 1 "haircut" Sample.world
       = (inr (StripeRouter.mkCheckoutResult
                 (StripeRouter.session_id session)
                 (StripeRouter.session_url session)), w1)
    /\ let w2 :=
         StripeWebhook.handleCheckoutSessionCompleted 4000
           (StripeWebhook.Obj.mk (StripeRouter.session_id session)
              (Some (StripeRouter.sp_client_reference_id p))
              (Some (StripeRouter.sp_metadata p))) w1 in
       StripeRouter.getPaymentStatus Sample.ctx_ana 1 w2
       = (inr (StripeRouter.mkPaymentStatusResult (Some PayCompleted)
                 (Some Confirmed) (Some 2500)), w2).
Proof.
  apply (checkout_then_webhook_then_status Sample.customers_create
           Sample.sessions_create 3000 4000 Sample.ctx_ana 1 "haircut"
           Sample.world Sample.store Sample.haircut Products.HAIRCUT);
    [reflexivity | reflexivity | reflexivity | lia | reflexivity
    | exact sample_customers | exact sample_sessions].
Defined.

(** Dora has a customer id: no customer is created for her checkout. *)
Lemma existing_customer_reused_witness :
  StripeRouter.createCheckoutSession Sample.customers_create
    Sample.sessions_create 3000 Sample2.ctx_dora 2 "full_service"
    Sample2.world
  = StripeRouter.createCheckoutSession Sample2.customers_fixed
      Sample.sessions_create 3000 Sample2.ctx_dora 2 "full_service"
      Sample2.world
  /\ exists db',
       getDb (StripeRouter.createCheckoutSession Sample.customers_create
                Sample.sessions_create 3000 Sample2.ctx_dora 2 "full_service"
                Sample2.world).2 = Some db'
       /\ users db' = users Sample2.store.
Proof.
  destruct (existing_customer_reused Sample.sessions_create
              Sample.customers_create Sample2.customers_fixed 3000
              Sample2.ctx_dora 2 "full_service" Sample2.world "cus_dora"
              eq_refl ltac:(discriminate)) as (Hsame & _ & Husers).
  split; [exact Hsame|]. exact (Husers Sample2.store eq_refl).
Defined.

(** Stripe creates the customer of Ana and refuses her session. *)
Lemma customer_kept_when_session_fails_witness :
  exists e db' u',
    StripeRouter.createCheckoutSession Sample2.customers_fixed
      Sample2.sessions_refused 3000 Sample.ctx_ana 1 "haircut" Sample.world
    = (inl (JsError e), mkWorld (Some db'))
    /\ appointments db' = appointments Sample.store
    /\ rows (users db') !! 1 = Some u'
    /\ User.stripeCustomerId u' = Some "cus_new".
Proof.
  apply (customer_kept_when_session_fails Sample2.sessions_refused
           Sample2.customers_fixed 3000 Sample.ctx_ana 1 "haircut"
           Sample.world Sample.store Sample.haircut Products.HAIRCUT
           Sample.ana "cus_new");
    [reflexivity | reflexivity | reflexivity | reflexivity | reflexivity
    | reflexivity | reflexivity | by eexists].
Defined.

(** No appointment 99, and no service "shave" for the haircut of Ana. *)
Lemma checkout_rejections_witness :
  StripeRouter.getPaymentStatus Sample.ctx_ana 99 Sample.world
  = (inl (JsError "Appointment not found"), Sample.world)
  /\ StripeRouter.createCheckoutSession Sample.customers_create
       Sample.sessions_create 3000 Sample.ctx_ana 1 "shave" Sample.world
     = (inl (JsError "Service not found"), Sample.world).
Proof.
  split.
  - apply (proj1 (proj2 (checkout_rejections Sample.sessions_create
                           Sample.customers_create 3000 Sample.ctx_ana 99
                           "haircut" Sample.world)) Sample.store);
      reflexivity.
  - apply (proj2 (proj2 (checkout_rejections Sample.sessions_create
                           Sample.customers_create 3000 Sample.ctx_ana 1
                           "shave" Sample.world)) Sample.store Sample.haircut);
      reflexivity.
Defined.


(** The lists of Ana. *)
Lemma own_rows_listed_witness :
  exists apps convs,
    Routers.appointments.list Sample.ctx_ana Sample.world
    = (inr apps, Sample.world)
    /\ Routers.chat.getConversations Sample.ctx_ana Sample.world
       = (inr convs, Sample.world)
    /\ (1, Sample.haircut) ∈ apps.
Proof.
  destruct (own_rows_listed Sample.ctx_ana Sample.world Sample.store eq_refl)
    as (apps & convs & Ha & Hc & Hin & _).
  exists apps, convs. split; [exact Ha|]. split; [exact Hc|].
  apply Hin. split; reflexivity.
Defined.

(** Carla, administrator, sees the paid appointment of Dora. *)
Lemma admin_sees_every_appointment_witness :
  exists apps,
    Routers.appointments.listAll Sample.ctx_carla Sample2.world
    = (inr apps, Sample2.world)
    /\ (2, Sample2.paid_cut) ∈ apps.
Proof.
  destruct (admin_sees_every_appointment Sample.ctx_carla Sample2.world
              Sample2.store eq_refl eq_refl) as (apps & Ha & Hin & _).
  exists apps. split; [exact Ha|]. apply Hin. reflexivity.
Defined.

(** Ana books a second appointment. *)
Lemma created_appointment_is_pending_witness :
  exists db' a,
    Routers.appointments.create 3000 Sample.ctx_ana
      (Routers.appointments.mkCreateInput "Haircut" 30 95000 (Some "John")
         None) Sample.world
    = (inr 2, mkWorld (Some db'))
    /\ rows (appointments db') !! 2 = Some a
    /\ Appointment.userId a = 1
    /\ Appointment.status a = Some Pending
    /\ Appointment.paymentStatus a = Some PayPending.
Proof.
  destruct (created_appointment_is_pending 3000 Sample.ctx_ana
              (Routers.appointments.mkCreateInput "Haircut" 30 95000
                 (Some "John") None) Sample.world Sample.store eq_refl
              ltac:(by eexists) eq_refl)
    as (k & db' & a & Hcall & _ & Hk & _ & Hu & _ & _ & _ & _ & _ & Hst
        & Hpay & _).
  assert (k = 2) as -> by (vm_compute in Hcall; congruence).
  by exists db', a.
Defined.

(** Bruno writes into the conversation of Ana. *)
Lemma sent_message_is_listed_witness :
  exists k w',
    Routers.chat.sendMessage 3000 Sample.ctx_bruno 1 "Tomorrow at ten"
      Sample.world = (inr true, w')
    /\ forall l,
         Routers.chat.getMessages Sample.ctx_ana 1 w' = (inr l, w') ->
         (k, Message.mk 1 MsgUser "Tomorrow at ten" None 3000) ∈ l.
Proof.
  destruct (sent_message_is_listed 3000 Sample.ctx_bruno 1 "Tomorrow at ten"
              Sample.world Sample.store eq_refl ltac:(by eexists) eq_refl)
    as (k & w' & Hcall & Hlist).
  exists k, w'. split; [exact Hcall|]. intros l Hl.
  apply (Hlist Sample.ctx_ana 1 _ l eq_refl Hl). right. done.
Defined.

(** Carla changes the quality of an example and gives no [active]. *)
Lemma update_without_active_deactivates_witness :
  exists db' e',
    Routers.training.updateExample 3000 Sample.ctx_carla
      (Routers.training.mkUpdateInput 1 (Some Excellent) None) Sample2.world
    = (inr true, mkWorld (Some db'))
    /\ rows (trainingExamples db') !! 1 = Some e'
    /\ TrainingExample.active e' = Some 0
    /\ TrainingExample.quality e' = Some Excellent.
Proof.
  destruct (update_without_active_deactivates 3000 Sample.ctx_carla
              (Routers.training.mkUpdateInput 1 (Some Excellent) None)
              Sample2.world Sample2.store Sample2.example1 eq_refl eq_refl
              eq_refl eq_refl)
    as (db' & e' & Hcall & He' & Hact & Hq & _).
  by exists db', e'.
Defined.

(** Ana cancels an appointment that does not exist. *)
Lemma update_of_missing_appointment_witness :
  Routers.appointments.update 3000 Sample.ctx_ana
    (Routers.appointments.mkUpdateInput 99 (Some Cancelled) None) Sample.world
  = (inr true, Sample.world).
Proof.
  apply (update_of_missing_appointment 3000 Sample.ctx_ana
           (Routers.appointments.mkUpdateInput 99 (Some Cancelled) None)
           Sample.world Sample.store); [reflexivity | reflexivity |].
  left. by eexists.
Defined.

(** Ana starts a second conversation. *)
Lemma started_conversation_is_found_witness :
  exists w' c,
    Routers.chat.startConversation 3000 Sample.ctx_ana Sample.world
    = (inr 2, w')
    /\ DbUsers.getConversationById 2 w' = Some (2, c)
    /\ Conversation.userId c = 1
    /\ Conversation.title c = Some "New Conversation".
Proof.
  destruct (started_conversation_is_found 3000 Sample.ctx_ana Sample.world
              Sample.store eq_refl ltac:(by eexists) eq_refl)
    as (k & w' & c & convs & Hcall & Hfind & _ & Hu & Ht & _).
  assert (k = 2) as -> by (vm_compute in Hcall; congruence).
  by exists w', c.
Defined.

(** Eva signs in for the first time, as the owner. *)
Lemma upserted_user_is_found_witness :
  exists w' k u',
    DbUsers.upsertUser "sample-user-5" 3000
      (DbUsers.mkInsertUser "sample-user-5" (Some (Some "Eva")) (Some None)
         None None None) Sample.world = (inr tt, w')
    /\ DbUsers.getUserByOpenId "sample-user-5" w' = Some (k, u')
    /\ User.name u' = Some "Eva"
    /\ User.email u' = None
    /\ User.role u' = RoleAdmin.
Proof.
  destruct (upserted_user_is_found "sample-user-5" 3000
              (DbUsers.mkInsertUser "sample-user-5" (Some (Some "Eva"))
                 (Some None) None None None)
              Sample.world Sample.store sample_unique ltac:(discriminate)
              eq_refl eq_refl)
    as (w' & k & u' & Hcall & Hfind & _ & Hn & He & _ & _ & _ & Hr).
  exists w', k, u'. split; [exact Hcall|]. split; [exact Hfind|].
  split; [by apply Hn|]. split; [by apply He|]. by apply Hr.
Defined.


(** The haircut, asked for by its id in capitals. *)
Lemma getServiceByName_by_id_witness :
  Js.caseVariant (Products.id Products.HAIRCUT) "HAIRCUT"
  /\ Products.getServiceByName "HAIRCUT" = Some Products.HAIRCUT.
Proof.
  assert (Hin : Products.HAIRCUT ∈ Products.BARBERSHOP_SERVICES)
    by repeat constructor.
  assert (Hv : Js.caseVariant (Products.id Products.HAIRCUT) "HAIRCUT").
  { simpl.
    repeat match goal with
    | |- Js.caseVariant EmptyString EmptyString => apply Js.cv_nil
    | |- Js.caseVariant (String _ _) (String ?b _) =>
      apply (Js.cv_upper b); [reflexivity|]
    end. }
  split; [exact Hv|].
  exact (proj1 getServiceByName_by_id_and_sound Products.HAIRCUT _ Hin Hv).
Defined.

End MoreSamplesApi.
